(** * Knowledge-graph pipeline: validator, extractor coercion, orchestrator

    A shallow embedding of the TypeScript sources
    [src/agents/validationAgent.ts] (classes [ValidationAgent] and
    [ExtractionAgent]) and [src/orchestrator.ts] (class
    [PipelineOrchestrator]), together with the properties the
    specification states about them.

    Conventions of the embedding.
    - A JavaScript [number] that an entity carries as its confidence, or
      that is compared with a threshold, is the rational ([Q]) its decimal
      literal spells (0.4 is 4#10); a comparison of two such numbers is the
      comparison of the rationals.  [NaN] only arises inside the coercion
      [Number(x) || 0.7] and is the [None] of an [option Q] there.
    - Arithmetic on confidences is IEEE 754 binary64, as the language has
      it (module [Binary64]): the sum and the quotient of
      [validateExtraction] round to the nearest double, ties to even, and a
      confidence enters them as the double nearest to its rational.  The
      failure rate of a batch, a quotient of two counts that is only
      compared with 0.3, is the rational quotient.
    - A value read from the parsed JSON is untyped.  It is kept with what
      the code observes of it: its truthiness, what [toString()] or
      [Number(...)] makes of it, and the [TypeError] of a method it does
      not have.
    - A call that can throw ends in an [Outcome]: the value returned, or
      the message of the error.
    - Counts, indices and scores are [nat] or [Z].
    - A JavaScript string is a [string]; letters are the ASCII letters, so
      [toLowerCase] maps 'A'..'Z' to 'a'..'z' and leaves every other code
      unit alone, and [trim] removes the ASCII white space.
    - [Array.prototype.push] appends at the end of a list.
    - An [async] method is a function from the world at the call to its
      settled promise and the world then; the world holds the tables of the
      store, the trace of calls to collaborators, and a clock that the
      answers of the collaborators may depend on.
    - Console output is not modelled.

    The first part of the file holds the embedding and the vocabulary of the
    statements, the second part the proofs. *)

From Stdlib Require Import List Bool Arith ZArith QArith Qminmax Lia.
From Stdlib Require Import Ascii String.
From Stdlib Require Import Permutation Sorted.
From Stdlib Require Import SpecFloat.
Import ListNotations.

Open Scope string_scope.
Open Scope list_scope.

(* ================================================================== *)
(** ** JavaScript string primitives *)
(* ================================================================== *)

Module JsString.

(** [c] as a lower-case code unit. *)
Definition lowerChar (c : ascii) : ascii :=
  let n := nat_of_ascii c in
  if (65 <=? n)%nat && (n <=? 90)%nat then ascii_of_nat (n + 32) else c.

(** [s.toLowerCase()] *)
Fixpoint toLowerCase (s : string) : string :=
  match s with
  | EmptyString => EmptyString
  | String c s' => String (lowerChar c) (toLowerCase s')
  end.

(** [s.startsWith(t)] *)
Fixpoint startsWith (s t : string) {struct t} : bool :=
  match t, s with
  | EmptyString, _ => true
  | String _ _, EmptyString => false
  | String b t', String a s' => Ascii.eqb a b && startsWith s' t'
  end.

(** [s.includes(t)]: [t] starts at some position of [s]. *)
Fixpoint includes (s t : string) : bool :=
  startsWith s t ||
  match s with
  | EmptyString => false
  | String _ s' => includes s' t
  end.

(** [s.split(sep)] for a one-character separator: never empty, and
    [""] splits into [[""]]. *)
Fixpoint split (sep : ascii) (s : string) : list string :=
  match s with
  | EmptyString => [EmptyString]
  | String c s' =>
      if Ascii.eqb c sep then EmptyString :: split sep s'
      else match split sep s' with
           | [] => [String c EmptyString]
           | w :: ws => String c w :: ws
           end
  end.

(** [s.substring(indexStart, indexEnd)]: the arguments are swapped when
    out of order and capped at the length. *)
Definition substring (s : string) (indexStart indexEnd : nat) : string :=
  let a := Nat.min indexStart indexEnd in
  let b := Nat.max indexStart indexEnd in
  String.substring a (b - a) s.

(** White space removed by [trim]: TAB, LF, VT, FF, CR and SPACE. *)
Definition isWhiteSpace (c : ascii) : bool :=
  let n := nat_of_ascii c in
  ((9 <=? n)%nat && (n <=? 13)%nat) || (n =? 32)%nat.

Fixpoint trimStart (s : string) : string :=
  match s with
  | EmptyString => EmptyString
  | String c s' => if isWhiteSpace c then trimStart s' else s
  end.

Fixpoint trimEnd (s : string) : string :=
  match s with
  | EmptyString => EmptyString
  | String c s' =>
      match trimEnd s' with
      | EmptyString => if isWhiteSpace c then EmptyString
                       else String c EmptyString
      | r => String c r
      end
  end.

(** [s.trim()] *)
Definition trim (s : string) : string := trimEnd (trimStart s).

(** [t] occurs in [s] as a contiguous run of code units. *)
Definition Substring (t s : string) : Prop :=
  exists a b : string, s = (a ++ t ++ b)%string.

End JsString.

(* ================================================================== *)
(** ** JavaScript numbers in arithmetic: IEEE 754 binary64 *)
(* ================================================================== *)

Module Binary64.

Definition prec : Z := 53.
Definition emax : Z := 1024.

(** A double: a signed zero, an infinity, [NaN], or a finite number
    [(-1)^s * m * 2^e]. *)
Definition float64 : Type := spec_float.

Definition zero : float64 := S754_zero false.

(** [x + y] *)
Definition add (x y : float64) : float64 := SFadd prec emax x y.

(** [x / y] *)
Definition div (x y : float64) : float64 := SFdiv prec emax x y.

(** [x <= y]; false when either is [NaN]. *)
Definition leb (x y : float64) : bool := SFleb x y.

(** A count as a double (exact below 2^53). *)
Definition ofNat (n : nat) : float64 :=
  binary_normalize prec emax (Z.of_nat n) 0 false.

(** The double a number denotes: the double nearest to the rational, ties
    to even, as a decimal literal is read. *)
Definition ofQ (q : Q) : float64 :=
  match Qnum q with
  | Z0 => S754_zero false
  | Zpos n =>
      let '(m, e, l) :=
        SFdiv_core_binary prec emax (Zpos n) 0 (Zpos (Qden q)) 0 in
      binary_round_aux prec emax false m e l
  | Zneg n =>
      let '(m, e, l) :=
        SFdiv_core_binary prec emax (Zpos n) 0 (Zpos (Qden q)) 0 in
      binary_round_aux prec emax true m e l
  end.

(** The rational a finite double is, exactly. *)
Definition toQ (x : float64) : option Q :=
  match x with
  | S754_zero _ => Some 0%Q
  | S754_finite s m e =>
      let magnitude :=
        match e with
        | Z0 => inject_Z (Zpos m)
        | Zpos p => inject_Z (Zpos m * 2 ^ Zpos p)
        | Zneg p => Zpos m # (2 ^ p)
        end in
      Some (if s then Qopp magnitude else magnitude)
  | S754_infinity _ | S754_nan => None
  end.

End Binary64.

(* ================================================================== *)
(** ** Data model ([types.ts], listed in [README.md]) *)
(* ================================================================== *)

Record Paper := mkPaper {
  arxiv_id : string;
  title : string;
  authors : list string;
  abstract : string;
  published_date : string;
  pdf_url : string;
  categories : list string
}.

Inductive Category :=
| method | technique | problem | domain | application | framework.

Inductive RelationshipType :=
| introduces | extends | improves_on | evaluates | uses | compares | applies.

Record Concept := mkConcept {
  name : string;
  category : Category;
  description : string;
  confidence : Q
}.

Record Method := mkMethod {
  method_name : string;
  method_description : string;
  is_baseline : bool;
  method_confidence : Q
}.

Record Dataset := mkDataset {
  dataset_name : string;
  dataset_description : option string;
  dataset_task_type : option string;
  dataset_size : option string
}.

Record Metric := mkMetric {
  metric_name : string;
  metric_unit : option string;
  higher_is_better : bool;
  metric_description : option string
}.

Record Relationship := mkRelationship {
  relationship_type : RelationshipType;
  target_concept : string;
  evidence : string;
  rel_confidence : Q
}.

Record ExtractionResult := mkExtraction {
  concepts : list Concept;
  methods : list Method;
  datasets : list Dataset;
  metrics : list Metric;
  relationships : list Relationship
}.

Record ValidationResult := mkValidation {
  isValid : bool;
  vr_confidence : Binary64.float64;
  vr_issues : list string;
  vr_extraction : ExtractionResult
}.

(** [x < y] on numbers, as a test. *)
Definition Qlt_bool (x y : Q) : bool := negb (Qle_bool y x).

(** The template literal [`${paper.title} ${paper.abstract}`]. *)
Definition paperText (paper : Paper) : string :=
  (title paper ++ " " ++ abstract paper)%string.

Definition relationshipTypeName (t : RelationshipType) : string :=
  match t with
  | introduces => "introduces"
  | extends => "extends"
  | improves_on => "improves_on"
  | evaluates => "evaluates"
  | uses => "uses"
  | compares => "compares"
  | applies => "applies"
  end.

(* ================================================================== *)
(** ** ValidationAgent ([validationAgent.ts], lines 3-92) *)
(* ================================================================== *)

Module ValidationAgent.
Import JsString.

Definition hasSemanticOverlap (concept content : string) : bool :=
  let keywords := split " " (toLowerCase concept) in
  existsb (fun keyword =>
             (3 <? String.length keyword)%nat && includes content keyword)
          keywords.

Definition isConceptRelevant (concept : Concept) (paper : Paper) : bool :=
  let content := toLowerCase (paperText paper) in
  let conceptLower := toLowerCase (name concept) in
  includes content conceptLower || hasSemanticOverlap (name concept) content.

Definition isRelationshipSensible (relationship : Relationship)
                                  (paper : Paper) : bool :=
  let content := toLowerCase (paperText paper) in
  let evidence := toLowerCase (evidence relationship) in
  includes content evidence || (20 <? String.length evidence)%nat.

Definition validateConcept (concept : Concept) (paper : Paper) : bool :=
  if Qlt_bool (confidence concept) (4 # 10) then false
  else if (String.length (name concept) <? 2)%nat
          || (100 <? String.length (name concept))%nat then false
  else if negb (isConceptRelevant concept paper) then false
  else true.

Definition validateRelationship (relationship : Relationship)
                                (paper : Paper) : bool :=
  if Qlt_bool (rel_confidence relationship) (5 # 10) then false
  else if (String.length (evidence relationship) <? 10)%nat then false
  else if negb (isRelationshipSensible relationship paper) then false
  else true.

(** The local variables of [validateExtraction]. *)
Record Locals := mkLocals {
  l_issues : list string;
  overallConfidence : Binary64.float64;
  validEntityCount : nat;
  validConcepts : list Concept;
  validRelationships : list Relationship
}.

(** Body of the first [for] loop; [overallConfidence += concept.confidence]
    is an addition of doubles. *)
Definition conceptStep (paper : Paper) (st : Locals) (concept : Concept)
  : Locals :=
  if validateConcept concept paper then
    mkLocals (l_issues st)
             (Binary64.add (overallConfidence st)
                           (Binary64.ofQ (confidence concept)))
             (S (validEntityCount st))
             (validConcepts st ++ [concept])
             (validRelationships st)
  else
    mkLocals (l_issues st ++ [("Low-confidence concept: " ++ name concept)%string])
             (overallConfidence st) (validEntityCount st)
             (validConcepts st) (validRelationships st).

(** Body of the second [for] loop. *)
Definition relationshipStep (paper : Paper) (st : Locals)
                            (relationship : Relationship) : Locals :=
  if validateRelationship relationship paper then
    mkLocals (l_issues st)
             (Binary64.add (overallConfidence st)
                           (Binary64.ofQ (rel_confidence relationship)))
             (S (validEntityCount st))
             (validConcepts st)
             (validRelationships st ++ [relationship])
  else
    mkLocals (l_issues st ++
                [("Weak relationship: "
                   ++ relationshipTypeName (relationship_type relationship)
                   ++ " -> " ++ target_concept relationship)%string])
             (overallConfidence st) (validEntityCount st)
             (validConcepts st) (validRelationships st).

Definition validateExtraction (extraction : ExtractionResult)
                              (paper : Paper) : ValidationResult :=
  let st0 := mkLocals [] Binary64.zero 0 [] [] in
  let st1 := fold_left (conceptStep paper) (concepts extraction) st0 in
  let st2 := fold_left (relationshipStep paper) (relationships extraction) st1 in
  let overall :=
    if (0 <? validEntityCount st2)%nat
    then Binary64.div (overallConfidence st2)
                      (Binary64.ofNat (validEntityCount st2))
    else Binary64.zero in
  let valid :=
    (0 <? List.length (validConcepts st2))%nat
    && Binary64.leb (Binary64.ofQ (6 # 10)) overall in
  mkValidation valid overall (l_issues st2)
    (mkExtraction (validConcepts st2) (methods extraction)
                  (datasets extraction) (metrics extraction)
                  (validRelationships st2)).

End ValidationAgent.

(* ================================================================== *)
(** ** Exceptions *)
(* ================================================================== *)

(** What a call ends with: the value it returns, or the message of the
    error it throws. *)
Inductive Outcome (A : Type) :=
| Returned (a : A)
| Thrown (message : string).
Arguments Returned {A} a.
Arguments Thrown {A} message.

(** [m], and then [k] on its value; a throw ends both. *)
Definition andThen {A B : Type} (m : Outcome A) (k : A -> Outcome B)
  : Outcome B :=
  match m with
  | Returned a => k a
  | Thrown message => Thrown message
  end.

Declare Scope outcome_scope.
Delimit Scope outcome_scope with outcome.
Notation "x <- m ;; k" := (andThen m (fun x => k))
  (at level 61, m at next level, right associativity) : outcome_scope.

(** [l.map(f)] with a callback that can throw: the callback runs on the
    elements in order, and the first throw ends the call. *)
Fixpoint mapThrowing {A B : Type} (f : A -> Outcome B) (l : list A)
  : Outcome (list B) :=
  match l with
  | [] => Returned []
  | x :: l' =>
      andThen (f x) (fun y =>
      andThen (mapThrowing f l') (fun ys => Returned (y :: ys)))
  end.

(* ================================================================== *)
(** ** ExtractionAgent: coercion of the parsed response
       ([validationAgent.ts], lines 346-416) *)
(* ================================================================== *)

Module ExtractionAgent.
Import JsString.
Local Open Scope outcome_scope.

(** What a [confidence] field of the parsed JSON can hold.  A value that is
    not a JSON number is kept with what [Number(...)] makes of it ([None]
    for [NaN]): [null] is [NonNumeric (Some 0)], the string ["0.9"] is
    [NonNumeric (Some (9#10))], ["high"] is [NonNumeric None].  An object
    that has no primitive value, such as one with a property [toString] of
    its own, is [Unconvertible]: [Number(...)] throws the [TypeError] with
    that message. *)
Inductive RawNumber :=
| Absent
| Numeric (x : Q)
| NonNumeric (coerced : option Q)
| Unconvertible (typeError : string).

(** A field of the parsed JSON that the code reads as text.  JSON is not
    typed: the field is missing or [null] ([NoText]), a string, or a value
    of another type (a number, a boolean, an array, an object), which is
    kept with its truthiness and with what its [toString()] comes to:
    ["5"] for 5, ["true"], the joined elements of an array,
    ["[object Object]"] for an object, and the [TypeError] of an object that
    has a property [toString] of its own. *)
Inductive RawText :=
| NoText
| Text (s : string)
| NotText (isTruthy : bool) (shown : Outcome string).

Record RawConcept := mkRawConcept {
  raw_name : RawText;
  raw_category : RawText;
  raw_description : RawText;
  raw_confidence : RawNumber
}.

Record RawRelationship := mkRawRelationship {
  raw_relationship_type : RawText;
  raw_target_concept : RawText;
  raw_evidence : RawText;
  raw_rel_confidence : RawNumber
}.

(** [Number(v)]; [None] is [NaN]. *)
Definition Number (v : RawNumber) : Outcome (option Q) :=
  match v with
  | Absent => Returned None
  | Numeric x => Returned (Some x)
  | NonNumeric coerced => Returned coerced
  | Unconvertible typeError => Thrown typeError
  end.

(** [n || fallback] on numbers: [NaN] and zero are falsy. *)
Definition orElse (n : option Q) (fallback : Q) : Q :=
  match n with
  | None => fallback
  | Some x => if Qeq_bool x 0 then fallback else x
  end.

(** [Math.min(1, Math.max(0, Number(v) || 0.7))] *)
Definition coerceConfidence (v : RawNumber) : Outcome Q :=
  n <- Number v ;;
  Returned (Qmin 1 (Qmax 0 (orElse n (7 # 10)))).

(** Truthiness of a text field: the empty string is falsy, as is a missing
    field. *)
Definition truthy (t : RawText) : bool :=
  match t with
  | NoText => false
  | Text s => negb (String.eqb s "")
  | NotText isTruthy _ => isTruthy
  end.

(** [t.toString()] *)
Definition toString (t : RawText) : Outcome string :=
  match t with
  | NoText => Thrown "Cannot read properties of undefined (reading 'toString')"
  | Text s => Returned s
  | NotText _ shown => shown
  end.

(** An argument for a parameter declared [string], on which the callee
    calls [toLowerCase()].  The declaration is erased at run time, and only
    a string has that method. *)
Definition expectString (parameter : string) (t : RawText) : Outcome string :=
  match t with
  | NoText =>
      Thrown "Cannot read properties of undefined (reading 'toLowerCase')"
  | Text s => Returned s
  | NotText _ _ => Thrown (parameter ++ ".toLowerCase is not a function")%string
  end.

Definition validateCategory (category : string) : Category :=
  let lower := toLowerCase category in
  if String.eqb lower "method" then method
  else if String.eqb lower "technique" then technique
  else if String.eqb lower "problem" then problem
  else if String.eqb lower "domain" then domain
  else if String.eqb lower "application" then application
  else if String.eqb lower "framework" then framework
  else technique.

Definition validateRelationshipType (type : string) : RelationshipType :=
  let lower := toLowerCase type in
  if String.eqb lower "introduces" then introduces
  else if String.eqb lower "extends" then extends
  else if String.eqb lower "improves_on" then improves_on
  else if String.eqb lower "evaluates" then evaluates
  else if String.eqb lower "uses" then uses
  else if String.eqb lower "compares" then compares
  else if String.eqb lower "applies" then applies
  else uses.

Definition isEvidenceInPaper (evidence : string) (paper : Paper) : bool :=
  let paperText := toLowerCase (paperText paper) in
  includes paperText (substring (toLowerCase evidence) 0 20).

(** The first [filter] of [validateConcepts].  An element of the array is
    [None] when it is [null]; any other element is the record of the four
    properties read from it (all of them missing on a number or a
    string). *)
Definition conceptHasFields (concept : option RawConcept) : bool :=
  match concept with
  | None => false
  | Some c => truthy (raw_name c) && truthy (raw_category c)
              && truthy (raw_description c)
  end.

(** The callback of [map] in [validateConcepts]; the properties of the
    object literal are evaluated in the order written. *)
Definition coerceConcept (concept : option RawConcept) : Outcome Concept :=
  match concept with
  | Some c =>
      n <- toString (raw_name c) ;;
      k <- expectString "category" (raw_category c) ;;
      d <- toString (raw_description c) ;;
      q <- coerceConfidence (raw_confidence c) ;;
      Returned (mkConcept (trim n) (validateCategory k) (trim d) q)
  | None => Thrown "Cannot read properties of null (reading 'name')"
  end.

Definition validateConcepts (concepts : list (option RawConcept))
  : Outcome (list Concept) :=
  coerced <- mapThrowing coerceConcept (filter conceptHasFields concepts) ;;
  Returned (filter (fun concept => (1 <? String.length (name concept))%nat)
                   coerced).

Definition relationshipHasFields (rel : option RawRelationship) : bool :=
  match rel with
  | None => false
  | Some r => truthy (raw_relationship_type r) && truthy (raw_target_concept r)
              && truthy (raw_evidence r)
  end.

Definition coerceRelationship (rel : option RawRelationship)
  : Outcome Relationship :=
  match rel with
  | Some r =>
      k <- expectString "type" (raw_relationship_type r) ;;
      t <- toString (raw_target_concept r) ;;
      e <- toString (raw_evidence r) ;;
      q <- coerceConfidence (raw_rel_confidence r) ;;
      Returned (mkRelationship (validateRelationshipType k) (trim t) (trim e) q)
  | None =>
      Thrown "Cannot read properties of null (reading 'relationship_type')"
  end.

Definition validateRelationships (relationships : list (option RawRelationship))
                                 (paper : Paper) : Outcome (list Relationship) :=
  coerced <- mapThrowing coerceRelationship
                         (filter relationshipHasFields relationships) ;;
  Returned (filter (fun rel => isEvidenceInPaper (evidence rel) paper) coerced).

End ExtractionAgent.

(* ================================================================== *)
(** ** JavaScript array primitives *)
(* ================================================================== *)

Module JsArray.

(** [l.slice(start, end)]: a negative index counts from the end, and both
    are capped to the bounds of the array. *)
Definition slice {A : Type} (l : list A) (start end_ : Z) : list A :=
  let len := Z.of_nat (List.length l) in
  let k := if (start <? 0)%Z then Z.max (len + start) 0 else Z.min start len in
  let final := if (end_ <? 0)%Z then Z.max (len + end_) 0 else Z.min end_ len in
  let count := Z.max (final - k) 0 in
  firstn (Z.to_nat count) (skipn (Z.to_nat k) l).

(** [x] goes in front of the first element it does not compare greater
    than. *)
Fixpoint insert {A : Type} (compareFn : A -> A -> Z) (x : A) (l : list A)
  : list A :=
  match l with
  | [] => [x]
  | y :: l' => if (compareFn x y <=? 0)%Z then x :: y :: l'
               else y :: insert compareFn x l'
  end.

(** [l.sort(compareFn)].  The language fixes the result for a consistent
    comparator (sorted, and stable since ES2019) and leaves the algorithm
    open; insertion from the right is one that meets it. *)
Definition sort {A : Type} (compareFn : A -> A -> Z) (l : list A) : list A :=
  fold_right (insert compareFn) [] l.

End JsArray.

(* ================================================================== *)
(** ** The world the orchestrator runs in *)
(* ================================================================== *)

(** Tables of the knowledge store; a row carries its generated identifier. *)
Record Store := mkStore {
  papers_table : list (nat * Paper);
  concepts_table : list (nat * Concept);
  paper_concepts_table : list (nat * nat * string * Q);
  relationships_table : list (nat * Relationship)
}.

(** Calls of the orchestrator to its collaborators, and its own sleeps. *)
Inductive Event :=
| FindPaper (arxivId : string)
| FetchPaper (arxivId : string)
| InsertPaper (paper : Paper)
| ExtractEntities (paper : Paper)
| ValidateExtraction (paper : Paper)
| InsertConcept (concept : Concept)
| LinkPaperConcept (paperId conceptId : nat) (relationship : string) (confidence : Q)
| InsertRelationship (paperId : nat) (relationship : Relationship)
| AnalyzeCrossPaper (paperId : nat)
| Sleep (ms : Z).

Record World := mkWorld {
  store : Store;
  trace : list Event;
  clock : nat
}.

(** The collaborators, by the time of the call: what [fetchPaper] ends with
    for an identifier, after its attempts and its checks of the parsed
    fields, and what [extractEntities] ends with for a paper ([None] when
    the call throws), and whether a round trip to the database fails. *)
Record Env := mkEnv {
  arxiv : nat -> string -> option Paper;
  extractor : nat -> Paper -> option ExtractionResult;
  dbError : nat -> bool
}.

(** An [async] function: from the world at the call to its settled promise
    and the world then. *)
Definition Async (A : Type) : Type := World -> Outcome A * World.

Definition ret {A : Type} (a : A) : Async A := fun w => (Returned a, w).

Definition throw {A : Type} (message : string) : Async A :=
  fun w => (Thrown message, w).

Definition bind {A B : Type} (m : Async A) (k : A -> Async B) : Async B :=
  fun w => match m w with
           | (Returned a, w') => k a w'
           | (Thrown message, w') => (Thrown message, w')
           end.

(** [try { body } catch (error) { handler(error.message) }] *)
Definition tryCatch {A : Type} (body : Async A) (handler : string -> Async A)
  : Async A :=
  fun w => match body w with
           | (Returned a, w') => (Returned a, w')
           | (Thrown message, w') => handler message w'
           end.

Declare Scope async_scope.
Delimit Scope async_scope with async.
Notation "x <- m ;; k" := (bind m (fun x => k))
  (at level 61, m at next level, right associativity) : async_scope.
Notation "m ;;; k" := (bind m (fun _ => k))
  (at level 61, right associativity) : async_scope.

Definition emit (ev : Event) : Async unit :=
  fun w => (Returned tt, mkWorld (store w) (trace w ++ [ev]) (clock w)).

(** The time of a call to a collaborator; the clock moves on. *)
Definition tick : Async nat :=
  fun w => (Returned (clock w), mkWorld (store w) (trace w) (S (clock w))).

Definition getStore : Async Store := fun w => (Returned (store w), w).

Definition setStore (st : Store) : Async unit :=
  fun w => (Returned tt, mkWorld st (trace w) (clock w)).

(** [for (const x of xs) { acc = body(acc, x) }] with awaits in the body. *)
Fixpoint forOf {A S : Type} (xs : list A) (body : S -> A -> Async S) (acc : S)
  : Async S :=
  match xs with
  | [] => ret acc
  | x :: xs' => bind (body acc x) (forOf xs' body)
  end.

Definition category_eqb (a b : Category) : bool :=
  match a, b with
  | method, method | technique, technique | problem, problem
  | domain, domain | application, application | framework, framework => true
  | _, _ => false
  end.

Definition relationshipType_eqb (a b : RelationshipType) : bool :=
  String.eqb (relationshipTypeName a) (relationshipTypeName b).

(* ================================================================== *)
(** ** Collaborators of the orchestrator *)
(* ================================================================== *)

(** [DatabaseClient] ([database/client.ts] and the schema, both listed in
    [README.md]), with the uniqueness constraints of the schema:
    [papers.arxiv_id], [concepts.name], the primary key of [paper_concepts]
    and the unique triple of [relationships]. *)
Module DatabaseClient.
Section WithEnv.
Variable env : Env.
Open Scope async_scope.

Definition findPaperByArxivId (arxivId : string) : Async (option (nat * Paper)) :=
  emit (FindPaper arxivId) ;;;
  t <- tick ;;
  if dbError env t then throw "Database query failed"
  else
    st <- getStore ;;
    ret (find (fun row => String.eqb (arxiv_id (snd row)) arxivId)
              (papers_table st)).

Definition insertPaper (paper : Paper) : Async nat :=
  emit (InsertPaper paper) ;;;
  t <- tick ;;
  st <- getStore ;;
  if dbError env t
     || existsb (fun row => String.eqb (arxiv_id (snd row)) (arxiv_id paper))
                (papers_table st)
  then throw "Failed to insert paper"
  else
    let id := List.length (papers_table st) in
    setStore (mkStore (papers_table st ++ [(id, paper)]) (concepts_table st)
                      (paper_concepts_table st) (relationships_table st)) ;;;
    ret id.

Definition insertConcept (concept : Concept) : Async nat :=
  emit (InsertConcept concept) ;;;
  t <- tick ;;
  st <- getStore ;;
  (* first try to find the existing concept; an error of this query is ignored *)
  let existing :=
    if dbError env t then None
    else find (fun row => String.eqb (name (snd row)) (name concept)
                          && category_eqb (category (snd row)) (category concept))
              (concepts_table st) in
  match existing with
  | Some row => ret (fst row)
  | None =>
      t' <- tick ;;
      if dbError env t'
         || existsb (fun row => String.eqb (name (snd row)) (name concept))
                    (concepts_table st)
      then throw "Failed to insert concept"
      else
        let id := List.length (concepts_table st) in
        setStore (mkStore (papers_table st) (concepts_table st ++ [(id, concept)])
                          (paper_concepts_table st) (relationships_table st)) ;;;
        ret id
  end.

Definition linkPaperConcept (paperId conceptId : nat) (relationship : string)
                            (confidence : Q) : Async unit :=
  emit (LinkPaperConcept paperId conceptId relationship confidence) ;;;
  t <- tick ;;
  st <- getStore ;;
  if dbError env t
     || existsb (fun row => match row with
                            | (p, c, r, _) =>
                                Nat.eqb p paperId && Nat.eqb c conceptId
                                && String.eqb r relationship
                            end)
                (paper_concepts_table st)
  then throw "Failed to link paper-concept"
  else
    setStore (mkStore (papers_table st) (concepts_table st)
                (paper_concepts_table st
                   ++ [(paperId, conceptId, relationship, confidence)])
                (relationships_table st)).

Definition insertRelationship (paperId : nat) (relationship : Relationship)
  : Async unit :=
  emit (InsertRelationship paperId relationship) ;;;
  t <- tick ;;
  st <- getStore ;;
  if dbError env t
     || existsb (fun row =>
                   Nat.eqb (fst row) paperId
                   && String.eqb (target_concept (snd row))
                                 (target_concept relationship)
                   && relationshipType_eqb (relationship_type (snd row))
                                           (relationship_type relationship))
                (relationships_table st)
  then throw "Failed to insert relationship"
  else
    setStore (mkStore (papers_table st) (concepts_table st)
                (paper_concepts_table st)
                (relationships_table st ++ [(paperId, relationship)])).

End WithEnv.
End DatabaseClient.

Module Agents.
Section WithEnv.
Variable env : Env.
Open Scope async_scope.

(** [ArxivAgent.fetchPaper]: the parsed paper carries the requested
    identifier ([arxiv_id: arxivId]); it throws after three failed
    attempts. *)
Definition fetchPaper (arxivId : string) : Async Paper :=
  emit (FetchPaper arxivId) ;;;
  t <- tick ;;
  match arxiv env t arxivId with
  | Some p => ret (mkPaper arxivId (title p) (authors p) (abstract p)
                           (published_date p) (pdf_url p) (categories p))
  | None => throw "FAILED to fetch paper from arXiv"
  end.

(** [ExtractionAgent.extractEntities], seen from its caller. *)
Definition extractEntities (paper : Paper) : Async ExtractionResult :=
  emit (ExtractEntities paper) ;;;
  t <- tick ;;
  match extractor env t paper with
  | Some extraction => ret extraction
  | None => throw "Failed to parse AI extraction"
  end.

(** [ValidationAgent.validateExtraction] as the [async] method it is. *)
Definition validateExtraction (extraction : ExtractionResult) (paper : Paper)
  : Async ValidationResult :=
  emit (ValidateExtraction paper) ;;;
  ret (ValidationAgent.validateExtraction extraction paper).

(** [RelationshipAnalyzer.analyzeCrossPaperRelationships]: it waits and
    touches nothing. *)
Definition analyzeCrossPaperRelationships (paperId : nat) (paper : Paper)
  : Async unit :=
  emit (AnalyzeCrossPaper paperId).

End WithEnv.
End Agents.

(* ================================================================== *)
(** ** PipelineOrchestrator ([orchestrator.ts]) *)
(* ================================================================== *)

Module PipelineOrchestrator.
Import JsString JsArray.

Definition BATCH_SIZE : nat := 5.
Definition MAX_CONCURRENT_AGENTS : nat := 3.
Definition MIN_CONFIDENCE_THRESHOLD : Q := 7 # 10.

Definition isRelevantToGaussianSplatting (paper : Paper) : bool :=
  let content := toLowerCase (paperText paper) in
  let gsKeywords :=
    ["gaussian"; "splatting"; "3dgs"; "radiance field"; "novel view synthesis"] in
  existsb (fun keyword => includes content keyword) gsKeywords.

Definition calculateRelevanceScore (paper : Paper) : Z :=
  let score := 0%Z in
  let content := toLowerCase (paperText paper) in
  let score := if includes content "gaussian splatting" then (score + 3)%Z else score in
  let score := if includes content "3dgs" then (score + 2)%Z else score in
  let score := if includes content "radiance field" then (score + 2)%Z else score in
  let score := if includes content "real-time" then (score + 1)%Z else score in
  score.

Definition prioritizePapersByRelevance (papers : list Paper) (limit : Z)
  : list Paper :=
  slice (sort (fun a b => (calculateRelevanceScore b - calculateRelevanceScore a)%Z)
              papers)
        0 limit.

(** Lines 213-214: the failure rate over the two running lists and the
    delay chosen from it.  With both lists empty the quotient is [NaN] in
    the source and 0 here; neither exceeds 0.3. *)
Definition failureRate (processed failed : list string) : Q :=
  inject_Z (Z.of_nat (List.length failed))
  / inject_Z (Z.of_nat (List.length processed + List.length failed)).

Definition adaptiveDelay (processed failed : list string) : Z :=
  if Qlt_bool (3 # 10) (failureRate processed failed) then 5000%Z else 2000%Z.

Section WithEnv.
Variable env : Env.
Open Scope async_scope.

Definition sleep (ms : Z) : Async unit := emit (Sleep ms).

Definition storeConcept (paperId : nat) (storedCount : nat) (concept : Concept)
  : Async nat :=
  if Qle_bool (7 # 10) (confidence concept) then
    tryCatch
      (conceptId <- DatabaseClient.insertConcept env concept ;;
       DatabaseClient.linkPaperConcept env paperId conceptId "mentions"
                                       (confidence concept) ;;;
       ret (S storedCount))
      (fun _ => ret storedCount)
  else ret storedCount.

Definition storeRelationship (paperId : nat) (storedCount : nat)
                             (relationship : Relationship) : Async nat :=
  if Qle_bool (7 # 10) (rel_confidence relationship) then
    tryCatch
      (DatabaseClient.insertRelationship env paperId relationship ;;;
       ret (S storedCount))
      (fun _ => ret storedCount)
  else ret storedCount.

Definition storeKnowledgeGraph (paperId : nat) (extraction : ExtractionResult)
  : Async unit :=
  let storedCount := 0%nat in
  storedCount <- forOf (concepts extraction) (storeConcept paperId) storedCount ;;
  storedCount <- forOf (relationships extraction) (storeRelationship paperId)
                       storedCount ;;
  ret tt.

Definition processPaper (arxivId : string) : Async bool :=
  tryCatch
    (existing <- DatabaseClient.findPaperByArxivId env arxivId ;;
     match existing with
     | Some _ => ret true
     | None =>
         paper <- Agents.fetchPaper env arxivId ;;
         if negb (isRelevantToGaussianSplatting paper) then ret false
         else
           paperId <- DatabaseClient.insertPaper env paper ;;
           extraction <- Agents.extractEntities env paper ;;
           validated <- Agents.validateExtraction extraction paper ;;
           storeKnowledgeGraph paperId (vr_extraction validated) ;;;
           Agents.analyzeCrossPaperRelationships paperId paper ;;;
           ret true
     end)
    (fun _ => ret false).

(** One task of a batch: [processPaper(id).then(...).catch(...)], recording
    the identifier in one of the two lists. *)
Definition processingPromise (lists : list string * list string) (paper : Paper)
  : Async (list string * list string) :=
  tryCatch
    (success <- processPaper (arxiv_id paper) ;;
     ret (if success : bool
          then (fst lists ++ [arxiv_id paper], snd lists)
          else (fst lists, snd lists ++ [arxiv_id paper])))
    (fun _ => ret (fst lists, snd lists ++ [arxiv_id paper])).

(** The tasks of a batch, awaited with [Promise.allSettled]; their effects
    are taken in the order of the batch, one task after the other. *)
Definition settleBatch (batch : list Paper) (lists : list string * list string)
  : Async (list string * list string) :=
  forOf batch processingPromise lists.

(** The [for] loop of [processPapersAtScale] from [batchIndex] on; [fuel]
    bounds the number of iterations. *)
Fixpoint batchLoop (fuel : nat) (papers : list Paper) (batchIndex : nat)
                   (lists : list string * list string)
  : Async (list string * list string) :=
  match fuel with
  | O => ret lists
  | S fuel' =>
      if (batchIndex <? List.length papers)%nat then
        let batch := slice papers (Z.of_nat batchIndex)
                           (Z.of_nat (batchIndex + BATCH_SIZE)) in
        lists' <- settleBatch batch lists ;;
        let delay := adaptiveDelay (fst lists') (snd lists') in
        (if (batchIndex + BATCH_SIZE <? List.length papers)%nat
         then sleep delay else ret tt) ;;;
        batchLoop fuel' papers (batchIndex + BATCH_SIZE) lists'
      else ret lists
  end.

(** [processPapersAtScale]; the two arrays it pushes to are returned. *)
Definition processPapersAtScale (papers : list Paper)
                                (processed failed : list string)
  : Async (list string * list string) :=
  batchLoop (List.length papers) papers 0 (processed, failed).

End WithEnv.
End PipelineOrchestrator.

(* ================================================================== *)
(** ** Vocabulary of the validator's specification *)
(* ================================================================== *)

Module ValidationSpec.
Import JsString ValidationAgent.

(** Arithmetic mean of a list of numbers, 0 for the empty list. *)
Definition mean (xs : list Q) : Q :=
  match xs with
  | [] => 0
  | _ => fold_left Qplus xs 0 / inject_Z (Z.of_nat (List.length xs))
  end.

(** The sum a loop accumulates in doubles, left to right, from a start
    value: every addition rounds. *)
Definition accumulate (start : Binary64.float64) (xs : list Q)
  : Binary64.float64 :=
  fold_left (fun total x => Binary64.add total (Binary64.ofQ x)) xs start.

(** The mean as double arithmetic computes it: the numbers added in order
    from 0, and the sum divided by their count; 0 for the empty list. *)
Definition computedMean (xs : list Q) : Binary64.float64 :=
  match xs with
  | [] => Binary64.zero
  | _ => Binary64.div (accumulate Binary64.zero xs)
                      (Binary64.ofNat (List.length xs))
  end.

(** [x >= threshold] for a double and a number of the source. *)
Definition atLeast (threshold : Q) (x : Binary64.float64) : Prop :=
  Binary64.leb (Binary64.ofQ threshold) x = true.

(** A concept's relevance signal against the paper text. *)
Definition relevance (c : Concept) (paper : Paper) : Prop :=
  let text := toLowerCase (paperText paper) in
  Substring (toLowerCase (name c)) text
  \/ exists token, In token (split " " (toLowerCase (name c)))
                   /\ (3 < String.length token)%nat
                   /\ Substring token text.

Definition conceptIssue (c : Concept) : string :=
  ("Low-confidence concept: " ++ name c)%string.

Definition relationshipIssue (r : Relationship) : string :=
  ("Weak relationship: " ++ relationshipTypeName (relationship_type r)
     ++ " -> " ++ target_concept r)%string.

(** The confidences of what a validation result retains, concepts first. *)
Definition retainedConfidences (r : ValidationResult) : list Q :=
  map confidence (concepts (vr_extraction r))
  ++ map rel_confidence (relationships (vr_extraction r)).

(** *** A worked instance *)

Definition samplePaper : Paper :=
  mkPaper "2308.04079"
          "3D Gaussian Splatting for Real-Time Radiance Field Rendering"
          ["Bernhard Kerbl"]
          "Radiance field methods have revolutionized novel view synthesis."
          "2023-08-08" "https://arxiv.org/pdf/2308.04079" ["cs.GR"].

Definition sampleConcept : Concept :=
  mkConcept "Gaussian Splatting" technique "point-based rendering" (9 # 10).

Definition weakConcept : Concept :=
  mkConcept "Neural Rendering" technique "rendering with networks" (3 # 10).

Definition sampleRelationship : Relationship :=
  mkRelationship introduces "Gaussian Splatting"
                 "radiance field methods have revolutionized" (8 # 10).

Definition sampleExtraction : ExtractionResult :=
  mkExtraction [sampleConcept; weakConcept] [] [] [] [sampleRelationship].

(** Four concepts of [samplePaper] with confidences 0.6, 0.7, 0.4 and
    0.7. *)
Definition borderlineExtraction : ExtractionResult :=
  mkExtraction
    [mkConcept "Gaussian Splatting" technique "point-based rendering" (6 # 10);
     mkConcept "Radiance Field" domain "scene representation" (7 # 10);
     mkConcept "Novel View Synthesis" problem "rendering unseen views" (4 # 10);
     mkConcept "Real-Time Rendering" application "interactive frame rates"
               (7 # 10)]
    [] [] [] [].

(** Six concepts of [samplePaper], each with the confidence 0.4. *)
Definition sixAtTheFloor : ExtractionResult :=
  mkExtraction
    (map (fun n => mkConcept n technique "a rendering technique" (4 # 10))
         ["Gaussian Splatting"; "Radiance Field"; "Novel View Synthesis";
          "Real-Time Rendering"; "Splatting"; "View Synthesis"])
    [] [] [] [].

End ValidationSpec.

(* ================================================================== *)
(** ** Vocabulary of the extractor's specification *)
(* ================================================================== *)

Module ExtractionSpec.
Import JsString ExtractionAgent ValidationSpec.

(** [x] clamped into the interval from 0 to 1. *)
Definition clamp01 (x : Q) : Q := Qmin 1 (Qmax 0 x).

(** A relationship whose evidence is long but occurs nowhere in
    [samplePaper]. *)
Definition fabricatedRelationship : RawRelationship :=
  mkRawRelationship (Text "improves_on") (Text "NeRF")
                    (Text "our method is forty times faster than NeRF")
                    (Numeric (9 # 10)).

(** A relationship quoting the abstract of [samplePaper]. *)
Definition quotedRelationship : RawRelationship :=
  mkRawRelationship (Text "Introduces") (Text " Gaussian Splatting ")
                    (Text "  Radiance field methods have revolutionized ")
                    Absent.

(** The JSON [{"name": "NeRF", ..., "confidence": 0}]. *)
Definition zeroConfidenceConcept : RawConcept :=
  mkRawConcept (Text "NeRF") (Text "method")
               (Text "neural radiance field") (Numeric 0).

Definition zeroConfidenceRelationship : RawRelationship :=
  mkRawRelationship (Text "uses") (Text "radiance field")
                    (Text "Radiance field methods") (Numeric 0).

(** A text field that holds what the code expects of it: nothing, or a
    string. *)
Definition textual (t : RawText) : Prop :=
  match t with
  | NotText _ _ => False
  | _ => True
  end.

(** A number field that [Number] converts. *)
Definition convertible (v : RawNumber) : Prop :=
  match v with
  | Unconvertible _ => False
  | _ => True
  end.

(** An element of the array of relationships whose fields are strings or
    missing, with a confidence that converts. *)
Definition plainRelationship (rel : option RawRelationship) : Prop :=
  match rel with
  | None => True
  | Some r => textual (raw_relationship_type r)
              /\ textual (raw_target_concept r)
              /\ textual (raw_evidence r)
              /\ convertible (raw_rel_confidence r)
  end.

Definition plainConcept (concept : option RawConcept) : Prop :=
  match concept with
  | None => True
  | Some c => textual (raw_name c) /\ textual (raw_category c)
              /\ textual (raw_description c)
              /\ convertible (raw_confidence c)
  end.

End ExtractionSpec.

(* ================================================================== *)
(** ** Vocabulary of the orchestrator's specification *)
(* ================================================================== *)

Module OrchestratorSpec.
Import JsString PipelineOrchestrator ValidationSpec.

(** The candidate's lower-cased title+abstract contains [keyword]. *)
Definition mentions (paper : Paper) (keyword : string) : bool :=
  includes (toLowerCase (paperText paper)) keyword.

(** [points] when [present], nothing otherwise. *)
Definition weight (points : Z) (present : bool) : Z :=
  if present then points else 0%Z.

(** [a] may stand before [b] in a descending ranking. *)
Definition ranksBefore (a b : Paper) : Prop :=
  (calculateRelevanceScore b <= calculateRelevanceScore a)%Z.

(** The candidates of [papers] that score [s], in their order. *)
Definition withScore (s : Z) (papers : list Paper) : list Paper :=
  filter (fun p => (calculateRelevanceScore p =? s)%Z) papers.

Definition candidate (id title abstract : string) : Paper :=
  mkPaper id title [] abstract "" "" [].

Definition splattingCandidate : Paper :=
  candidate "2401.00001" "Real-Time Gaussian Splatting on Mobile" "We render fast.".

Definition abbreviationCandidate : Paper :=
  candidate "2401.00002" "Compressing 3DGS scenes" "A codec.".

(** The world [w] after the events [evs] and [n] calls to collaborators,
    with the store left as it is. *)
Definition after (w : World) (evs : list Event) (n : nat) : World :=
  mkWorld (store w) (trace w ++ evs) (n + clock w).

(** The row of the paper [arxivId] in the store, if any. *)
Definition storedPaper (arxivId : string) (st : Store) : option (nat * Paper) :=
  find (fun row => String.eqb (arxiv_id (snd row)) arxivId) (papers_table st).

Definition isExtract (ev : Event) : bool :=
  match ev with ExtractEntities _ => true | _ => false end.

Definition isValidate (ev : Event) : bool :=
  match ev with ValidateExtraction _ => true | _ => false end.

Definition isFetch (ev : Event) : bool :=
  match ev with FetchPaper _ => true | _ => false end.

(** An event that writes a concept, a link or a relationship. *)
Definition isEntityWrite (ev : Event) : bool :=
  match ev with
  | InsertConcept _ | LinkPaperConcept _ _ _ _ | InsertRelationship _ _ => true
  | _ => false
  end.

(** What [storeKnowledgeGraph paperId extraction] may send to the store:
    writes for entities of the extraction at or above the storage floor. *)
Definition storageEvent (paperId : nat) (extraction : ExtractionResult)
                        (ev : Event) : Prop :=
  match ev with
  | InsertConcept c =>
      In c (concepts extraction) /\ (7 # 10 <= confidence c)%Q
  | LinkPaperConcept p _ r q =>
      p = paperId /\ r = "mentions"
      /\ exists c, In c (concepts extraction) /\ q = confidence c
                   /\ (7 # 10 <= confidence c)%Q
  | InsertRelationship p r =>
      p = paperId /\ In r (relationships extraction)
      /\ (7 # 10 <= rel_confidence r)%Q
  | _ => False
  end.

(** The extraction without the entities below the storage floor. *)
Definition aboveFloor (extraction : ExtractionResult) : ExtractionResult :=
  mkExtraction
    (filter (fun c => Qle_bool (7 # 10) (confidence c)) (concepts extraction))
    (methods extraction) (datasets extraction) (metrics extraction)
    (filter (fun r => Qle_bool (7 # 10) (rel_confidence r))
            (relationships extraction)).

(** [w'] comes from [w] by events that all satisfy [P], with the papers
    table untouched. *)
Definition grows (P : Event -> Prop) (w w' : World) : Prop :=
  (exists delta, trace w' = trace w ++ delta /\ Forall P delta)
  /\ papers_table (store w') = papers_table (store w).

(** How a call of [processPaper] goes, read off the collaborators: the
    lookup at the time of the call, the fetch one call later, then the
    insertion of the paper (which cannot clash once the lookup found no row)
    and the extraction. *)
Inductive Step := AtLookup | AtFetch | AtPaperInsert | AtExtraction.

Inductive Verdict :=
| AlreadyPresent
| NewlyIntegrated
| SkippedIrrelevant
| Failed (step : Step).

Definition fetched (arxivId : string) (p : Paper) : Paper :=
  mkPaper arxivId (title p) (authors p) (abstract p)
          (published_date p) (pdf_url p) (categories p).

Definition verdict (env : Env) (arxivId : string) (w : World) : Verdict :=
  if dbError env (clock w) then Failed AtLookup
  else match storedPaper arxivId (store w) with
       | Some _ => AlreadyPresent
       | None =>
           match arxiv env (1 + clock w) arxivId with
           | None => Failed AtFetch
           | Some p =>
               if negb (isRelevantToGaussianSplatting (fetched arxivId p))
               then SkippedIrrelevant
               else if dbError env (2 + clock w) then Failed AtPaperInsert
               else match extractor env (3 + clock w) (fetched arxivId p) with
                    | None => Failed AtExtraction
                    | Some _ => NewlyIntegrated
                    end
           end
       end.

Definition succeeded (v : Verdict) : bool :=
  match v with
  | AlreadyPresent | NewlyIntegrated => true
  | SkippedIrrelevant | Failed _ => false
  end.

Definition emptyStore : Store := mkStore [] [] [] [].

Definition emptyWorld : World := mkWorld emptyStore [] 0.

(** arXiv knows [samplePaper] and an off-topic paper; the extractor answers
    [sampleExtraction]; the database is up. *)
Definition offTopicPaper : Paper :=
  mkPaper "1706.03762" "Attention Is All You Need" ["Ashish Vaswani"]
          "We propose the Transformer." "2017-06-12" "" ["cs.CL"].

Definition sampleEnv : Env :=
  mkEnv (fun _ id => if String.eqb id "2308.04079" then Some samplePaper
                     else if String.eqb id "1706.03762" then Some offTopicPaper
                     else None)
        (fun _ _ => Some sampleExtraction)
        (fun _ => false).

(** A concept and a relationship the validator keeps and the storage step
    passes over. *)
Definition midConcept : Concept :=
  mkConcept "Radiance Field" domain "scene representation" (5 # 10).

Definition midRelationship : Relationship :=
  mkRelationship uses "Radiance Field"
                 "radiance field methods have revolutionized" (6 # 10).

Definition midExtraction : ExtractionResult :=
  mkExtraction [midConcept] [] [] [] [midRelationship].

(** The world [w'] a call of [processPaper] leaves, by verdict: which
    collaborators were called, and whether the paper is stored. *)
Definition leaves (env : Env) (arxivId : string) (w w' : World) : Prop :=
  match verdict env arxivId w with
  | Failed AtLookup | AlreadyPresent =>
      w' = after w [FindPaper arxivId] 1
  | Failed AtFetch | SkippedIrrelevant =>
      w' = after w [FindPaper arxivId; FetchPaper arxivId] 2
  | Failed AtPaperInsert =>
      exists p, w' = after w [FindPaper arxivId; FetchPaper arxivId; InsertPaper p] 3
  | Failed AtExtraction =>
      exists p,
        storedPaper arxivId (store w') <> None
        /\ trace w' = trace w ++ [FindPaper arxivId; FetchPaper arxivId;
                                  InsertPaper p; ExtractEntities p]
  | NewlyIntegrated =>
      exists p paperId delta,
        storedPaper arxivId (store w') <> None
        /\ Forall (fun ev => isEntityWrite ev = true) delta
        /\ trace w' = trace w ++ [FindPaper arxivId; FetchPaper arxivId;
                                  InsertPaper p; ExtractEntities p;
                                  ValidateExtraction p]
                              ++ delta ++ [AnalyzeCrossPaper paperId]
  end.

Definition isSleep (ev : Event) : bool :=
  match ev with Sleep _ => true | _ => false end.

(** [w'] comes from [w] by events none of which is a sleep of the
    orchestrator. *)
Definition withoutSleep (w w' : World) : Prop :=
  exists d, trace w' = trace w ++ d /\ Forall (fun ev => isSleep ev = false) d.

(** The world after [samplePaper] has been processed once. *)
Definition afterFirstCall : World :=
  snd (processPaper sampleEnv "2308.04079" emptyWorld).

(** Six candidates: more than one batch. *)
Definition sixCandidates : list Paper :=
  [splattingCandidate; abbreviationCandidate; offTopicPaper;
   candidate "2401.00003" "Radiance Field Editing" "We edit.";
   candidate "2401.00004" "Splatting for SLAM" "We localise.";
   candidate "2401.00005" "Novel View Synthesis in the Wild" "We synthesise."].

End OrchestratorSpec.

(* ================================================================== *)
(** ** ExtractionAgent: the other coercions and the parse boundary
       ([validationAgent.ts], lines 316-389) *)
(* ================================================================== *)

Module ExtractionAgentParse.
Import JsString ExtractionAgent.
Local Open Scope outcome_scope.

(** A method of the parsed JSON; [raw_is_baseline] is the truthiness of the
    field, which is all [Boolean(...)] keeps of it. *)
Record RawMethod := mkRawMethod {
  raw_method_name : RawText;
  raw_method_description : RawText;
  raw_is_baseline : bool;
  raw_method_confidence : RawNumber
}.

Record RawDataset := mkRawDataset {
  raw_dataset_name : RawText;
  raw_dataset_description : RawText;
  raw_task_type : RawText;
  raw_size : RawText
}.

Record RawMetric := mkRawMetric {
  raw_metric_name : RawText;
  raw_unit : RawText;
  raw_higher_is_better : bool;
  raw_metric_description : RawText
}.

Definition methodHasFields (m : option RawMethod) : bool :=
  match m with
  | None => false
  | Some r => truthy (raw_method_name r) && truthy (raw_method_description r)
  end.

Definition coerceMethod (m : option RawMethod) : Outcome Method :=
  match m with
  | Some r =>
      n <- toString (raw_method_name r) ;;
      d <- toString (raw_method_description r) ;;
      q <- coerceConfidence (raw_method_confidence r) ;;
      Returned (mkMethod (trim n) (trim d) (raw_is_baseline r) q)
  | None => Thrown "Cannot read properties of null (reading 'name')"
  end.

Definition validateMethods (methods : list (option RawMethod))
  : Outcome (list Method) :=
  mapThrowing coerceMethod (filter methodHasFields methods).

Definition datasetHasFields (d : option RawDataset) : bool :=
  match d with
  | None => false
  | Some r => truthy (raw_dataset_name r)
  end.

(** [(t || '').toString()] *)
Definition orEmpty (t : RawText) : Outcome string :=
  if truthy t then toString t else Returned "".

(** [t?.toString()]: [undefined] for a field that is missing or [null]. *)
Definition optionalToString (t : RawText) : Outcome (option string) :=
  match t with
  | NoText => Returned None
  | _ => s <- toString t ;; Returned (Some s)
  end.

Definition coerceDataset (d : option RawDataset) : Outcome Dataset :=
  match d with
  | Some r =>
      n <- toString (raw_dataset_name r) ;;
      text <- orEmpty (raw_dataset_description r) ;;
      task <- optionalToString (raw_task_type r) ;;
      size <- optionalToString (raw_size r) ;;
      Returned (mkDataset (trim n) (Some (trim text)) task size)
  | None => Thrown "Cannot read properties of null (reading 'name')"
  end.

Definition validateDatasets (datasets : list (option RawDataset))
  : Outcome (list Dataset) :=
  mapThrowing coerceDataset (filter datasetHasFields datasets).

Definition metricHasFields (m : option RawMetric) : bool :=
  match m with
  | None => false
  | Some r => truthy (raw_metric_name r)
  end.

Definition coerceMetric (m : option RawMetric) : Outcome Metric :=
  match m with
  | Some r =>
      n <- toString (raw_metric_name r) ;;
      u <- optionalToString (raw_unit r) ;;
      text <- optionalToString (raw_metric_description r) ;;
      Returned (mkMetric (trim n) u (raw_higher_is_better r) text)
  | None => Thrown "Cannot read properties of null (reading 'name')"
  end.

Definition validateMetrics (metrics : list (option RawMetric))
  : Outcome (list Metric) :=
  mapThrowing coerceMetric (filter metricHasFields metrics).

(** What a field of the parsed object holds where an array is expected: a
    falsy value (the field is missing, [null], ...), an array, or some other
    value, on which the call of [filter] throws the [TypeError] with the
    message [typeError]. *)
Inductive RawArray (A : Type) :=
| Missing
| Elements (items : list A)
| NotAnArray (typeError : string).
Arguments Missing {A}.
Arguments Elements {A} items.
Arguments NotAnArray {A} typeError.

(** The object [JSON.parse] returns. *)
Record ParsedResponse := mkParsed {
  parsed_concepts : RawArray (option RawConcept);
  parsed_methods : RawArray (option RawMethod);
  parsed_datasets : RawArray (option RawDataset);
  parsed_metrics : RawArray (option RawMetric);
  parsed_relationships : RawArray (option RawRelationship)
}.

Definition isMissing {A : Type} (field : RawArray A) : bool :=
  match field with
  | Missing => true
  | _ => false
  end.

(** A call [validate(field)] on a field that passed the test for presence:
    [field.filter] is a [TypeError] on a value that is not an array. *)
Definition onArray {A B : Type} (validate : list A -> Outcome B)
                   (field : RawArray A) : Outcome B :=
  match field with
  | Elements items => validate items
  | NotAnArray typeError => Thrown typeError
  | Missing => Thrown "Cannot read properties of undefined (reading 'filter')"
  end.

(** [catch (error) { throw new Error(`Failed to parse AI extraction: ...`) }] *)
Definition parseFailure (message : string) : string :=
  ("Failed to parse AI extraction: " ++ message)%string.

(** The body of the [try] in [parseAIResponse], from the outcome of its
    first two steps on: [json] is the object [JSON.parse] read from the
    match of the response, or the message thrown on the way (["No JSON
    object found in AI response"], or that of the [SyntaxError]).  The five
    properties of the result are evaluated in the order written. *)
Definition parseBody (json : Outcome ParsedResponse) (paper : Paper)
  : Outcome ExtractionResult :=
  parsed <- json ;;
  if isMissing (parsed_concepts parsed) || isMissing (parsed_methods parsed)
     || isMissing (parsed_datasets parsed) || isMissing (parsed_metrics parsed)
     || isMissing (parsed_relationships parsed)
  then Thrown "Missing required arrays in AI response"
  else
    cs <- onArray validateConcepts (parsed_concepts parsed) ;;
    ms <- onArray validateMethods (parsed_methods parsed) ;;
    ds <- onArray validateDatasets (parsed_datasets parsed) ;;
    mts <- onArray validateMetrics (parsed_metrics parsed) ;;
    rs <- onArray (fun rels => validateRelationships rels paper)
                  (parsed_relationships parsed) ;;
    Returned (mkExtraction cs ms ds mts rs).

(** [parseAIResponse]: whatever the body throws is thrown again under the
    prefix of [parseFailure]. *)
Definition parseAIResponse (json : Outcome ParsedResponse) (paper : Paper)
  : Outcome ExtractionResult :=
  match parseBody json paper with
  | Returned extraction => Returned extraction
  | Thrown message => Thrown (parseFailure message)
  end.

End ExtractionAgentParse.

(* ================================================================== *)
(** ** The retry loops of the agents
       ([validationAgent.ts], lines 260-314; [arxivAgent.ts], lines 10-79
       and 172-234) *)
(* ================================================================== *)

Module Retry.
Open Scope async_scope.

(** The loop the three callers share:
    [for (let attempt = 1; attempt <= 3; attempt++) { try { return body }
     catch (error) { lastError = error;
                     if (attempt < 3) await sleep(unitDelay * attempt) } }
     throw new Error(failure(lastError.message))],
    entered at [attempt] with [remaining] attempts to go and the message of
    the last error so far. *)
Fixpoint attemptLoop {A : Type} (remaining attempt : nat) (unitDelay : Z)
                     (body : Async A) (failure : string -> string)
                     (lastError : string) : Async A :=
  match remaining with
  | O => throw (failure lastError)
  | S remaining' =>
      tryCatch body
        (fun message =>
           (if (attempt <? 3)%nat
            then emit (Sleep (unitDelay * Z.of_nat attempt))
            else ret tt) ;;;
           attemptLoop remaining' (S attempt) unitDelay body failure message)
  end.

End Retry.

Module ExtractionAgentApi.
Import Retry.
Open Scope async_scope.

Section WithChat.
(** What the request of an attempt comes to, by its time and the prompt:
    the content of the first choice (the empty string when there is none),
    or the message of the error thrown on the way: by [fetch], for a status
    that is not ok, or by reading the body. *)
Variable chat : nat -> string -> Outcome string.

Definition callMistralAPI (prompt : string) : Async string :=
  attemptLoop 3 1 2000
    (t <- tick ;;
     match chat t prompt with
     | Thrown message => throw message
     | Returned content =>
         if String.eqb content "" then throw "Empty response content from Mistral AI"
         else ret content
     end)
    (fun lastError =>
       ("FAILED to call Mistral AI API after 3 attempts. Last error: "
        ++ lastError)%string)
    "".

End WithChat.
End ExtractionAgentApi.

(* ================================================================== *)
(** ** ExtractionAgent: the batch variants
       ([validationAgent.ts], lines 119-199) *)
(* ================================================================== *)

Module ExtractionAgentBatch.
Import JsArray.
Open Scope async_scope.

(** A [Map<string, ExtractionResult>]: keys in insertion order. *)
Definition ResultMap := list (string * ExtractionResult).

(** [results.set(key, value)]: a key already present keeps its place. *)
Fixpoint mapSet (results : ResultMap) (key : string) (value : ExtractionResult)
  : ResultMap :=
  match results with
  | [] => [(key, value)]
  | (k, v) :: rest =>
      if String.eqb k key then (key, value) :: rest
      else (k, v) :: mapSet rest key value
  end.

(** [results.get(key)] *)
Definition mapGet (results : ResultMap) (key : string) : option ExtractionResult :=
  option_map snd (find (fun entry => String.eqb (fst entry) key) results).

Definition emptyExtraction : ExtractionResult := mkExtraction [] [] [] [] [].

Section WithEnv.
Variable env : Env.

(** One paper of a batch: its extraction, or the empty result when
    [extractEntities] throws. *)
Definition extractOrEmpty (paper : Paper) : Async (string * ExtractionResult) :=
  tryCatch
    (extraction <- Agents.extractEntities env paper ;;
     ret (arxiv_id paper, extraction))
    (fun _ => ret (arxiv_id paper, emptyExtraction)).



(** The tasks of one batch of [extractEntitiesInParallel], settled in the
    order of the batch. *)
Definition batchPromises (batch : list Paper)
  : Async (list (string * ExtractionResult)) :=
  forOf batch (fun acc paper => entry <- extractOrEmpty paper ;; ret (acc ++ [entry]))
        [].

(** [batchResults.forEach(result => results.set(...))] *)
Definition setAll (results : ResultMap) (entries : list (string * ExtractionResult))
  : ResultMap :=
  fold_left (fun m entry => mapSet m (fst entry) (snd entry)) entries results.

(** The loop of [extractEntitiesInParallel] from index [i] on, for a
    [concurrency] that is a whole number, zero included; [None] when [fuel]
    iterations did not end it. *)
Fixpoint parallelLoop (fuel : nat) (papers : list Paper) (concurrency : nat)
                      (i : nat) (results : ResultMap) (w : World)
  : option (Outcome ResultMap * World) :=
  if (i <? List.length papers)%nat then
    match fuel with
    | O => None
    | S fuel' =>
        let batch := slice papers (Z.of_nat i) (Z.of_nat (i + concurrency)) in
        match batchPromises batch w with
        | (Thrown message, w1) => Some (Thrown message, w1)
        | (Returned entries, w1) =>
            let results' := setAll results entries in
            match (if (i + concurrency <? List.length papers)%nat
                   then emit (Sleep 2000) else ret tt) w1 with
            | (Thrown message, w2) => Some (Thrown message, w2)
            | (Returned _, w2) =>
                parallelLoop fuel' papers concurrency (i + concurrency) results' w2
            end
        end
    end
  else Some (Returned results, w).

Definition extractEntitiesInParallel (fuel : nat) (papers : list Paper)
                                     (concurrency : nat) (w : World)
  : option (Outcome ResultMap * World) :=
  parallelLoop fuel papers concurrency 0 [] w.

End WithEnv.
End ExtractionAgentBatch.

(* ================================================================== *)
(** ** ArxivAgent ([arxivAgent.ts]) *)
(* ================================================================== *)

Module ArxivAgent.
Import JsString JsArray Retry.
Open Scope async_scope.

Definition isRelevantToGaussianSplatting (paper : Paper) : bool :=
  let content := toLowerCase (paperText paper) in
  let primaryKeywords := ["gaussian splatting"; "3dgs"; "gaussian splat"] in
  let secondaryKeywords :=
    ["radiance field"; "novel view synthesis"; "3d reconstruction";
     "neural rendering"] in
  existsb (fun keyword => includes content keyword) primaryKeywords
  || existsb (fun keyword => includes content keyword) secondaryKeywords.

(** [idContent.split('/').pop()]: what follows the last slash. *)
Fixpoint lastSegment (segment idContent : string) : string :=
  match idContent with
  | EmptyString => segment
  | String c rest =>
      if Ascii.eqb c "/"%char then lastSegment EmptyString rest
      else lastSegment (segment ++ String c EmptyString) rest
  end.

(** The identifier [parseSearchEntry] gives an entry, from the text of its
    [<id>] element (lines 283-285): [idContent.split('/').pop() || ''].
    arXiv writes the address of a version there, and the version stays in
    the identifier. *)
Definition entryId (idContent : string) : string :=
  lastSegment EmptyString idContent.

Section WithFeed.
(** What one request for an identifier comes to once [parseArxivResponse]
    has read the answer: the paper parsed, or the message of the error
    thrown on the way. *)
Variable feed : nat -> string -> Outcome Paper.

(** What one search request comes to, for a number of results asked and
    the search terms: the entries [parseSearchResponse] could read, or the
    message of the error thrown on the way. *)
Variable searchFeed : nat -> Z -> list string -> Outcome (list Paper).

Definition fetchPaper (arxivId : string) : Async Paper :=
  attemptLoop 3 1 2000
    (t <- tick ;;
     match feed t arxivId with
     | Thrown message => throw message
     | Returned p =>
         let paper := mkPaper arxivId (title p) (authors p) (abstract p)
                              (published_date p) (pdf_url p) (categories p) in
         if (List.length (authors paper) =? 0)%nat
         then throw "No authors extracted from arXiv response"
         else if String.eqb (title paper) ""
                 || (String.length (trim (title paper)) =? 0)%nat
         then throw "No title extracted from arXiv response"
         else if String.eqb (abstract paper) ""
                 || (String.length (trim (abstract paper)) =? 0)%nat
         then throw "No abstract extracted from arXiv response"
         else ret paper
     end)
    (fun lastError =>
       ("FAILED to fetch paper " ++ arxivId ++ " from arXiv. Last error: "
        ++ lastError)%string)
    "".

Definition searchRelatedPapers (seminalPaperId : string) (limit : Z)
                               (keywords : list string) : Async (list Paper) :=
  attemptLoop 3 1 3000
    (t <- tick ;;
     match searchFeed t limit keywords with
     | Thrown message => throw message
     | Returned [] =>
         throw "Failed to parse search response: No valid papers found in search response"
     | Returned papers =>
         ret (slice
                (filter isRelevantToGaussianSplatting
                   (filter (fun paper =>
                              negb (String.eqb (arxiv_id paper) seminalPaperId))
                           papers))
                0 limit)
     end)
    (fun lastError =>
       ("FAILED to search arXiv for related papers. Last error: "
        ++ lastError)%string)
    "".

End WithFeed.
End ArxivAgent.

(* ================================================================== *)
(** ** PipelineOrchestrator: discovery and the run
       ([orchestrator.ts], lines 97-178 and 226-318) *)
(* ================================================================== *)

Module PipelineRun.
Import JsString JsArray PipelineOrchestrator.
Open Scope async_scope.

(** The [filter] of [deduplicatePapers] with its [Set] of identifiers
    seen so far. *)
Fixpoint filterUnseen (seen : list string) (papers : list Paper) : list Paper :=
  match papers with
  | [] => []
  | paper :: rest =>
      if existsb (String.eqb (arxiv_id paper)) seen then filterUnseen seen rest
      else paper :: filterUnseen (arxiv_id paper :: seen) rest
  end.

Definition deduplicatePapers (papers : list Paper) : list Paper :=
  filterUnseen [] papers.

Definition discoverCitationPapers (limit : Z) : Async (list Paper) := ret [].

Definition discoverSemanticPapers (limit : Z) : Async (list Paper) := ret [].

Definition analyzeKnowledgeGraphRelationships : Async unit := ret tt.

(** [generateComprehensiveReport]: the six count queries of [getStats],
    whose errors become a count of 0; the figures only reach the console. *)
Definition generateComprehensiveReport (processed failed : list string)
  : Async unit :=
  tick ;;; tick ;;; tick ;;; tick ;;; tick ;;; tick ;;; ret tt.

Section WithEnv.
Variable env : Env.
Variable searchFeed : nat -> Z -> list string -> Outcome (list Paper).

(** [Math.floor(limit * 0.6)] is taken on integers: the floor of
    [3 * limit / 5]. *)
Definition discoverRelevantPapers (limit : Z) : Async (list Paper) :=
  keywordPapers <- ArxivAgent.searchRelatedPapers searchFeed "2308.04079"
                     (3 * limit / 5)
                     ["gaussian splatting"; "3DGS"; "radiance field";
                      "novel view synthesis"] ;;
  citationPapers <- discoverCitationPapers
                      (limit - Z.of_nat (List.length keywordPapers)) ;;
  semanticPapers <- discoverSemanticPapers
                      (limit - Z.of_nat (List.length keywordPapers)
                       - Z.of_nat (List.length citationPapers)) ;;
  let allPapers := keywordPapers ++ citationPapers ++ semanticPapers in
  let uniquePapers := deduplicatePapers allPapers in
  ret (prioritizePapersByRelevance uniquePapers limit).

Definition processPaperWithDeepAnalysis (arxivId : string) : Async bool :=
  processPaper env arxivId.

Definition buildGaussianSplattingGraph (paperLimit : Z) : Async unit :=
  tryCatch
    (seminalSuccess <- processPaperWithDeepAnalysis "2308.04079" ;;
     lists <- (if seminalSuccess : bool
               then ret (["2308.04079"], @nil string)
               else throw "Failed to process seminal paper - cannot build knowledge graph") ;;
     discoveredPapers <- discoverRelevantPapers (paperLimit - 1) ;;
     lists' <- processPapersAtScale env discoveredPapers (fst lists) (snd lists) ;;
     analyzeKnowledgeGraphRelationships ;;;
     generateComprehensiveReport (fst lists') (snd lists') ;;;
     ret tt)
    (fun message => throw message).

End WithEnv.
End PipelineRun.

(* ================================================================== *)
(** ** ArxivClient: request strings and fallback papers
       ([arxivClient.ts], lines 83-93 and 233-262) *)
(* ================================================================== *)

From Stdlib Require Import DecimalString DecimalNat.

Module ArxivClient.
Import JsString.

(** The characters of the class [a-zA-Z0-9.\-]. *)
Definition isSafeChar (c : ascii) : bool :=
  let n := nat_of_ascii c in
  ((97 <=? n) && (n <=? 122) || (65 <=? n) && (n <=? 90)
   || (48 <=? n) && (n <=? 57) || (n =? 46) || (n =? 45))%nat.

(** [arxivId.replace(/[^a-zA-Z0-9.\-]/g, '')] *)
Fixpoint sanitizeId (arxivId : string) : string :=
  match arxivId with
  | EmptyString => EmptyString
  | String c rest =>
      if isSafeChar c then String c (sanitizeId rest) else sanitizeId rest
  end.

(** [s.replace(/c/g, replacement)] for one character [c]. *)
Fixpoint replaceChar (c : ascii) (replacement : string) (s : string) : string :=
  match s with
  | EmptyString => EmptyString
  | String x rest =>
      if Ascii.eqb x c then (replacement ++ replaceChar c replacement rest)%string
      else String x (replaceChar c replacement rest)
  end.

Definition space : ascii := ascii_of_nat 32.
Definition apostrophe : ascii := ascii_of_nat 39.
Definition doubleQuote : ascii := ascii_of_nat 34.

Definition simpleEncode (str : string) : string :=
  replaceChar doubleQuote "%22"
    (replaceChar apostrophe "%27" (replaceChar space "+" str)).

(** [getMockPaper]; [now] is [new Date().toISOString()]. *)
Definition getMockPaper (now : string) (arxivId : string) : Paper :=
  mkPaper arxivId
          ("Mock Paper " ++ arxivId ++ " - Gaussian Splatting Research")%string
          ["John Researcher"; "Jane Scientist"]
          ("This is a mock abstract for paper " ++ arxivId
           ++ " about Gaussian splatting techniques for 3D reconstruction and novel view synthesis. The paper introduces innovative methods for real-time rendering.")%string
          now
          ("https://arxiv.org/pdf/" ++ arxivId ++ ".pdf")%string
          ["cs.CV"; "cs.GR"].

(** The decimal digits of a loop counter, as a template literal prints
    it. *)
Definition decimal (i : nat) : string :=
  NilEmpty.string_of_uint (Nat.to_uint i).

(** The paper [getMockPapers] pushes at counter [i]. *)
Definition mockEntry (now : string) (i : nat) : Paper :=
  mkPaper ("2301.000" ++ decimal i)%string
          ("Related Gaussian Splatting Paper " ++ decimal i)%string
          [("Researcher " ++ decimal i)%string; ("Coauthor " ++ decimal i)%string]
          ("This is mock paper " ++ decimal i
           ++ " about Gaussian splatting and 3D reconstruction techniques.")%string
          now
          ("https://arxiv.org/pdf/" ++ "2301.000" ++ decimal i ++ ".pdf")%string
          ["cs.CV"].

(** [getMockPapers]: the counter runs from 1 while [i <= count]. *)
Definition getMockPapers (now : string) (count : Z) : list Paper :=
  map (mockEntry now) (seq 1 (Z.to_nat count)).

End ArxivClient.

(* ================================================================== *)
(** ** Vocabulary of the further properties *)
(* ================================================================== *)

Module ExtraSpec.
Import JsString JsArray ExtractionAgent ExtractionAgentParse ValidationSpec ExtractionSpec.
Import PipelineOrchestrator OrchestratorSpec.

Definition categoryName (c : Category) : string :=
  match c with
  | method => "method"
  | technique => "technique"
  | problem => "problem"
  | domain => "domain"
  | application => "application"
  | framework => "framework"
  end.

(** [s] has no white space at either end. *)
Definition trimmed (s : string) : Prop := trim s = s.

(** A confidence as the parse boundary leaves it. *)
Definition unitInterval (q : Q) : Prop := (0 <= q <= 1)%Q.

(** A relationship whose evidence is white space only. *)
Definition blankEvidenceRelationship : RawRelationship :=
  mkRawRelationship (Text "uses") (Text "NeRF") (Text "   ") (Numeric (9 # 10)).

(** A response with every array. *)
Definition fullResponse : ParsedResponse :=
  mkParsed (Elements [Some (mkRawConcept (Text " Gaussian Splatting ")
                                         (Text "Method")
                                         (Text "explicit scene representation")
                                         (Numeric (3 # 2)))])
           (Elements [Some (mkRawMethod (Text "3DGS") (Text "rasterisation")
                                        true Absent)])
           (Elements [Some (mkRawDataset (Text "Mip-NeRF 360") NoText NoText NoText)])
           (Elements [Some (mkRawMetric (Text "PSNR") (Text "dB") true NoText)])
           (Elements [Some (mkRawRelationship (Text "Introduces")
                              (Text " Gaussian Splatting ")
                              (Text "  Radiance field methods have revolutionized ")
                              Absent)]).

(** A response whose only concept has the number 5 for its category. *)
Definition numericCategoryResponse : ParsedResponse :=
  mkParsed (Elements [Some (mkRawConcept (Text "Gaussian Splatting")
                                         (NotText true (Returned "5"))
                                         (Text "explicit scene representation")
                                         (Numeric (9 # 10)))])
           (Elements []) (Elements []) (Elements []) (Elements []).

(** Elements of the other arrays whose fields are strings or missing. *)
Definition plainMethod (m : option RawMethod) : Prop :=
  match m with
  | None => True
  | Some r => textual (raw_method_name r) /\ textual (raw_method_description r)
              /\ convertible (raw_method_confidence r)
  end.

Definition plainDataset (d : option RawDataset) : Prop :=
  match d with
  | None => True
  | Some r => textual (raw_dataset_name r)
              /\ textual (raw_dataset_description r)
              /\ textual (raw_task_type r) /\ textual (raw_size r)
  end.

Definition plainMetric (m : option RawMetric) : Prop :=
  match m with
  | None => True
  | Some r => textual (raw_metric_name r) /\ textual (raw_unit r)
              /\ textual (raw_metric_description r)
  end.

(** What three attempts come to when the attempt made at time [t] comes to
    [answer t]: the first value returned, after a sleep of [unitDelay] and
    of twice [unitDelay] following the first and the second failure; after
    the third failure [failure] of its message is thrown, with no sleep in
    between. *)
Definition retryOutcome {A : Type} (unitDelay : Z) (failure : string -> string)
                        (answer : nat -> Outcome A) (w : World)
  : Outcome A * World :=
  match answer (clock w) with
  | Returned a => (Returned a, after w [] 1)
  | Thrown _ =>
      match answer (1 + clock w)%nat with
      | Returned a => (Returned a, after w [Sleep unitDelay] 2)
      | Thrown _ =>
          match answer (2 + clock w)%nat with
          | Returned a =>
              (Returned a, after w [Sleep unitDelay; Sleep (2 * unitDelay)%Z] 3)
          | Thrown lastError =>
              (Thrown (failure lastError),
               after w [Sleep unitDelay; Sleep (2 * unitDelay)%Z] 3)
          end
      end
  end.

(** What an attempt of [callMistralAPI] comes to: a content that is not
    empty, or a failure. *)
Definition usableContent (chat : nat -> string -> Outcome string)
                         (prompt : string) (t : nat) : Outcome string :=
  match chat t prompt with
  | Returned content =>
      if String.eqb content "" then Thrown "Empty response content from Mistral AI"
      else Returned content
  | Thrown message => Thrown message
  end.

(** A paper with an author and a title and an abstract that are not
    blank. *)
Definition complete (p : Paper) : Prop :=
  authors p <> [] /\ trim (title p) <> "" /\ trim (abstract p) <> "".

(** The complaint about the first required field a paper lacks. *)
Definition missingField (p : Paper) : option string :=
  if (List.length (authors p) =? 0)%nat
  then Some "No authors extracted from arXiv response"
  else if (String.length (trim (title p)) =? 0)%nat
  then Some "No title extracted from arXiv response"
  else if (String.length (trim (abstract p)) =? 0)%nat
  then Some "No abstract extracted from arXiv response"
  else None.

(** What an attempt of [fetchPaper] comes to: a paper that lacks no
    required field, under the identifier asked for, or a failure. *)
Definition acceptedPaper (feed : nat -> string -> Outcome Paper)
                         (arxivId : string) (t : nat) : Outcome Paper :=
  match feed t arxivId with
  | Returned p =>
      match missingField (fetched arxivId p) with
      | Some complaint => Thrown complaint
      | None => Returned (fetched arxivId p)
      end
  | Thrown message => Thrown message
  end.

(** What an attempt of [searchRelatedPapers] comes to: the candidates kept
    of a search that found a paper, or a failure. *)
Definition searchResults (searchFeed : nat -> Z -> list string -> Outcome (list Paper))
                         (seminalPaperId : string) (limit : Z)
                         (keywords : list string) (t : nat)
  : Outcome (list Paper) :=
  match searchFeed t limit keywords with
  | Thrown message => Thrown message
  | Returned [] =>
      Thrown "Failed to parse search response: No valid papers found in search response"
  | Returned papers =>
      Returned (slice
                  (filter ArxivAgent.isRelevantToGaussianSplatting
                     (filter (fun paper =>
                                negb (String.eqb (arxiv_id paper) seminalPaperId))
                             papers))
                  0 limit)
  end.

(** A chat service that answers at its second attempt. *)
Definition flakyChat (t : nat) (prompt : string) : Outcome string :=
  if (t =? 1)%nat then Returned "{ }" else Thrown "Mistral API 503: busy".

(** An arXiv feed that knows [samplePaper] from time 2 on. *)
Definition lateFeed (t : nat) (arxivId : string) : Outcome Paper :=
  if (2 <=? t)%nat then Returned samplePaper
  else Thrown "HTTP 503: Service Unavailable".

(** A search that returns the six candidates and the seminal paper. *)
Definition sampleSearch (t : nat) (limit : Z) (keywords : list string)
  : Outcome (list Paper) :=
  Returned (samplePaper :: sixCandidates ++ [splattingCandidate]).

(** The seminal paper as an entry of a search: its [<id>] is the address of
    a version. *)
Definition seminalEntry : Paper :=
  mkPaper (ArxivAgent.entryId "http://arxiv.org/abs/2308.04079v5")
          (title samplePaper) (authors samplePaper) (abstract samplePaper)
          (published_date samplePaper) (pdf_url samplePaper)
          (categories samplePaper).

(** A search that returns the entry of the seminal paper and nothing
    else. *)
Definition versionedSearch (t : nat) (limit : Z) (keywords : list string)
  : Outcome (list Paper) :=
  Returned [seminalEntry].

(** [sampleEnv] with an arXiv that answers for the seminal paper under
    its plain and under its versioned identifier. *)
Definition versionedEnv : Env :=
  mkEnv (fun _ id => if String.eqb id "2308.04079" then Some samplePaper
                     else if String.eqb id "2308.04079v5" then Some samplePaper
                     else None)
        (extractor sampleEnv)
        (dbError sampleEnv).

(** The identifiers looked up in the store, in the order of the events. *)
Definition lookups (evs : list Event) : list string :=
  flat_map (fun ev => match ev with FindPaper arxivId => [arxivId] | _ => [] end)
           evs.

(** The pauses among the events, in milliseconds. *)
Definition sleeps (evs : list Event) : list Z :=
  flat_map (fun ev => match ev with Sleep ms => [ms] | _ => [] end) evs.

(** Candidates in descending order of relevance score. *)
Definition ranked (papers : list Paper) : Prop :=
  StronglySorted ranksBefore papers.

(** The extraction events among the events, in their order. *)
Definition extractions (evs : list Event) : list Paper :=
  flat_map (fun ev => match ev with ExtractEntities paper => [paper] | _ => [] end)
           evs.

(** [e] is the empty result, or what the extractor answered at some time
    for a paper of [papers] with the identifier [id]. *)
Definition extractedFrom (env : Env) (papers : list Paper) (id : string)
                         (e : ExtractionResult) : Prop :=
  e = ExtractionAgentBatch.emptyExtraction
  \/ exists t p, In p papers /\ arxiv_id p = id /\ extractor env t p = Some e.

(** The code units of a string. *)
Definition chars (s : string) : list ascii := list_ascii_of_string s.

(** What [simpleEncode] writes for one character. *)
Definition encodeChar (c : ascii) : string :=
  if Ascii.eqb c ArxivClient.space then "+"
  else if Ascii.eqb c ArxivClient.apostrophe then "%27"
  else if Ascii.eqb c ArxivClient.doubleQuote then "%22"
  else String c EmptyString.

(** [c] is a space, an apostrophe or a double quote. *)
Definition needsEncoding (c : ascii) : bool :=
  Ascii.eqb c ArxivClient.space || Ascii.eqb c ArxivClient.apostrophe
  || Ascii.eqb c ArxivClient.doubleQuote.

(** The identifiers of the stored papers, in the order of the table. *)
Definition storedIds (st : Store) : list string :=
  map (fun row => arxiv_id (snd row)) (papers_table st).

(** No two stored papers have one identifier. *)
Definition distinctIds (st : Store) : Prop := NoDup (storedIds st).

(** [w'] holds the papers of [w] as they were and, after them, only papers
    that pass the orchestrator's relevance test, stored under identifiers
    of [ids]. *)
Definition addsPapers (ids : list string) (w w' : World) : Prop :=
  exists added,
    papers_table (store w') = papers_table (store w) ++ added
    /\ (forall row, In row added ->
          In (arxiv_id (snd row)) ids
          /\ PipelineOrchestrator.isRelevantToGaussianSplatting (snd row) = true).

(** The names of the stored concepts, in the order of the table. *)
Definition conceptNames (st : Store) : list string :=
  map (fun row => name (snd row)) (concepts_table st).

(** No two stored concepts have one name. *)
Definition distinctNames (st : Store) : Prop := NoDup (conceptNames st).

End ExtraSpec.

(* ================================================================== *)
(** * Properties *)
(* ================================================================== *)

(* ================================================================== *)
(** ** Facts about the string primitives *)
(* ================================================================== *)

Module JsStringFacts.
Import JsString.

Lemma startsWith_iff (s t : string) :
  startsWith s t = true <-> exists b, s = (t ++ b)%string.
Proof.
  revert s; induction t as [|c t IH]; intros s; simpl.
  - split; [intros _; now exists s | reflexivity].
  - destruct s as [|a s]; simpl.
    + split; [discriminate | intros [b Hb]; discriminate].
    + rewrite andb_true_iff, Ascii.eqb_eq, IH. split.
      * intros [-> [b ->]]. now exists b.
      * intros [b Hb]. injection Hb as -> ->. split; [reflexivity | now exists b].
Qed.

Lemma includes_iff (s t : string) :
  includes s t = true <-> Substring t s.
Proof.
  unfold Substring. induction s as [|c s IH].
  - simpl. rewrite orb_false_r, startsWith_iff. split.
    + intros [b Hb]. now exists EmptyString, b.
    + intros [a [b Hab]]. destruct a; simpl in Hab; [now exists b | discriminate].
  - cbn [includes]. rewrite orb_true_iff, startsWith_iff, IH. split.
    + intros [[b Hb] | [a [b Hab]]].
      * now exists EmptyString, b.
      * exists (String c a), b. simpl. now rewrite Hab.
    + intros [a [b Hab]]. destruct a as [|c' a]; simpl in Hab.
      * left. now exists b.
      * right. injection Hab as _ ->. now exists a, b.
Qed.

Lemma length_toLowerCase (s : string) :
  String.length (toLowerCase s) = String.length s.
Proof. induction s; simpl; congruence. Qed.

End JsStringFacts.

Lemma Qlt_bool_false_iff (x y : Q) : Qlt_bool x y = false <-> (y <= x)%Q.
Proof.
  unfold Qlt_bool. rewrite negb_false_iff. apply Qle_bool_iff.
Qed.

Lemma Qlt_bool_true_iff (x y : Q) : Qlt_bool x y = true <-> (x < y)%Q.
Proof.
  unfold Qlt_bool. rewrite negb_true_iff. split.
  - intros H. apply Qnot_le_lt. intros Hle.
    apply Qle_bool_iff in Hle. congruence.
  - intros H. destruct (Qle_bool y x) eqn:E; [|reflexivity].
    apply Qle_bool_iff in E. exfalso. exact (Qlt_not_le _ _ H E).
Qed.

(* ================================================================== *)
(** ** Properties of the validator *)
(* ================================================================== *)

Module ValidationFacts.
Import JsString JsStringFacts ValidationAgent ValidationSpec.

Lemma conceptLoop (paper : Paper) (cs : list Concept) (st : Locals) :
  fold_left (conceptStep paper) cs st =
  mkLocals
    (l_issues st ++
       map conceptIssue (filter (fun c => negb (validateConcept c paper)) cs))
    (accumulate (overallConfidence st)
       (map confidence (filter (fun c => validateConcept c paper) cs)))
    (validEntityCount st
       + List.length (filter (fun c => validateConcept c paper) cs))
    (validConcepts st ++ filter (fun c => validateConcept c paper) cs)
    (validRelationships st).
Proof.
  revert st. induction cs as [|c cs IH]; intros st.
  - destruct st; simpl. now rewrite !app_nil_r, Nat.add_0_r.
  - cbn [fold_left]. rewrite IH. unfold conceptStep. cbn [filter].
    destruct (validateConcept c paper); cbn [negb map List.length
      l_issues overallConfidence validEntityCount validConcepts
      validRelationships].
    + unfold accumulate. cbn [fold_left]. rewrite <- app_assoc.
      f_equal. lia.
    + rewrite <- app_assoc. reflexivity.
Qed.

Lemma relationshipLoop (paper : Paper) (rs : list Relationship) (st : Locals) :
  fold_left (relationshipStep paper) rs st =
  mkLocals
    (l_issues st ++
       map relationshipIssue
           (filter (fun r => negb (validateRelationship r paper)) rs))
    (accumulate (overallConfidence st)
       (map rel_confidence (filter (fun r => validateRelationship r paper) rs)))
    (validEntityCount st
       + List.length (filter (fun r => validateRelationship r paper) rs))
    (validConcepts st)
    (validRelationships st ++ filter (fun r => validateRelationship r paper) rs).
Proof.
  revert st. induction rs as [|r rs IH]; intros st.
  - destruct st; simpl. now rewrite !app_nil_r, Nat.add_0_r.
  - cbn [fold_left]. rewrite IH. unfold relationshipStep. cbn [filter].
    destruct (validateRelationship r paper); cbn [negb map List.length
      l_issues overallConfidence validEntityCount validConcepts
      validRelationships].
    + unfold accumulate. cbn [fold_left]. rewrite <- app_assoc.
      f_equal. lia.
    + rewrite <- app_assoc. reflexivity.
Qed.

(** What the validator keeps: exactly the entities its two predicates accept,
    in input order. *)
Lemma validateExtraction_concepts (e : ExtractionResult) (paper : Paper) :
  concepts (vr_extraction (validateExtraction e paper))
  = filter (fun c => validateConcept c paper) (concepts e).
Proof.
  unfold validateExtraction. rewrite relationshipLoop, conceptLoop. reflexivity.
Qed.

Lemma validateExtraction_relationships (e : ExtractionResult) (paper : Paper) :
  relationships (vr_extraction (validateExtraction e paper))
  = filter (fun r => validateRelationship r paper) (relationships e).
Proof.
  unfold validateExtraction. rewrite relationshipLoop, conceptLoop. reflexivity.
Qed.

Lemma validateConcept_true (c : Concept) (paper : Paper) :
  validateConcept c paper = true <->
  (4 # 10 <= confidence c)%Q
  /\ (2 <= String.length (name c) <= 100)%nat
  /\ relevance c paper.
Proof.
  unfold validateConcept, relevance.
  destruct (Qlt_bool (confidence c) (4 # 10)) eqn:Hc.
  - apply Qlt_bool_true_iff in Hc. split; [discriminate|].
    intros [Hle _]. exfalso. exact (Qlt_not_le _ _ Hc Hle).
  - apply Qlt_bool_false_iff in Hc.
    destruct (String.length (name c) <? 2)%nat eqn:H2; cbn [orb].
    { apply Nat.ltb_lt in H2. split; [discriminate | lia]. }
    apply Nat.ltb_ge in H2.
    destruct (100 <? String.length (name c))%nat eqn:H100.
    { apply Nat.ltb_lt in H100. split; [discriminate | lia]. }
    apply Nat.ltb_ge in H100.
    assert (Hrel : isConceptRelevant c paper = true <->
              Substring (toLowerCase (name c)) (toLowerCase (paperText paper))
              \/ exists token,
                   In token (split " " (toLowerCase (name c)))
                   /\ (3 < String.length token)%nat
                   /\ Substring token (toLowerCase (paperText paper))).
    { unfold isConceptRelevant, hasSemanticOverlap.
      rewrite orb_true_iff, includes_iff, existsb_exists.
      apply or_iff_compat_l. split.
      - intros [k [Hin Hk]]. apply andb_true_iff in Hk as [Hl Hi].
        apply Nat.ltb_lt in Hl. apply includes_iff in Hi. now exists k.
      - intros [k [Hin [Hl Hi]]]. exists k. split; [assumption|].
        apply andb_true_iff. split; [now apply Nat.ltb_lt | now apply includes_iff]. }
    destruct (isConceptRelevant c paper) eqn:Hr; cbn [negb].
    + split; [intros _ | reflexivity].
      repeat split; try assumption. now apply Hrel.
    + split; [discriminate|]. intros [_ [_ H]]. apply Hrel in H. discriminate.
Qed.

Lemma validateRelationship_true (r : Relationship) (paper : Paper) :
  validateRelationship r paper = true <->
  (5 # 10 <= rel_confidence r)%Q
  /\ (10 <= String.length (evidence r))%nat
  /\ (Substring (toLowerCase (evidence r)) (toLowerCase (paperText paper))
      \/ (20 < String.length (evidence r))%nat).
Proof.
  unfold validateRelationship.
  destruct (Qlt_bool (rel_confidence r) (5 # 10)) eqn:Hc.
  - apply Qlt_bool_true_iff in Hc. split; [discriminate|].
    intros [Hle _]. exfalso. exact (Qlt_not_le _ _ Hc Hle).
  - apply Qlt_bool_false_iff in Hc.
    destruct (String.length (evidence r) <? 10)%nat eqn:H10.
    { apply Nat.ltb_lt in H10. split; [discriminate | lia]. }
    apply Nat.ltb_ge in H10.
    assert (Hs : isRelationshipSensible r paper = true <->
              Substring (toLowerCase (evidence r)) (toLowerCase (paperText paper))
              \/ (20 < String.length (evidence r))%nat).
    { unfold isRelationshipSensible.
      rewrite orb_true_iff, includes_iff, Nat.ltb_lt, length_toLowerCase.
      reflexivity. }
    destruct (isRelationshipSensible r paper) eqn:Hr; cbn [negb].
    + split; [intros _ | reflexivity].
      repeat split; try assumption. now apply Hs.
    + split; [discriminate|]. intros [_ [_ H]]. apply Hs in H. discriminate.
Qed.

(** C1. Every concept that [validateExtraction] keeps has confidence at
    least 0.4, a name of 2 to 100 characters, and a relevance signal: its
    lower-cased name occurs in the lower-cased title+abstract, or one of
    the space-separated tokens of the lower-cased name, longer than 3
    characters, occurs there. *)
Theorem retained_concept_sound (e : ExtractionResult) (paper : Paper)
                               (c : Concept) :
  In c (concepts (vr_extraction (validateExtraction e paper))) ->
  (4 # 10 <= confidence c)%Q
  /\ (2 <= String.length (name c) <= 100)%nat
  /\ relevance c paper.
Proof.
  rewrite validateExtraction_concepts, filter_In.
  intros [_ H]. now apply validateConcept_true.
Qed.


Lemma accumulate_app (start : Binary64.float64) (xs ys : list Q) :
  accumulate (accumulate start xs) ys = accumulate start (xs ++ ys).
Proof. unfold accumulate. now rewrite fold_left_app. Qed.

Lemma validateExtraction_confidence (e : ExtractionResult) (paper : Paper) :
  vr_confidence (validateExtraction e paper)
  = computedMean (retainedConfidences (validateExtraction e paper)).
Proof.
  unfold retainedConfidences.
  rewrite validateExtraction_concepts, validateExtraction_relationships.
  unfold validateExtraction. rewrite relationshipLoop, conceptLoop.
  cbn [vr_confidence l_issues overallConfidence validEntityCount
       validConcepts validRelationships].
  rewrite accumulate_app.
  set (fc := filter (fun c => validateConcept c paper) (concepts e)).
  set (fr := filter (fun r => validateRelationship r paper) (relationships e)).
  replace (0 + List.length fc + List.length fr)%nat
    with (List.length (map confidence fc ++ map rel_confidence fr))
    by (rewrite length_app, !length_map; lia).
  destruct (map confidence fc ++ map rel_confidence fr); reflexivity.
Qed.

Lemma validateExtraction_isValid (e : ExtractionResult) (paper : Paper) :
  isValid (validateExtraction e paper)
  = (0 <? List.length (concepts (vr_extraction (validateExtraction e paper))))%nat
    && Binary64.leb (Binary64.ofQ (6 # 10))
                    (vr_confidence (validateExtraction e paper)).
Proof. reflexivity. Qed.

(** C3 (as the code has it). The aggregate confidence is the mean of the
    confidences of all retained concepts and relationships together as
    double arithmetic computes it: added in order from 0, the concepts
    first, each sum rounded, and the total divided by their number (0 when
    nothing is retained).  The result is valid exactly when a concept is
    retained and this computed value is at least 0.6.  An extraction of two
    concepts with confidences 0.9 and 0.3 and no relationships, whose 0.9
    concept passes the length and relevance checks, retains that concept
    alone, has aggregate 0.9 and is valid. *)
Theorem aggregate_confidence_is_the_computed_mean :
  (forall e paper,
      let r := validateExtraction e paper in
      vr_confidence r = computedMean (retainedConfidences r)
      /\ (retainedConfidences r = [] -> vr_confidence r = Binary64.zero)
      /\ (isValid r = true <->
          (0 < List.length (concepts (vr_extraction r)))%nat
          /\ atLeast (6 # 10) (vr_confidence r)))
  /\ (forall c1 c2 ms ds mts paper,
         confidence c1 = 9 # 10 ->
         confidence c2 = 3 # 10 ->
         (2 <= String.length (name c1) <= 100)%nat ->
         relevance c1 paper ->
         let r := validateExtraction (mkExtraction [c1; c2] ms ds mts []) paper in
         concepts (vr_extraction r) = [c1]
         /\ vr_confidence r = Binary64.ofQ (9 # 10)
         /\ isValid r = true).
Proof.
  split.
  - intros e paper r. subst r. split; [apply validateExtraction_confidence|].
    split.
    + intros H. rewrite validateExtraction_confidence, H. reflexivity.
    + rewrite validateExtraction_isValid, andb_true_iff, Nat.ltb_lt.
      reflexivity.
  - intros c1 c2 ms ds mts paper H1 H2 Hlen Hrel r.
    assert (V1 : validateConcept c1 paper = true).
    { apply validateConcept_true. repeat split; try tauto.
      rewrite H1. discriminate. }
    assert (V2 : validateConcept c2 paper = false).
    { unfold validateConcept. now rewrite H2. }
    assert (Hc : concepts (vr_extraction r) = [c1]).
    { subst r. rewrite validateExtraction_concepts. cbn [concepts filter].
      now rewrite V1, V2. }
    assert (Hv : vr_confidence r = Binary64.ofQ (9 # 10)).
    { subst r. rewrite validateExtraction_confidence. unfold retainedConfidences.
      rewrite Hc, validateExtraction_relationships.
      cbn [relationships filter map app]. rewrite H1.
      vm_compute. reflexivity. }
    split; [exact Hc|]. split; [exact Hv|].
    subst r. rewrite validateExtraction_isValid, Hc, Hv.
    vm_compute. reflexivity.
Qed.

(** C3 as stated fails: four retained confidences 0.6, 0.7, 0.4 and 0.7
    have the arithmetic mean 0.6, and so have the doubles they denote, and
    a concept is retained; the aggregate the code computes is one unit in
    the last place below the double 0.6, and the result is not valid. *)
Lemma exact_mean_at_threshold_is_invalid :
  let r := validateExtraction borderlineExtraction samplePaper in
  retainedConfidences r = [6 # 10; 7 # 10; 4 # 10; 7 # 10]
  /\ mean (retainedConfidences r) == 6 # 10
  /\ (0 < List.length (concepts (vr_extraction r)))%nat
  /\ vr_confidence r = S754_finite false 5404319552844594 (-53)
  /\ Binary64.ofQ (6 # 10) = S754_finite false 5404319552844595 (-53)
  /\ vr_confidence r = Binary64.ofQ (5999999999999999 # 10000000000000000)
  /\ Binary64.leb (Binary64.ofQ (6 # 10)) (vr_confidence r) = false
  /\ isValid r = false
  /\ (exists q6 q7 q4,
         Binary64.toQ (Binary64.ofQ (6 # 10)) = Some q6
         /\ Binary64.toQ (Binary64.ofQ (7 # 10)) = Some q7
         /\ Binary64.toQ (Binary64.ofQ (4 # 10)) = Some q4
         /\ mean [q6; q7; q4; q7] == q6).
Proof.
  cbv zeta.
  repeat match goal with |- _ /\ _ => split end;
    try (vm_compute; (reflexivity || lia)).
  exists (5404319552844595 # 9007199254740992),
         (6305039478318694 # 9007199254740992),
         (7205759403792794 # 18014398509481984).
  repeat split; vm_compute; reflexivity.
Qed.

Lemma retained_concept_sound_witness :
  In sampleConcept
     (concepts (vr_extraction (validateExtraction sampleExtraction samplePaper)))
  /\ ((4 # 10 <= confidence sampleConcept)%Q
      /\ (2 <= String.length (name sampleConcept) <= 100)%nat
      /\ relevance sampleConcept samplePaper).
Proof.
  assert (H : In sampleConcept
     (concepts (vr_extraction (validateExtraction sampleExtraction samplePaper)))).
  { vm_compute. left. reflexivity. }
  split; [exact H|].
  exact (retained_concept_sound sampleExtraction samplePaper sampleConcept H).
Defined.


Lemma aggregate_confidence_is_the_computed_mean_witness :
  let r := validateExtraction
             (mkExtraction [sampleConcept; weakConcept] [] [] [] []) samplePaper in
  concepts (vr_extraction r) = [sampleConcept]
  /\ vr_confidence r = Binary64.ofQ (9 # 10)
  /\ isValid r = true.
Proof.
  apply (proj2 aggregate_confidence_is_the_computed_mean sampleConcept weakConcept).
  - reflexivity.
  - reflexivity.
  - simpl. lia.
  - left. apply includes_iff. vm_compute. reflexivity.
Defined.

End ValidationFacts.

(* ================================================================== *)
(** ** Properties of calls that can throw *)
(* ================================================================== *)

Module OutcomeFacts.

Lemma mapThrowing_Returned {A B : Type} (f : A -> Outcome B) (l : list A)
                           (out : list B) :
  mapThrowing f l = Returned out ->
  Forall2 (fun x y => f x = Returned y) l out.
Proof.
  revert out. induction l as [|x l IH]; intros out H; cbn in H.
  - injection H as <-. constructor.
  - destruct (f x) as [y|] eqn:E; cbn in H; [|discriminate].
    destruct (mapThrowing f l) as [ys|]; cbn in H; [|discriminate].
    injection H as <-. constructor; [exact E | now apply IH].
Qed.

Lemma mapThrowing_returns {A B : Type} (f : A -> Outcome B) (l : list A) :
  (forall x, In x l -> exists y, f x = Returned y) ->
  exists out, mapThrowing f l = Returned out.
Proof.
  induction l as [|x l IH]; intros H; [now exists []|].
  destruct (H x (or_introl eq_refl)) as [y E].
  destruct (IH (fun z Hz => H z (or_intror Hz))) as [ys Eys].
  exists (y :: ys). cbn. now rewrite E, Eys.
Qed.

Lemma mapThrowing_out {A B : Type} (f : A -> Outcome B) (l : list A)
                      (out : list B) (y : B) :
  mapThrowing f l = Returned out ->
  In y out -> exists x, In x l /\ f x = Returned y.
Proof.
  intros H. apply mapThrowing_Returned in H.
  induction H as [|x y' l out E _ IH]; intros Hin; [contradiction|].
  destruct Hin as [<-|Hin].
  - exists x. split; [now left | exact E].
  - destruct (IH Hin) as [x' [Hx' E']]. exists x'. split; [now right | exact E'].
Qed.

Lemma mapThrowing_in {A B : Type} (f : A -> Outcome B) (l : list A)
                     (out : list B) (x : A) :
  mapThrowing f l = Returned out ->
  In x l -> exists y, f x = Returned y /\ In y out.
Proof.
  intros H. apply mapThrowing_Returned in H.
  induction H as [|x' y l out E _ IH]; intros Hin; [contradiction|].
  destruct Hin as [<-|Hin].
  - exists y. split; [exact E | now left].
  - destruct (IH Hin) as [y' [E' Hy']]. exists y'. split; [exact E' | now right].
Qed.

Lemma mapThrowing_length {A B : Type} (f : A -> Outcome B) (l : list A)
                         (out : list B) :
  mapThrowing f l = Returned out -> List.length out = List.length l.
Proof.
  intros H. apply mapThrowing_Returned in H.
  induction H; cbn; congruence.
Qed.

(** The first element on which the callback throws ends the call with its
    message. *)
Lemma mapThrowing_first_throw {A B : Type} (f : A -> Outcome B) (x : A)
                              (l : list A) (message : string) :
  f x = Thrown message -> mapThrowing f (x :: l) = Thrown message.
Proof. intros E. cbn. now rewrite E. Qed.

End OutcomeFacts.

(** Reads an equation [m1 ;; ... = Returned x] as the equations of its
    steps. *)
Ltac returned H :=
  repeat match type of H with
         | andThen ?m _ = Returned _ =>
             let E := fresh "E" in
             destruct m eqn:E; cbn [andThen] in H; [|discriminate H]
         end.

(* ================================================================== *)
(** ** Properties of the extractor's coercion *)
(* ================================================================== *)

Module ExtractionFacts.
Import JsString JsStringFacts ExtractionAgent ValidationSpec ExtractionSpec.
Import OutcomeFacts.

Lemma expectString_Returned (parameter : string) (t : RawText) (s : string) :
  expectString parameter t = Returned s <-> t = Text s.
Proof.
  destruct t; cbn; split; intros H; try discriminate; congruence.
Qed.

Lemma textual_toString (t : RawText) :
  textual t -> truthy t = true -> exists s, t = Text s.
Proof.
  destruct t as [|s|b shown]; cbn; intros Ht H;
    [discriminate | now exists s | contradiction].
Qed.

Lemma convertible_coerceConfidence (v : RawNumber) :
  convertible v -> exists q, coerceConfidence v = Returned q.
Proof.
  destruct v; cbn; intros H; try contradiction; eexists; reflexivity.
Qed.

Lemma coerceRelationship_Returned (r : RawRelationship) (rel : Relationship) :
  coerceRelationship (Some r) = Returned rel <->
  exists k t e q,
    raw_relationship_type r = Text k
    /\ toString (raw_target_concept r) = Returned t
    /\ toString (raw_evidence r) = Returned e
    /\ coerceConfidence (raw_rel_confidence r) = Returned q
    /\ rel = mkRelationship (validateRelationshipType k) (trim t) (trim e) q.
Proof.
  unfold coerceRelationship. split.
  - intros H. returned H. injection H as <-.
    apply expectString_Returned in E. eauto 10.
  - intros [k [t [e [q [Hk [Ht [He [Hq ->]]]]]]]].
    rewrite Hk, Ht, He, Hq. reflexivity.
Qed.

Lemma plainRelationship_coerces (r : RawRelationship) :
  plainRelationship (Some r) ->
  relationshipHasFields (Some r) = true ->
  exists rel, coerceRelationship (Some r) = Returned rel.
Proof.
  intros [H1 [H2 [H3 H4]]] Hf. cbn in Hf.
  apply andb_true_iff in Hf as [Hf F3]. apply andb_true_iff in Hf as [F1 F2].
  destruct (textual_toString _ H1 F1) as [k Hk].
  destruct (textual_toString _ H2 F2) as [t Ht].
  destruct (textual_toString _ H3 F3) as [e He].
  destruct (convertible_coerceConfidence _ H4) as [q Hq].
  eexists. apply coerceRelationship_Returned.
  exists k, t, e, q. rewrite Hk, Ht, He. cbn. auto.
Qed.

Lemma validateRelationships_Returned (rels : list (option RawRelationship))
                                     (paper : Paper) (out : list Relationship) :
  validateRelationships rels paper = Returned out <->
  exists coerced,
    mapThrowing coerceRelationship (filter relationshipHasFields rels)
    = Returned coerced
    /\ out = filter (fun rel => isEvidenceInPaper (evidence rel) paper) coerced.
Proof.
  unfold validateRelationships. split.
  - intros H. returned H. injection H as <-. eauto.
  - intros [coerced [-> ->]]. reflexivity.
Qed.

Lemma validateRelationships_In (rels : list (option RawRelationship))
                               (paper : Paper) (all : list Relationship)
                               (out : Relationship) :
  validateRelationships rels paper = Returned all ->
  In out all ->
  exists rel, In rel rels /\ relationshipHasFields rel = true
              /\ coerceRelationship rel = Returned out
              /\ isEvidenceInPaper (evidence out) paper = true.
Proof.
  intros H Hin. apply validateRelationships_Returned in H as [coerced [H ->]].
  apply filter_In in Hin as [Hin Hev].
  destruct (mapThrowing_out _ _ _ _ H Hin) as [rel [Hrel E]].
  apply filter_In in Hrel as [Hrel Hf]. exists rel. auto.
Qed.

Lemma validateRelationships_returns (rels : list (option RawRelationship))
                                    (paper : Paper) :
  (forall rel, In rel rels -> relationshipHasFields rel = true ->
               exists out, coerceRelationship rel = Returned out) ->
  exists out, validateRelationships rels paper = Returned out.
Proof.
  intros H.
  destruct (mapThrowing_returns coerceRelationship
              (filter relationshipHasFields rels)) as [coerced E].
  { intros rel Hin. apply filter_In in Hin as [Hin Hf]. now apply H. }
  eexists. apply validateRelationships_Returned. eauto.
Qed.

(** C4 (as the code has it). A parsed relationship with all required
    fields is retained by the parse-time filter exactly when the first 20
    characters of its trimmed, lower-cased evidence occur in the lower-cased
    title+abstract; the length of the evidence plays no part.  The filter
    returns whenever the fields of the relationships are strings or
    missing. *)
Theorem parse_filter_retains_iff_prefix_traceable :
  (forall rels paper r out,
      In (Some r) rels ->
      relationshipHasFields (Some r) = true ->
      validateRelationships rels paper = Returned out ->
      exists rel text,
        coerceRelationship (Some r) = Returned rel
        /\ toString (raw_evidence r) = Returned text
        /\ evidence rel = trim text
        /\ (In rel out <->
            Substring (substring (toLowerCase (trim text)) 0 20)
                      (toLowerCase (paperText paper))))
  /\ (forall rels paper,
         Forall plainRelationship rels ->
         exists out, validateRelationships rels paper = Returned out).
Proof.
  split.
  - intros rels paper r out Hin Hf H.
    apply validateRelationships_Returned in H as [coerced [H ->]].
    assert (Hr : In (Some r) (filter relationshipHasFields rels))
      by (apply filter_In; now split).
    destruct (mapThrowing_in _ _ _ _ H Hr) as [rel [E Hrel]].
    pose proof E as E'. apply coerceRelationship_Returned in E'.
    destruct E' as [k [t [e [q [_ [_ [He [_ Heq]]]]]]]].
    exists rel, e. split; [exact E|]. split; [exact He|].
    assert (Hev : evidence rel = trim e) by now rewrite Heq.
    split; [exact Hev|]. rewrite filter_In, <- Hev.
    unfold isEvidenceInPaper. rewrite includes_iff. tauto.
  - intros rels paper Hplain. apply validateRelationships_returns.
    intros [r|] Hin Hf; [|discriminate].
    apply plainRelationship_coerces; [|exact Hf].
    rewrite Forall_forall in Hplain. now apply Hplain.
Qed.

Lemma parse_filter_retains_iff_prefix_traceable_witness :
  exists rel text,
    coerceRelationship (Some quotedRelationship) = Returned rel
    /\ toString (raw_evidence quotedRelationship) = Returned text
    /\ evidence rel = trim text
    /\ (In rel [mkRelationship introduces "Gaussian Splatting"
                  "Radiance field methods have revolutionized" (7 # 10)] <->
        Substring (substring (toLowerCase (trim text)) 0 20)
                  (toLowerCase (paperText samplePaper))).
Proof.
  apply (proj1 parse_filter_retains_iff_prefix_traceable
           [None; Some quotedRelationship] samplePaper quotedRelationship).
  - simpl. right. left. reflexivity.
  - reflexivity.
  - vm_compute. reflexivity.
Defined.

(** C4 as stated fails: this relationship has all required fields and
    evidence longer than 20 characters, and the filter drops it. *)
Lemma long_untraceable_evidence_is_dropped :
  relationshipHasFields (Some fabricatedRelationship) = true
  /\ (exists rel,
         coerceRelationship (Some fabricatedRelationship) = Returned rel
         /\ (20 < String.length (evidence rel))%nat)
  /\ validateRelationships [Some fabricatedRelationship] samplePaper
     = Returned [].
Proof.
  split; [reflexivity|]. split; [|vm_compute; reflexivity].
  eexists. split; [reflexivity|]. vm_compute. lia.
Qed.

Lemma coerceConfidence_numeric_nonzero (x : Q) :
  ~ x == 0 -> coerceConfidence (Numeric x) = Returned (clamp01 x).
Proof.
  intros Hx. unfold coerceConfidence, clamp01, orElse, Number. cbn [andThen].
  destruct (Qeq_bool x 0) eqn:E; [|reflexivity].
  apply Qeq_bool_iff in E. contradiction.
Qed.

Lemma coerceConfidence_range (v : RawNumber) (q : Q) :
  coerceConfidence v = Returned q -> (0 <= q <= 1)%Q.
Proof.
  unfold coerceConfidence. intros H. returned H. injection H as <-. split.
  - apply Q.min_glb; [discriminate | apply Q.le_max_l].
  - apply Q.le_min_l.
Qed.

(** C5 (where the code departs from it). A confidence field holding the
    number 0 is coerced to the default 0.7, for concepts and for
    relationships, whereas 0 clamped into [0,1] is 0. *)
Theorem zero_confidence_coerced_to_default :
  (exists cs,
      validateConcepts [Some zeroConfidenceConcept] = Returned cs
      /\ map confidence cs = [7 # 10])
  /\ (exists rs,
         validateRelationships [Some zeroConfidenceRelationship] samplePaper
         = Returned rs
         /\ map rel_confidence rs = [7 # 10])
  /\ clamp01 0 = 0
  /\ coerceConfidence (Numeric 0) = Returned (7 # 10).
Proof.
  split; [|split; [|split]].
  - eexists. split; vm_compute; reflexivity.
  - eexists. split; vm_compute; reflexivity.
  - reflexivity.
  - reflexivity.
Qed.

End ExtractionFacts.

(* ================================================================== *)
(** ** Properties of the array primitives *)
(* ================================================================== *)

Module JsArrayFacts.
Import JsArray.

Lemma firstn_min_length {A : Type} (n : nat) (l : list A) :
  firstn (Nat.min n (List.length l)) l = firstn n l.
Proof.
  destruct (Nat.le_ge_cases n (List.length l)) as [H|H].
  - now rewrite Nat.min_l.
  - rewrite Nat.min_r by assumption.
    now rewrite firstn_all, firstn_all2.
Qed.

Lemma slice_0 {A : Type} (l : list A) (limit : Z) :
  (0 <= limit)%Z -> slice l 0 limit = firstn (Z.to_nat limit) l.
Proof.
  intros H. unfold slice. cbn [Z.ltb Z.compare].
  destruct (limit <? 0)%Z eqn:E; [apply Z.ltb_lt in E; lia|].
  rewrite (Z.min_l 0) by lia. cbn [Z.to_nat skipn].
  rewrite <- (firstn_min_length (Z.to_nat limit) l). f_equal. lia.
Qed.

Lemma slice_nat {A : Type} (l : list A) (a n : nat) :
  slice l (Z.of_nat a) (Z.of_nat (a + n)) = firstn n (skipn a l).
Proof.
  unfold slice.
  destruct (Z.of_nat a <? 0)%Z eqn:E1; [apply Z.ltb_lt in E1; lia|].
  destruct (Z.of_nat (a + n) <? 0)%Z eqn:E2; [apply Z.ltb_lt in E2; lia|].
  destruct (Nat.le_ge_cases a (List.length l)) as [H|H].
  - rewrite (Z.min_l (Z.of_nat a)) by lia. rewrite Nat2Z.id.
    rewrite <- (firstn_min_length n (skipn a l)). f_equal.
    rewrite length_skipn. lia.
  - rewrite (Z.min_r (Z.of_nat a)) by lia. rewrite Nat2Z.id.
    rewrite !skipn_all2 by lia. now rewrite !firstn_nil.
Qed.

Section Ranking.
Context {A : Type} (score : A -> Z).

Let descending (a b : A) : Z := (score b - score a)%Z.

Lemma insert_perm (x : A) (l : list A) :
  Permutation (insert descending x l) (x :: l).
Proof.
  induction l as [|y l IH]; cbn [insert]; [reflexivity|].
  destruct (descending x y <=? 0)%Z; [reflexivity|].
  rewrite IH. apply perm_swap.
Qed.

Lemma sort_perm (l : list A) : Permutation (sort descending l) l.
Proof.
  induction l as [|x l IH]; cbn [sort fold_right]; [reflexivity|].
  fold (sort descending l). rewrite insert_perm. now constructor.
Qed.

Lemma insert_sorted (x : A) (l : list A) :
  StronglySorted (fun a b => (score b <= score a)%Z) l ->
  StronglySorted (fun a b => (score b <= score a)%Z) (insert descending x l).
Proof.
  induction 1 as [|y l Hs IH Hy]; cbn [insert].
  - repeat constructor.
  - destruct (descending x y <=? 0)%Z eqn:E; unfold descending in E.
    + apply Z.leb_le in E. constructor; [now constructor|].
      constructor; [lia|]. eapply Forall_impl; [|exact Hy].
      cbn. intros; lia.
    + apply Z.leb_gt in E. constructor; [exact IH|].
      rewrite (insert_perm x l). constructor; [lia | exact Hy].
Qed.

Lemma sort_sorted (l : list A) :
  StronglySorted (fun a b => (score b <= score a)%Z) (sort descending l).
Proof.
  induction l as [|x l IH]; cbn [sort fold_right]; [constructor|].
  now apply insert_sorted.
Qed.

Lemma insert_stable (s : Z) (x : A) (l : list A) :
  filter (fun a => (score a =? s)%Z) (insert descending x l)
  = filter (fun a => (score a =? s)%Z) (x :: l).
Proof.
  induction l as [|y l IH]; cbn [insert]; [reflexivity|].
  destruct (descending x y <=? 0)%Z eqn:E; [reflexivity|].
  unfold descending in E. apply Z.leb_gt in E.
  cbn [filter] in *. rewrite IH.
  destruct (score y =? s)%Z eqn:Ey, (score x =? s)%Z eqn:Ex; try reflexivity.
  apply Z.eqb_eq in Ey, Ex. lia.
Qed.

Lemma sort_stable (s : Z) (l : list A) :
  filter (fun a => (score a =? s)%Z) (sort descending l)
  = filter (fun a => (score a =? s)%Z) l.
Proof.
  induction l as [|x l IH]; cbn [sort fold_right]; [reflexivity|].
  fold (sort descending l). rewrite insert_stable. cbn [filter].
  now rewrite IH.
Qed.

End Ranking.
End JsArrayFacts.

(* ================================================================== *)
(** ** Properties of the orchestrator: ranking of candidates *)
(* ================================================================== *)

Module RankingFacts.
Import JsString JsArray JsArrayFacts PipelineOrchestrator OrchestratorSpec.

Lemma calculateRelevanceScore_weights (paper : Paper) :
  calculateRelevanceScore paper
  = (weight 3 (mentions paper "gaussian splatting")
     + weight 2 (mentions paper "3dgs")
     + weight 2 (mentions paper "radiance field")
     + weight 1 (mentions paper "real-time"))%Z.
Proof.
  unfold calculateRelevanceScore, mentions, weight.
  destruct (includes _ "gaussian splatting"), (includes _ "3dgs"),
           (includes _ "radiance field"), (includes _ "real-time");
    reflexivity.
Qed.

(** C9. The score of a candidate is +3 for "gaussian splatting", +2 for
    "3dgs", +2 for "radiance field" and +1 for "real-time", each looked up
    in the lower-cased title+abstract; prioritization returns the first
    [limit] candidates of the ranking that is a permutation of the input,
    descending in score, and that keeps candidates of equal score in their
    input order; and a candidate mentioning only "gaussian splatting" and
    "real-time" scores 4, one mentioning only "3dgs" scores 2, and the first
    is placed ahead of the second whichever way they come in. *)
Theorem prioritization_ranks_by_weighted_keywords :
  (forall paper,
      calculateRelevanceScore paper
      = (weight 3 (mentions paper "gaussian splatting")
         + weight 2 (mentions paper "3dgs")
         + weight 2 (mentions paper "radiance field")
         + weight 1 (mentions paper "real-time"))%Z)
  /\ (forall papers limit,
         (0 <= limit)%Z ->
         exists ranking,
           Permutation ranking papers
           /\ StronglySorted ranksBefore ranking
           /\ (forall s, withScore s ranking = withScore s papers)
           /\ prioritizePapersByRelevance papers limit
              = firstn (Z.to_nat limit) ranking)
  /\ (forall a b,
         mentions a "gaussian splatting" = true ->
         mentions a "real-time" = true ->
         mentions a "3dgs" = false ->
         mentions a "radiance field" = false ->
         mentions b "3dgs" = true ->
         mentions b "gaussian splatting" = false ->
         mentions b "radiance field" = false ->
         mentions b "real-time" = false ->
         calculateRelevanceScore a = 4%Z
         /\ calculateRelevanceScore b = 2%Z
         /\ prioritizePapersByRelevance [b; a] 2 = [a; b]
         /\ prioritizePapersByRelevance [a; b] 2 = [a; b]).
Proof.
  split; [exact calculateRelevanceScore_weights|]. split.
  - intros papers limit Hl.
    exists (sort (fun a b => (calculateRelevanceScore b - calculateRelevanceScore a)%Z)
                 papers).
    split; [apply (sort_perm calculateRelevanceScore)|].
    split; [apply (sort_sorted calculateRelevanceScore)|].
    split; [intros s; apply (sort_stable calculateRelevanceScore)|].
    unfold prioritizePapersByRelevance. now apply slice_0.
  - intros a b A1 A2 A3 A4 B1 B2 B3 B4.
    assert (Ha : calculateRelevanceScore a = 4%Z).
    { rewrite calculateRelevanceScore_weights, A1, A2, A3, A4. reflexivity. }
    assert (Hb : calculateRelevanceScore b = 2%Z).
    { rewrite calculateRelevanceScore_weights, B1, B2, B3, B4. reflexivity. }
    split; [exact Ha|]. split; [exact Hb|].
    unfold prioritizePapersByRelevance.
    rewrite !slice_0 by lia.
    cbn [sort fold_right insert]. rewrite Ha, Hb. cbn. split; reflexivity.
Qed.

Lemma prioritization_ranks_by_weighted_keywords_witness :
  (exists ranking,
      Permutation ranking [abbreviationCandidate; splattingCandidate]
      /\ StronglySorted ranksBefore ranking
      /\ (forall s, withScore s ranking
                    = withScore s [abbreviationCandidate; splattingCandidate])
      /\ prioritizePapersByRelevance [abbreviationCandidate; splattingCandidate] 1
         = firstn (Z.to_nat 1) ranking)
  /\ (calculateRelevanceScore splattingCandidate = 4%Z
      /\ calculateRelevanceScore abbreviationCandidate = 2%Z
      /\ prioritizePapersByRelevance [abbreviationCandidate; splattingCandidate] 2
         = [splattingCandidate; abbreviationCandidate]
      /\ prioritizePapersByRelevance [splattingCandidate; abbreviationCandidate] 2
         = [splattingCandidate; abbreviationCandidate]).
Proof.
  split.
  - apply (proj1 (proj2 prioritization_ranks_by_weighted_keywords)). lia.
  - apply (proj2 (proj2 prioritization_ranks_by_weighted_keywords));
      vm_compute; reflexivity.
Defined.

End RankingFacts.

(* ================================================================== *)
(** ** Properties of the orchestrator: storage *)
(* ================================================================== *)

Module StorageFacts.
Import ValidationAgent ValidationSpec ValidationFacts PipelineOrchestrator OrchestratorSpec.

Lemma grows_refl (P : Event -> Prop) (w : World) : grows P w w.
Proof.
  split; [|reflexivity]. exists []. now rewrite app_nil_r.
Qed.

Lemma grows_trans (P : Event -> Prop) (w1 w2 w3 : World) :
  grows P w1 w2 -> grows P w2 w3 -> grows P w1 w3.
Proof.
  intros [[d1 [E1 F1]] S1] [[d2 [E2 F2]] S2]. split; [|congruence].
  exists (d1 ++ d2). rewrite E2, E1, app_assoc. split; [reflexivity|].
  apply Forall_app. now split.
Qed.

Lemma grows_step (P : Event -> Prop) (w : World) (st : Store) (evs : list Event)
                 (n : nat) :
  Forall P evs -> papers_table st = papers_table (store w) ->
  grows P w (mkWorld st (trace w ++ evs) n).
Proof.
  intros HP Hs. split; [|exact Hs]. now exists evs.
Qed.

Lemma forOf_grows {A S : Type} (P : Event -> Prop) (xs : list A)
                  (body : S -> A -> Async S) :
  (forall acc x w, In x xs ->
     exists acc' w', body acc x w = (Returned acc', w') /\ grows P w w') ->
  forall acc w,
    exists acc' w', forOf xs body acc w = (Returned acc', w') /\ grows P w w'.
Proof.
  induction xs as [|x xs IH]; intros Hbody acc w.
  - exists acc, w. split; [reflexivity | apply grows_refl].
  - destruct (Hbody acc x w (or_introl eq_refl)) as [acc1 [w1 [E1 G1]]].
    destruct (IH (fun a y v Hy => Hbody a y v (or_intror Hy)) acc1 w1)
      as [acc2 [w2 [E2 G2]]].
    exists acc2, w2. split; [|eapply grows_trans; eassumption].
    cbn [forOf]. unfold bind at 1. now rewrite E1.
Qed.

Lemma forOf_skip {A S : Type} (keep : A -> bool) (xs : list A)
                 (body : S -> A -> Async S) :
  (forall acc x, keep x = false -> body acc x = ret acc) ->
  forall acc w, forOf xs body acc w = forOf (filter keep xs) body acc w.
Proof.
  intros Hskip. induction xs as [|x xs IH]; intros acc w; [reflexivity|].
  cbn [forOf filter]. destruct (keep x) eqn:K.
  - cbn [forOf]. unfold bind. destruct (body acc x w) as [[a|m] w']; [apply IH | reflexivity].
  - rewrite (Hskip acc x K). unfold bind, ret. apply IH.
Qed.

Section WithEnv.
Variable env : Env.

Lemma storeConcept_grows (paperId : nat) (e : ExtractionResult) (acc : nat)
                         (c : Concept) (w : World) :
  In c (concepts e) ->
  exists acc' w', storeConcept env paperId acc c w = (Returned acc', w')
                  /\ grows (storageEvent paperId e) w w'.
Proof.
  intros Hin. unfold storeConcept.
  destruct (Qle_bool (7 # 10) (confidence c)) eqn:Hq.
  2:{ exists acc, w. split; [reflexivity | apply grows_refl]. }
  apply Qle_bool_iff in Hq.
  assert (P1 : storageEvent paperId e (InsertConcept c)) by (cbn; auto).
  assert (P2 : forall i, storageEvent paperId e
                           (LinkPaperConcept paperId i "mentions" (confidence c))).
  { intros i. cbn. repeat split. exists c. auto. }
  unfold DatabaseClient.insertConcept, DatabaseClient.linkPaperConcept.
  cbv beta iota zeta delta [tryCatch bind emit tick getStore setStore ret throw].
  cbn [store trace clock].
  repeat match goal with
         | |- context [if ?b then _ else _] => destruct b
         | |- context [match ?o with Some _ => _ | None => _ end] => destruct o
         end;
    cbn [store trace clock fst snd];
    eexists; eexists; (split; [reflexivity|]);
    rewrite <- ?app_assoc; apply grows_step;
    cbn [papers_table]; try reflexivity;
    repeat first [apply Forall_nil | apply Forall_cons];
    first [exact P1 | apply P2].
Qed.

Lemma storeRelationship_grows (paperId : nat) (e : ExtractionResult) (acc : nat)
                              (r : Relationship) (w : World) :
  In r (relationships e) ->
  exists acc' w', storeRelationship env paperId acc r w = (Returned acc', w')
                  /\ grows (storageEvent paperId e) w w'.
Proof.
  intros Hin. unfold storeRelationship.
  destruct (Qle_bool (7 # 10) (rel_confidence r)) eqn:Hq.
  2:{ exists acc, w. split; [reflexivity | apply grows_refl]. }
  apply Qle_bool_iff in Hq.
  assert (P1 : storageEvent paperId e (InsertRelationship paperId r)) by (cbn; auto).
  unfold DatabaseClient.insertRelationship.
  cbv beta iota zeta delta [tryCatch bind emit tick getStore setStore ret throw].
  cbn [store trace clock].
  repeat match goal with
         | |- context [if ?b then _ else _] => destruct b
         end;
    cbn [store trace clock fst snd];
    eexists; eexists; (split; [reflexivity|]);
    rewrite <- ?app_assoc; apply grows_step;
    cbn [papers_table]; try reflexivity;
    repeat first [apply Forall_nil | apply Forall_cons]; exact P1.
Qed.

Lemma storeKnowledgeGraph_grows (paperId : nat) (e : ExtractionResult) (w : World) :
  exists w', storeKnowledgeGraph env paperId e w = (Returned tt, w')
             /\ grows (storageEvent paperId e) w w'.
Proof.
  unfold storeKnowledgeGraph.
  destruct (forOf_grows (storageEvent paperId e) (concepts e)
              (storeConcept env paperId)
              (fun acc c v H => storeConcept_grows paperId e acc c v H) 0%nat w)
    as [n1 [w1 [E1 G1]]].
  destruct (forOf_grows (storageEvent paperId e) (relationships e)
              (storeRelationship env paperId)
              (fun acc r v H => storeRelationship_grows paperId e acc r v H) n1 w1)
    as [n2 [w2 [E2 G2]]].
  exists w2. split; [|eapply grows_trans; eassumption].
  unfold bind. rewrite E1, E2. reflexivity.
Qed.

Lemma storeKnowledgeGraph_aboveFloor (paperId : nat) (e : ExtractionResult)
                                     (w : World) :
  storeKnowledgeGraph env paperId e w
  = storeKnowledgeGraph env paperId (aboveFloor e) w.
Proof.
  unfold storeKnowledgeGraph, aboveFloor. cbn [concepts relationships].
  unfold bind at 1 3.
  rewrite (forOf_skip (fun c => Qle_bool (7 # 10) (confidence c))).
  2:{ intros acc c H. unfold storeConcept. now rewrite H. }
  destruct (forOf _ _ _ w) as [[n1|m] w1]; [|reflexivity].
  unfold bind.
  rewrite (forOf_skip (fun r => Qle_bool (7 # 10) (rel_confidence r))).
  2:{ intros acc r H. unfold storeRelationship. now rewrite H. }
  reflexivity.
Qed.


End WithEnv.

(** C10. [storeKnowledgeGraph] sends the store nothing for a concept or a
    relationship whose confidence is below 0.7: every event it adds is a
    write for an entity of the extraction at 0.7 or above, no concept
    upsert, link or relationship insert carries an entity below 0.7, and the
    call behaves as on the extraction with those entities removed.  The
    floor is stricter than the validator's: a concept at 0.5 and a
    relationship at 0.6 pass validation and leave no trace at storage. *)
Theorem storage_floor_drops_low_confidence :
  (forall env paperId e w,
      exists w' delta,
        storeKnowledgeGraph env paperId e w = (Returned tt, w')
        /\ trace w' = trace w ++ delta
        /\ Forall (storageEvent paperId e) delta
        /\ (forall c, (confidence c < 7 # 10)%Q ->
              ~ In (InsertConcept c) delta
              /\ forall p i r, ~ In (LinkPaperConcept p i r (confidence c)) delta)
        /\ (forall r, (rel_confidence r < 7 # 10)%Q ->
              forall p, ~ In (InsertRelationship p r) delta)
        /\ storeKnowledgeGraph env paperId (aboveFloor e) w = (Returned tt, w'))
  /\ (vr_extraction (validateExtraction midExtraction samplePaper) = midExtraction
      /\ forall env paperId w,
           storeKnowledgeGraph env paperId midExtraction w = (Returned tt, w)).
Proof.
  split.
  - intros env paperId e w.
    destruct (storeKnowledgeGraph_grows env paperId e w)
      as [w' [E [[delta [T F]] _]]].
    exists w', delta. split; [exact E|]. split; [exact T|]. split; [exact F|].
    rewrite Forall_forall in F. split; [|split].
    + intros c Hc. split.
      * intros Hin. apply F in Hin. cbn in Hin.
        exact (Qlt_not_le _ _ Hc (proj2 Hin)).
      * intros p i r Hin. apply F in Hin. cbn in Hin.
        destruct Hin as [_ [_ [c0 [_ [Heq Hle]]]]]. rewrite <- Heq in Hle.
        exact (Qlt_not_le _ _ Hc Hle).
    + intros r Hr p Hin. apply F in Hin. cbn in Hin.
      exact (Qlt_not_le _ _ Hr (proj2 (proj2 Hin))).
    + now rewrite <- storeKnowledgeGraph_aboveFloor.
  - split; [vm_compute; reflexivity|]. intros env paperId w. reflexivity.
Qed.

Lemma storage_floor_drops_low_confidence_witness :
  exists w' delta,
    storeKnowledgeGraph sampleEnv 0 (mkExtraction [sampleConcept; midConcept] [] [] []
                                                  [midRelationship]) emptyWorld
    = (Returned tt, w')
    /\ trace w' = trace emptyWorld ++ delta
    /\ ~ In (InsertConcept midConcept) delta
    /\ ~ In (InsertRelationship 0 midRelationship) delta.
Proof.
  destruct (proj1 storage_floor_drops_low_confidence sampleEnv 0%nat
              (mkExtraction [sampleConcept; midConcept] [] [] [] [midRelationship])
              emptyWorld)
    as [w' [delta [E [T [_ [Hc [Hr _]]]]]]].
  exists w', delta. split; [exact E|]. split; [exact T|]. split.
  - apply (Hc midConcept). reflexivity.
  - apply (Hr midRelationship). reflexivity.
Defined.

End StorageFacts.

(* ================================================================== *)
(** ** Properties of the orchestrator: one paper *)
(* ================================================================== *)

Module ProcessFacts.
Import PipelineOrchestrator OrchestratorSpec StorageFacts.

Lemma find_none_existsb {A : Type} (f : A -> bool) (l : list A) :
  find f l = None -> existsb f l = false.
Proof.
  induction l as [|x l IH]; cbn; [reflexivity|].
  destruct (f x); [discriminate | exact IH].
Qed.

Lemma find_app_last {A : Type} (f : A -> bool) (l : list A) (x : A) :
  find f l = None -> f x = true -> find f (l ++ [x]) = Some x.
Proof.
  intros Hn Hx. induction l as [|y l IH]; cbn in *.
  - now rewrite Hx.
  - destruct (f y); [discriminate | now apply IH].
Qed.

Lemma storageEvent_isEntityWrite (paperId : nat) (e : ExtractionResult) (ev : Event) :
  storageEvent paperId e ev -> isEntityWrite ev = true.
Proof. destruct ev; cbn; tauto. Qed.

Ltac run_async :=
  cbv beta iota zeta delta [tryCatch bind emit tick getStore setStore ret throw];
  cbn [store trace clock fst snd Nat.add].

Section WithEnv.
Variable env : Env.

Lemma processPaper_leaves (arxivId : string) (w : World) :
  exists w', processPaper env arxivId w
             = (Returned (succeeded (verdict env arxivId w)), w')
             /\ leaves env arxivId w w'.
Proof.
  unfold leaves, verdict, processPaper, DatabaseClient.findPaperByArxivId,
    Agents.fetchPaper, DatabaseClient.insertPaper, Agents.extractEntities,
    Agents.validateExtraction, Agents.analyzeCrossPaperRelationships.
  run_async.
  destruct (dbError env (clock w)) eqn:D0; run_async.
  { eexists. split; reflexivity. }
  fold (storedPaper arxivId (store w)).
  destruct (storedPaper arxivId (store w)) as [row|] eqn:Hfind; run_async.
  { eexists. split; reflexivity. }
  destruct (arxiv env (S (clock w)) arxivId) as [p|] eqn:Hfetch; run_async.
  2:{ eexists. split; [reflexivity|]. unfold after. cbn.
      now rewrite <- app_assoc. }
  fold (fetched arxivId p).
  destruct (negb (isRelevantToGaussianSplatting (fetched arxivId p))) eqn:Hrel;
    run_async.
  { eexists. split; [reflexivity|]. unfold after. cbn.
    now rewrite <- app_assoc. }
  unfold storedPaper in Hfind. cbn [arxiv_id fetched].
  rewrite (find_none_existsb _ _ Hfind), orb_false_r.
  destruct (dbError env (S (S (clock w)))) eqn:D2; run_async.
  { eexists. split; [reflexivity|]. exists (fetched arxivId p).
    unfold after. cbn. now rewrite <- !app_assoc. }
  fold (fetched arxivId p).
  assert (Hstored : forall st,
             papers_table st
             = papers_table (store w)
                 ++ [(List.length (papers_table (store w)), fetched arxivId p)] ->
             storedPaper arxivId st <> None).
  { intros st Hst. unfold storedPaper. rewrite Hst.
    rewrite (find_app_last _ _ _ Hfind); [discriminate|].
    cbn. apply String.eqb_refl. }
  destruct (extractor env (S (S (S (clock w)))) (fetched arxivId p)) as [e|] eqn:Hex;
    run_async.
  2:{ eexists. split; [reflexivity|]. exists (fetched arxivId p). cbn [store trace].
      split; [apply Hstored; reflexivity|]. now rewrite <- !app_assoc. }
  match goal with
  | |- context [storeKnowledgeGraph env ?pid ?ex ?w0] =>
      destruct (storeKnowledgeGraph_grows env pid ex w0) as [w5 [E5 [[delta [T5 F5]] S5]]];
      rewrite E5
  end.
  cbn [store trace clock] in *.
  eexists. split; [reflexivity|].
  exists (fetched arxivId p), (List.length (papers_table (store w))), delta.
  cbn [store trace]. split; [apply Hstored; exact S5|].
  split.
  - eapply Forall_impl; [|exact F5]. intros ev. apply storageEvent_isEntityWrite.
  - rewrite T5. now rewrite <- !app_assoc.
Qed.

Lemma verdict_present (arxivId : string) (w : World) :
  verdict env arxivId w = AlreadyPresent ->
  dbError env (clock w) = false /\ storedPaper arxivId (store w) <> None.
Proof.
  unfold verdict. destruct (dbError env (clock w)); [discriminate|].
  destruct (storedPaper arxivId (store w)); [split; [reflexivity|discriminate]|].
  destruct (arxiv env (1 + clock w) arxivId); [|discriminate].
  destruct (negb _); [discriminate|].
  destruct (dbError env (2 + clock w)); [discriminate|].
  destruct (extractor env _ _); discriminate.
Qed.

Lemma stored_verdict (arxivId : string) (w : World) :
  storedPaper arxivId (store w) <> None ->
  verdict env arxivId w
  = if dbError env (clock w) then Failed AtLookup else AlreadyPresent.
Proof.
  intros H. unfold verdict. destruct (dbError env (clock w)); [reflexivity|].
  destruct (storedPaper arxivId (store w)); [reflexivity | contradiction].
Qed.

(** A call on a stored paper looks it up and does nothing else. *)
Lemma stored_short_circuit (arxivId : string) (w : World) :
  storedPaper arxivId (store w) <> None ->
  processPaper env arxivId w
  = (Returned (negb (dbError env (clock w))), after w [FindPaper arxivId] 1).
Proof.
  intros H. destruct (processPaper_leaves arxivId w) as [w' [E L]].
  unfold leaves in L. rewrite (stored_verdict _ _ H) in E, L.
  destruct (dbError env (clock w)); cbn in E, L; now rewrite E, L.
Qed.

Lemma entityWrites_not_extract (delta : list Event) :
  Forall (fun ev => isEntityWrite ev = true) delta ->
  filter isExtract delta = [] /\ filter isValidate delta = []
  /\ filter isFetch delta = [].
Proof.
  induction 1 as [|ev delta Hev _ [IH1 [IH2 IH3]]]; [repeat split; reflexivity|].
  destruct ev; cbn in *; try discriminate; now repeat split.
Qed.

Lemma verdict_lookup_failed (arxivId : string) (w : World) :
  verdict env arxivId w = Failed AtLookup -> dbError env (clock w) = true.
Proof.
  unfold verdict. destruct (dbError env (clock w)); [reflexivity|].
  destruct (storedPaper arxivId (store w)); [discriminate|].
  destruct (arxiv env (1 + clock w) arxivId); [|discriminate].
  destruct (negb _); [discriminate|].
  destruct (dbError env (2 + clock w)); [discriminate|].
  destruct (extractor env _ _); discriminate.
Qed.

(** The events of one call: at most one extraction and one validation, and
    none of them nor any entity write unless the paper is stored when the
    call returns; and one fetch when the lookup finds no row. *)
Lemma leaves_trace (arxivId : string) (w w' : World) :
  leaves env arxivId w w' ->
  exists d, trace w' = trace w ++ d
            /\ (List.length (filter isExtract d) <= 1)%nat
            /\ (List.length (filter isValidate d) <= 1)%nat
            /\ (storedPaper arxivId (store w') <> None
                \/ (filter isExtract d = [] /\ filter isValidate d = []
                    /\ filter isEntityWrite d = []))
            /\ (dbError env (clock w) = false ->
                storedPaper arxivId (store w) = None ->
                filter isFetch d = [FetchPaper arxivId]).
Proof.
  unfold leaves. destruct (verdict env arxivId w) as [| | |[| | |]] eqn:V.
  - intros ->. exists [FindPaper arxivId]. cbn. repeat split; auto.
    intros _ H. apply verdict_present in V. tauto.
  - intros [p [paperId [delta [Hs [Hd Ht]]]]].
    destruct (entityWrites_not_extract delta Hd) as [X1 [X2 X3]].
    eexists. split; [exact Ht|].
    rewrite !filter_app, X1, X2, X3. cbn. repeat split; auto.
  - intros ->. eexists. split; [reflexivity|]. cbn. repeat split; auto.
  - intros ->. eexists. split; [reflexivity|]. cbn. repeat split; auto.
    intros D _. apply verdict_lookup_failed in V. congruence.
  - intros ->. eexists. split; [reflexivity|]. cbn. repeat split; auto.
  - intros [p ->]. eexists. split; [reflexivity|]. cbn. repeat split; auto.
  - intros [p [Hs Ht]]. eexists. split; [exact Ht|]. cbn. repeat split; auto.
Qed.

(** The paper is stored after a call exactly when it was stored before, or
    the call inserted it: a call that integrated the paper, or one whose
    extraction failed. *)
Lemma leaves_stored (arxivId : string) (w w' : World) :
  leaves env arxivId w w' ->
  (storedPaper arxivId (store w') <> None <->
   storedPaper arxivId (store w) <> None
   \/ verdict env arxivId w = NewlyIntegrated
   \/ verdict env arxivId w = Failed AtExtraction).
Proof.
  unfold leaves. intros L. split.
  - intros H. destruct (verdict env arxivId w) as [| | |[| | |]] eqn:V; auto;
      try (rewrite L in H; now left).
    destruct L as [p ->]. now left.
  - intros [H|H].
    + rewrite (stored_verdict _ _ H) in L.
      destruct (dbError env (clock w)); now rewrite L.
    + destruct H as [H|H]; rewrite H in L.
      * destruct L as [p [paperId [delta [Hs _]]]]. exact Hs.
      * destruct L as [p [Hs _]]. exact Hs.
Qed.

Lemma success_means_stored (arxivId : string) (w w1 : World) :
  processPaper env arxivId w = (Returned true, w1) ->
  storedPaper arxivId (store w1) <> None.
Proof.
  intros E. destruct (processPaper_leaves arxivId w) as [w' [E' L]].
  rewrite E in E'. injection E' as Hb <-. unfold leaves in L.
  destruct (verdict env arxivId w) as [| | |step] eqn:V; try discriminate.
  - rewrite L. cbn. now apply verdict_present.
  - destruct L as [p [paperId [delta [Hs _]]]]. exact Hs.
Qed.

End WithEnv.

(** C6 (as the code has it). A call for an identifier the store already
    holds returns true after the lookup alone: no fetch, extraction or
    validation, and the store is left as it was.  Hence, after a call that
    returned true, a second call for the same identifier does the same.
    Over any two successive calls the extraction and the validation run at
    most once, and at most one of the two calls writes concepts, links or
    relationships.  The fetch is another matter: the second call skips it
    when the first call left the paper stored, that is when the paper was
    stored before, or the first call integrated it or failed in its
    extraction; after a first call that stored nothing (the relevance gate
    skipped the paper, or the fetch or the insertion failed) the second
    call fetches the paper again. *)
Theorem only_a_stored_paper_is_skipped :
  (forall env arxivId w row,
      dbError env (clock w) = false ->
      storedPaper arxivId (store w) = Some row ->
      processPaper env arxivId w
      = (Returned true, after w [FindPaper arxivId] 1))
  /\ (forall env arxivId w w1,
         processPaper env arxivId w = (Returned true, w1) ->
         dbError env (clock w1) = false ->
         processPaper env arxivId w1
         = (Returned true, after w1 [FindPaper arxivId] 1))
  /\ (forall env arxivId w r1 w1 r2 w2,
         processPaper env arxivId w = (r1, w1) ->
         processPaper env arxivId w1 = (r2, w2) ->
         exists d1 d2,
           trace w1 = trace w ++ d1
           /\ trace w2 = trace w1 ++ d2
           /\ (List.length (filter isExtract (d1 ++ d2)) <= 1)%nat
           /\ (List.length (filter isValidate (d1 ++ d2)) <= 1)%nat
           /\ (filter isEntityWrite d1 = [] \/ filter isEntityWrite d2 = [])
           /\ (storedPaper arxivId (store w1) <> None <->
               storedPaper arxivId (store w) <> None
               \/ verdict env arxivId w = NewlyIntegrated
               \/ verdict env arxivId w = Failed AtExtraction)
           /\ (storedPaper arxivId (store w1) <> None ->
               d2 = [FindPaper arxivId])
           /\ (storedPaper arxivId (store w1) = None ->
               dbError env (clock w) = false ->
               dbError env (clock w1) = false ->
               r1 = Returned false
               /\ filter isFetch d1 = [FetchPaper arxivId]
               /\ filter isFetch d2 = [FetchPaper arxivId])).
Proof.
  split; [|split].
  - intros env arxivId w row D H.
    rewrite stored_short_circuit by (rewrite H; discriminate).
    now rewrite D.
  - intros env arxivId w w1 E D.
    rewrite stored_short_circuit by (eapply success_means_stored; exact E).
    now rewrite D.
  - intros env arxivId w r1 w1 r2 w2 E1 E2.
    destruct (processPaper_leaves env arxivId w) as [w1' [E1' L1]].
    rewrite E1 in E1'. injection E1' as Hr1 <-.
    destruct (leaves_trace env arxivId w w1 L1) as [d1 [T1 [X1 [V1 [S1 F1]]]]].
    pose proof (leaves_stored env arxivId w w1 L1) as St.
    destruct (processPaper_leaves env arxivId w1) as [w2' [E2' L2]].
    rewrite E2 in E2'. injection E2' as _ <-.
    destruct (leaves_trace env arxivId w1 w2 L2) as [d2 [T2 [X2 [V2 [_ F2]]]]].
    exists d1, d2. split; [exact T1|]. split; [exact T2|].
    assert (Skip : storedPaper arxivId (store w1) <> None ->
                   d2 = [FindPaper arxivId]).
    { intros S. rewrite (stored_short_circuit env arxivId w1 S) in E2.
      injection E2 as _ <-. cbn [after trace] in T2.
      now apply app_inv_head in T2. }
    assert (Again : storedPaper arxivId (store w1) = None ->
                    dbError env (clock w) = false ->
                    dbError env (clock w1) = false ->
                    r1 = Returned false
                    /\ filter isFetch d1 = [FetchPaper arxivId]
                    /\ filter isFetch d2 = [FetchPaper arxivId]).
    { intros N D D1.
      assert (N0 : storedPaper arxivId (store w) = None).
      { destruct (storedPaper arxivId (store w)) eqn:S0; [|reflexivity].
        exfalso. apply (proj2 St); [left; discriminate | exact N]. }
      split; [|split; [now apply F1 | now apply F2]].
      destruct (succeeded (verdict env arxivId w)) eqn:Sv;
        [|now rewrite Hr1].
      exfalso. apply (success_means_stored env arxivId w w1); [|exact N].
      now rewrite E1, Hr1. }
    destruct S1 as [S1 | [N1 [N2 N3]]].
    + pose proof (Skip S1) as ->. rewrite !filter_app.
      cbn [filter isExtract isValidate isEntityWrite]. rewrite !app_nil_r.
      split; [exact X1|]. split; [exact V1|]. split; [now right|].
      split; [exact St|]. split; [exact Skip | exact Again].
    + rewrite !filter_app, N1, N2. cbn [app].
      split; [exact X2|]. split; [exact V2|]. split; [now left|].
      split; [exact St|]. split; [exact Skip | exact Again].
Qed.

Lemma only_a_stored_paper_is_skipped_witness :
  processPaper sampleEnv "2308.04079" afterFirstCall
  = (Returned true, after afterFirstCall [FindPaper "2308.04079"] 1).
Proof.
  apply (proj1 (proj2 only_a_stored_paper_is_skipped)
           sampleEnv "2308.04079" emptyWorld).
  - vm_compute. reflexivity.
  - vm_compute. reflexivity.
Defined.

(** C6 as stated fails: the relevance gate skips the off-topic paper that
    arXiv returns, nothing is stored, and a second call for the same
    identifier fetches the paper again. *)
Lemma unstored_paper_is_fetched_again :
  let w1 := after emptyWorld [FindPaper "1706.03762"; FetchPaper "1706.03762"] 2 in
  let w2 := after w1 [FindPaper "1706.03762"; FetchPaper "1706.03762"] 2 in
  processPaper sampleEnv "1706.03762" emptyWorld = (Returned false, w1)
  /\ storedPaper "1706.03762" (store w1) = None
  /\ processPaper sampleEnv "1706.03762" w1 = (Returned false, w2)
  /\ filter isFetch (trace w2)
     = [FetchPaper "1706.03762"; FetchPaper "1706.03762"].
Proof. vm_compute. repeat split. Qed.

(** C7 (as the code has it). [processPaper] never raises.  It returns true
    exactly when the paper was already present or has been newly integrated
    (stored, extracted, validated, written and cross-referenced), and false
    both when the relevance gate skips the paper and when the lookup, the
    fetch, the insertion of the paper or the extraction fails; the task of
    the batch records a true result in the list of processed papers and a
    false one in the list of failed papers. *)
Theorem processPaper_returns_false_on_failure :
  (forall env arxivId w,
      exists b w',
        processPaper env arxivId w = (Returned b, w')
        /\ leaves env arxivId w w'
        /\ (b = true <->
            verdict env arxivId w = AlreadyPresent
            \/ verdict env arxivId w = NewlyIntegrated)
        /\ (b = false <->
            verdict env arxivId w = SkippedIrrelevant
            \/ exists step, verdict env arxivId w = Failed step))
  /\ (forall env lists paper w,
         exists b w',
           processPaper env (arxiv_id paper) w = (Returned b, w')
           /\ processingPromise env lists paper w
              = (Returned (if b then (fst lists ++ [arxiv_id paper], snd lists)
                           else (fst lists, snd lists ++ [arxiv_id paper])),
                 w')).
Proof.
  split.
  - intros env arxivId w.
    destruct (processPaper_leaves env arxivId w) as [w' [E L]].
    exists (succeeded (verdict env arxivId w)), w'. split; [exact E|].
    split; [exact L|]. clear E L.
    destruct (verdict env arxivId w) as [| | |step]; cbn; split; split;
      try discriminate; try tauto; try (intros [H|H]; discriminate).
    + intros [H|[s H]]; discriminate.
    + intros [H|[s H]]; discriminate.
    + intros _. right. now exists step.
  - intros env lists paper w.
    destruct (processPaper_leaves env (arxiv_id paper) w) as [w' [E _]].
    exists (succeeded (verdict env (arxiv_id paper) w)), w'. split; [exact E|].
    unfold processingPromise, tryCatch, bind. rewrite E. reflexivity.
Qed.

(** C7 as stated fails: arXiv has no paper for this identifier, so the fetch
    throws; the call returns false instead of raising, and no relevance gate
    was applied. *)
Lemma fetch_failure_returns_false :
  arxiv sampleEnv 1 "0000.00000" = None
  /\ verdict sampleEnv "0000.00000" emptyWorld = Failed AtFetch
  /\ processPaper sampleEnv "0000.00000" emptyWorld
     = (Returned false,
        after emptyWorld [FindPaper "0000.00000"; FetchPaper "0000.00000"] 2).
Proof. vm_compute. repeat split. Qed.

End ProcessFacts.

(* ================================================================== *)
(** ** Properties of the orchestrator: batches *)
(* ================================================================== *)

Module BatchFacts.
Import JsArray JsArrayFacts PipelineOrchestrator OrchestratorSpec ProcessFacts.

Lemma adaptiveDelay_cases (processed failed : list string) :
  ((3 # 10 < failureRate processed failed)%Q
   /\ adaptiveDelay processed failed = 5000%Z)
  \/ ((failureRate processed failed <= 3 # 10)%Q
      /\ adaptiveDelay processed failed = 2000%Z).
Proof.
  unfold adaptiveDelay.
  destruct (Qlt_bool (3 # 10) (failureRate processed failed)) eqn:E.
  - left. split; [now apply Qlt_bool_true_iff | reflexivity].
  - right. split; [now apply Qlt_bool_false_iff | reflexivity].
Qed.

Lemma adaptiveDelay_counts (processed failed : list string) (s f : nat) :
  List.length processed = s -> List.length failed = f ->
  adaptiveDelay processed failed
  = if Qlt_bool (3 # 10) (inject_Z (Z.of_nat f) / inject_Z (Z.of_nat (s + f)))
    then 5000%Z else 2000%Z.
Proof. intros <- <-. reflexivity. Qed.

Section WithEnv.
Variable env : Env.

(** Two runs of the loop that have the same papers left behave alike, given
    fuel for what is left. *)
Lemma batchLoop_rest (fuel : nat) :
  forall fuel' papers papers' i i' lists w,
    skipn i papers = skipn i' papers' ->
    (List.length papers - i <= fuel)%nat ->
    (List.length papers' - i' <= fuel')%nat ->
    batchLoop env fuel papers i lists w = batchLoop env fuel' papers' i' lists w.
Proof.
  induction fuel as [|fuel IH]; intros fuel' papers papers' i i' lists w Hs Hf Hf'.
  - assert (Hl : List.length (skipn i' papers') = 0%nat).
    { rewrite <- Hs, length_skipn. lia. }
    rewrite length_skipn in Hl. cbn [batchLoop].
    destruct fuel' as [|fuel']; [reflexivity|]. cbn [batchLoop].
    destruct (i' <? List.length papers')%nat eqn:E; [apply Nat.ltb_lt in E; lia|].
    reflexivity.
  - assert (Hl : (List.length papers - i = List.length papers' - i')%nat).
    { rewrite <- !length_skipn. now rewrite Hs. }
    cbn [batchLoop].
    destruct (i <? List.length papers)%nat eqn:E.
    + apply Nat.ltb_lt in E.
      destruct fuel' as [|fuel']; [lia|]. cbn [batchLoop].
      destruct (i' <? List.length papers')%nat eqn:E'; [|apply Nat.ltb_ge in E'; lia].
      rewrite !slice_nat, Hs.
      replace (i' + BATCH_SIZE <? List.length papers')%nat
        with (i + BATCH_SIZE <? List.length papers)%nat.
      2:{ destruct (i + BATCH_SIZE <? List.length papers)%nat eqn:B; symmetry.
          - apply Nat.ltb_lt in B. apply Nat.ltb_lt. lia.
          - apply Nat.ltb_ge in B. apply Nat.ltb_ge. lia. }
      unfold bind at 1 3.
      destruct (settleBatch env (firstn BATCH_SIZE (skipn i' papers')) lists w)
        as [[lists'|m] w1]; [|reflexivity].
      unfold bind.
      destruct ((if (i + BATCH_SIZE <? List.length papers)%nat
                 then sleep (adaptiveDelay (fst lists') (snd lists'))
                 else ret tt) w1) as [[u|m] w2]; [|reflexivity].
      apply IH.
      * rewrite !(Nat.add_comm _ BATCH_SIZE), <- !skipn_skipn. now rewrite Hs.
      * unfold BATCH_SIZE. lia.
      * unfold BATCH_SIZE. lia.
    + apply Nat.ltb_ge in E.
      destruct fuel' as [|fuel']; [reflexivity|]. cbn [batchLoop].
      destruct (i' <? List.length papers')%nat eqn:E'; [apply Nat.ltb_lt in E'; lia|].
      reflexivity.
Qed.

Lemma batchLoop_step (fuel : nat) (papers : list Paper) (i : nat)
                     (lists : list string * list string) (w : World) :
  (i < List.length papers)%nat ->
  batchLoop env (S fuel) papers i lists w
  = bind (settleBatch env (firstn BATCH_SIZE (skipn i papers)) lists)
         (fun lists' =>
            bind (if (i + BATCH_SIZE <? List.length papers)%nat
                  then sleep (adaptiveDelay (fst lists') (snd lists'))
                  else ret tt)
                 (fun _ => batchLoop env fuel papers (i + BATCH_SIZE) lists'))
         w.
Proof.
  intros H. cbn [batchLoop]. apply Nat.ltb_lt in H. rewrite H.
  now rewrite slice_nat.
Qed.

Lemma batchLoop_done (fuel : nat) (papers : list Paper) (i : nat)
                     (lists : list string * list string) (w : World) :
  (List.length papers <= i)%nat ->
  batchLoop env fuel papers i lists w = (Returned lists, w).
Proof.
  intros H. destruct fuel as [|fuel]; [reflexivity|]. cbn [batchLoop].
  apply Nat.ltb_ge in H. now rewrite H.
Qed.

(** The loop, batch by batch: the first five papers are settled; when papers
    remain, the orchestrator sleeps for the delay computed from the two
    lists as they then stand, and goes on with the remaining papers. *)
Lemma processPapersAtScale_unfold (papers : list Paper)
                                  (processed failed : list string) (w : World) :
  processPapersAtScale env papers processed failed w
  = match papers with
    | [] => (Returned (processed, failed), w)
    | _ :: _ =>
        bind (settleBatch env (firstn BATCH_SIZE papers) (processed, failed))
             (fun lists' =>
                if (BATCH_SIZE <? List.length papers)%nat
                then bind (sleep (adaptiveDelay (fst lists') (snd lists')))
                          (fun _ => processPapersAtScale env (skipn BATCH_SIZE papers)
                                      (fst lists') (snd lists'))
                else ret lists')
             w
    end.
Proof.
  destruct papers as [|p papers]; [reflexivity|].
  unfold processPapersAtScale at 1.
  change (List.length (p :: papers)) with (S (List.length papers)) at 1.
  rewrite batchLoop_step by (cbn [List.length]; lia).
  change (skipn 0 (p :: papers)) with (p :: papers).
  change (0 + BATCH_SIZE)%nat with BATCH_SIZE.
  unfold bind at 1 3.
  destruct (settleBatch env (firstn BATCH_SIZE (p :: papers)) (processed, failed) w)
    as [[lists'|m] w1]; [|reflexivity].
  destruct (BATCH_SIZE <? List.length (p :: papers))%nat eqn:B.
  - unfold bind.
    destruct (sleep (adaptiveDelay (fst lists') (snd lists')) w1)
      as [[u|m] w2]; [|reflexivity].
    unfold processPapersAtScale. destruct lists' as [pr fl]. cbn [fst snd].
    apply batchLoop_rest.
    + reflexivity.
    + unfold BATCH_SIZE. cbn [List.length]. lia.
    + lia.
  - unfold bind, ret. apply Nat.ltb_ge in B.
    now apply batchLoop_done.
Qed.

Lemma leaves_withoutSleep (arxivId : string) (w w' : World) :
  leaves env arxivId w w' -> withoutSleep w w'.
Proof.
  unfold leaves, withoutSleep.
  destruct (verdict env arxivId w) as [| | |[| | |]].
  - intros ->. eexists. split; [reflexivity|]. repeat constructor.
  - intros [p [paperId [delta [_ [Hd Ht]]]]].
    eexists. split; [exact Ht|].
    repeat (apply Forall_cons; [reflexivity|]). apply Forall_app. split.
    + eapply Forall_impl; [|exact Hd]. intros [] H; cbn in *; congruence.
    + repeat constructor.
  - intros ->. eexists. split; [reflexivity|]. repeat constructor.
  - intros ->. eexists. split; [reflexivity|]. repeat constructor.
  - intros ->. eexists. split; [reflexivity|]. repeat constructor.
  - intros [p ->]. eexists. split; [reflexivity|]. repeat constructor.
  - intros [p [_ Ht]]. eexists. split; [exact Ht|]. repeat constructor.
Qed.

Lemma settleBatch_settles (batch : list Paper) :
  forall lists w,
  exists lists' w',
    settleBatch env batch lists w = (Returned lists', w')
    /\ withoutSleep w w'
    /\ (List.length (fst lists') + List.length (snd lists')
        = List.length (fst lists) + List.length (snd lists) + List.length batch)%nat.
Proof.
  unfold settleBatch.
  induction batch as [|paper batch IH]; intros lists w.
  - exists lists, w. split; [reflexivity|]. split; [|cbn; lia].
    exists []. now rewrite app_nil_r.
  - destruct (processPaper_leaves env (arxiv_id paper) w) as [w1 [E L]].
    apply leaves_withoutSleep in L. destruct L as [d1 [T1 F1]].
    set (lists1 := if succeeded (verdict env (arxiv_id paper) w)
                   then (fst lists ++ [arxiv_id paper], snd lists)
                   else (fst lists, snd lists ++ [arxiv_id paper])).
    assert (E1 : processingPromise env lists paper w = (Returned lists1, w1)).
    { unfold processingPromise, tryCatch, bind. rewrite E. reflexivity. }
    destruct (IH lists1 w1) as [lists' [w' [E' [[d2 [T2 F2]] Hlen]]]].
    exists lists', w'. cbn [forOf]. unfold bind at 1. rewrite E1.
    split; [exact E'|]. split.
    + exists (d1 ++ d2). rewrite T2, T1, app_assoc. split; [reflexivity|].
      apply Forall_app. now split.
    + rewrite Hlen. subst lists1.
      destruct (succeeded _); cbn [fst snd List.length];
        rewrite length_app; cbn [List.length]; lia.
Qed.

(** With more than one batch left: settle five, sleep, go on. *)
Lemma first_batch_then_sleep (papers : list Paper)
                             (processed failed : list string) (w : World) :
  (BATCH_SIZE < List.length papers)%nat ->
  exists lists' w1,
    settleBatch env (firstn BATCH_SIZE papers) (processed, failed) w
    = (Returned lists', w1)
    /\ withoutSleep w w1
    /\ (List.length (fst lists') + List.length (snd lists')
        = List.length processed + List.length failed + BATCH_SIZE)%nat
    /\ processPapersAtScale env papers processed failed w
       = processPapersAtScale env (skipn BATCH_SIZE papers)
           (fst lists') (snd lists')
           (after w1 [Sleep (adaptiveDelay (fst lists') (snd lists'))] 0).
Proof.
  intros H.
  destruct (settleBatch_settles (firstn BATCH_SIZE papers) (processed, failed) w)
    as [lists' [w1 [E [Hns Hlen]]]].
  exists lists', w1. split; [exact E|]. split; [exact Hns|]. split.
  - rewrite Hlen, length_firstn. cbn [fst snd]. lia.
  - rewrite processPapersAtScale_unfold.
    destruct papers as [|p papers]; [cbn in H; lia|].
    unfold bind at 1. rewrite E.
    apply Nat.ltb_lt in H. rewrite H. reflexivity.
Qed.

(** With at most one batch left: settle it, and no sleep. *)
Lemma last_batch_without_sleep (papers : list Paper)
                               (processed failed : list string) (w : World) :
  (List.length papers <= BATCH_SIZE)%nat ->
  exists lists' w1,
    processPapersAtScale env papers processed failed w = (Returned lists', w1)
    /\ withoutSleep w w1
    /\ (List.length (fst lists') + List.length (snd lists')
        = List.length processed + List.length failed + List.length papers)%nat.
Proof.
  intros H.
  destruct (settleBatch_settles (firstn BATCH_SIZE papers) (processed, failed) w)
    as [lists' [w1 [E [Hns Hlen]]]].
  rewrite processPapersAtScale_unfold.
  destruct papers as [|p papers].
  - exists (processed, failed), w. split; [reflexivity|]. split; [|cbn; lia].
    exists []. now rewrite app_nil_r.
  - exists lists', w1. unfold bind at 1. rewrite E.
    apply Nat.ltb_ge in H. rewrite H. split; [reflexivity|].
    split; [exact Hns|]. rewrite Hlen, firstn_all2; [reflexivity|].
    now apply Nat.ltb_ge.
Qed.

(** The loop runs to its end on every list of papers, and every paper ends
    in one of the two lists. *)
Lemma processPapersAtScale_records_every_paper (n : nat) :
  forall papers processed failed w,
    (List.length papers <= n)%nat ->
    exists lists' w',
      processPapersAtScale env papers processed failed w = (Returned lists', w')
      /\ (List.length (fst lists') + List.length (snd lists')
          = List.length processed + List.length failed + List.length papers)%nat.
Proof.
  induction n as [|n IH]; intros papers processed failed w Hn.
  - destruct (last_batch_without_sleep papers processed failed w)
      as [lists' [w1 [E [_ Hlen]]]]; [unfold BATCH_SIZE; lia|].
    now exists lists', w1.
  - destruct (Nat.le_gt_cases (List.length papers) BATCH_SIZE) as [Hle|Hgt].
    + destruct (last_batch_without_sleep papers processed failed w Hle)
        as [lists' [w1 [E [_ Hlen]]]].
      now exists lists', w1.
    + destruct (first_batch_then_sleep papers processed failed w Hgt)
        as [lists1 [w1 [_ [_ [Hlen1 E1]]]]].
      destruct (IH (skipn BATCH_SIZE papers) (fst lists1) (snd lists1)
                   (after w1 [Sleep (adaptiveDelay (fst lists1) (snd lists1))] 0))
        as [lists' [w' [E' Hlen']]].
      { rewrite length_skipn. unfold BATCH_SIZE in *. lia. }
      exists lists', w'. rewrite E1. split; [exact E'|].
      rewrite Hlen', Hlen1, length_skipn. unfold BATCH_SIZE in *. lia.
Qed.

End WithEnv.

(** C8. The delay is 5000 ms when the failure rate failed/(failed+succeeded)
    over the two running lists exceeds 0.3 and 2000 ms otherwise: 4
    succeeded and 2 failed give 5000, 8 succeeded and 1 failed give 2000.
    When more than one batch of five is left, the orchestrator settles the
    first five papers (each one lands in one of the two lists, and no sleep
    happens meanwhile), sleeps for the delay computed from the lists as they
    then stand, and continues with the remaining papers; a last batch is
    settled without a sleep after it. *)
Theorem adaptive_delay_between_batches :
  (forall processed failed,
      (3 # 10 < failureRate processed failed)%Q ->
      adaptiveDelay processed failed = 5000%Z)
  /\ (forall processed failed,
         (failureRate processed failed <= 3 # 10)%Q ->
         adaptiveDelay processed failed = 2000%Z)
  /\ (forall processed failed,
         List.length processed = 4%nat -> List.length failed = 2%nat ->
         failureRate processed failed == 1 # 3
         /\ adaptiveDelay processed failed = 5000%Z)
  /\ (forall processed failed,
         List.length processed = 8%nat -> List.length failed = 1%nat ->
         failureRate processed failed == 1 # 9
         /\ adaptiveDelay processed failed = 2000%Z)
  /\ (forall env papers processed failed w,
         (BATCH_SIZE < List.length papers)%nat ->
         exists lists' w1,
           settleBatch env (firstn BATCH_SIZE papers) (processed, failed) w
           = (Returned lists', w1)
           /\ withoutSleep w w1
           /\ (List.length (fst lists') + List.length (snd lists')
               = List.length processed + List.length failed + BATCH_SIZE)%nat
           /\ processPapersAtScale env papers processed failed w
              = processPapersAtScale env (skipn BATCH_SIZE papers)
                  (fst lists') (snd lists')
                  (after w1 [Sleep (adaptiveDelay (fst lists') (snd lists'))] 0))
  /\ (forall env papers processed failed w,
         (List.length papers <= BATCH_SIZE)%nat ->
         exists lists' w1,
           processPapersAtScale env papers processed failed w
           = (Returned lists', w1)
           /\ withoutSleep w w1
           /\ (List.length (fst lists') + List.length (snd lists')
               = List.length processed + List.length failed
                 + List.length papers)%nat).
Proof.
  split; [|split; [|split; [|split; [|split]]]].
  - intros processed failed H.
    destruct (adaptiveDelay_cases processed failed) as [[_ E]|[H' _]];
      [exact E | exfalso; exact (Qlt_not_le _ _ H H')].
  - intros processed failed H.
    destruct (adaptiveDelay_cases processed failed) as [[H' _]|[_ E]];
      [exfalso; exact (Qlt_not_le _ _ H' H) | exact E].
  - intros processed failed Hs Hf.
    unfold adaptiveDelay, failureRate. rewrite Hs, Hf. split; reflexivity.
  - intros processed failed Hs Hf.
    unfold adaptiveDelay, failureRate. rewrite Hs, Hf. split; reflexivity.
  - intros env papers processed failed w H.
    now apply first_batch_then_sleep.
  - intros env papers processed failed w H.
    now apply last_batch_without_sleep.
Qed.

Lemma adaptive_delay_between_batches_witness :
  (failureRate ["p1"; "p2"; "p3"; "p4"] ["f1"; "f2"] == 1 # 3
   /\ adaptiveDelay ["p1"; "p2"; "p3"; "p4"] ["f1"; "f2"] = 5000%Z)
  /\ (failureRate ["p1"; "p2"; "p3"; "p4"; "p5"; "p6"; "p7"; "p8"] ["f1"] == 1 # 9
      /\ adaptiveDelay ["p1"; "p2"; "p3"; "p4"; "p5"; "p6"; "p7"; "p8"] ["f1"]
         = 2000%Z)
  /\ (exists lists' w1,
         settleBatch sampleEnv (firstn BATCH_SIZE sixCandidates)
                     (["2308.04079"], []) afterFirstCall
         = (Returned lists', w1)
         /\ withoutSleep afterFirstCall w1
         /\ (List.length (fst lists') + List.length (snd lists')
             = List.length ["2308.04079"] + List.length (@nil string) + BATCH_SIZE)%nat
         /\ processPapersAtScale sampleEnv sixCandidates ["2308.04079"] []
                                 afterFirstCall
            = processPapersAtScale sampleEnv (skipn BATCH_SIZE sixCandidates)
                (fst lists') (snd lists')
                (after w1 [Sleep (adaptiveDelay (fst lists') (snd lists'))] 0)).
Proof.
  split; [|split].
  - apply (proj1 (proj2 (proj2 adaptive_delay_between_batches))); reflexivity.
  - apply (proj1 (proj2 (proj2 (proj2 adaptive_delay_between_batches))));
      reflexivity.
  - apply (proj1 (proj2 (proj2 (proj2 (proj2 adaptive_delay_between_batches))))).
    unfold BATCH_SIZE, sixCandidates. cbn [List.length]. lia.
Defined.

End BatchFacts.

(* ================================================================== *)
(** * Further properties of the code *)
(* ================================================================== *)

(* ================================================================== *)
(** ** The validator as a whole *)
(* ================================================================== *)

Module ValidationExtras.
Import JsString JsStringFacts ValidationAgent ValidationSpec ValidationFacts.

Lemma filter_filter_same {A : Type} (f : A -> bool) (l : list A) :
  filter f (filter f l) = filter f l.
Proof.
  induction l as [|x l IH]; [reflexivity|]. cbn [filter].
  destruct (f x) eqn:E; [|exact IH]. cbn [filter]. now rewrite E, IH.
Qed.

Lemma filter_negb_filter {A : Type} (f : A -> bool) (l : list A) :
  filter (fun x => negb (f x)) (filter f l) = [].
Proof.
  induction l as [|x l IH]; [reflexivity|]. cbn [filter].
  destruct (f x) eqn:E; [|exact IH]. cbn [filter]. now rewrite E.
Qed.

Lemma filter_split_length {A : Type} (f : A -> bool) (l : list A) :
  (List.length (filter f l) + List.length (filter (fun x => negb (f x)) l)
   = List.length l)%nat.
Proof.
  induction l as [|x l IH]; [reflexivity|]. cbn [filter].
  destruct (f x); cbn [negb List.length]; lia.
Qed.

(** The whole result of [validateExtraction], loop-free. *)
Lemma validateExtraction_result (e : ExtractionResult) (paper : Paper) :
  let keptC := filter (fun c => validateConcept c paper) (concepts e) in
  let keptR := filter (fun r => validateRelationship r paper) (relationships e) in
  validateExtraction e paper
  = mkValidation
      ((0 <? List.length keptC)%nat
       && Binary64.leb (Binary64.ofQ (6 # 10))
            (computedMean (map confidence keptC ++ map rel_confidence keptR)))
      (computedMean (map confidence keptC ++ map rel_confidence keptR))
      (map conceptIssue
           (filter (fun c => negb (validateConcept c paper)) (concepts e))
       ++ map relationshipIssue
              (filter (fun r => negb (validateRelationship r paper))
                      (relationships e)))
      (mkExtraction keptC (methods e) (datasets e) (metrics e) keptR).
Proof.
  intros keptC keptR.
  set (V := validateExtraction e paper).
  transitivity (mkValidation (isValid V) (vr_confidence V) (vr_issues V)
                             (vr_extraction V)); [reflexivity|].
  assert (Hi : vr_issues V
               = map conceptIssue
                     (filter (fun c => negb (validateConcept c paper)) (concepts e))
                 ++ map relationshipIssue
                        (filter (fun r => negb (validateRelationship r paper))
                                (relationships e))).
  { subst V. unfold validateExtraction. rewrite relationshipLoop, conceptLoop.
    reflexivity. }
  assert (He : vr_extraction V
               = mkExtraction keptC (methods e) (datasets e) (metrics e) keptR).
  { subst V. unfold validateExtraction. rewrite relationshipLoop, conceptLoop.
    reflexivity. }
  assert (Hc : vr_confidence V
               = computedMean (map confidence keptC ++ map rel_confidence keptR)).
  { subst V. rewrite validateExtraction_confidence. unfold retainedConfidences.
    now rewrite validateExtraction_concepts, validateExtraction_relationships. }
  assert (Hv : isValid V
               = (0 <? List.length keptC)%nat
                 && Binary64.leb (Binary64.ofQ (6 # 10))
                      (computedMean
                         (map confidence keptC ++ map rel_confidence keptR))).
  { rewrite <- Hc. subst V. rewrite validateExtraction_isValid.
    now rewrite validateExtraction_concepts. }
  now rewrite Hi, He, Hc, Hv.
Qed.


(** X2. Validation is idempotent: validating a validated extraction against
    the same paper retains everything, raises no issue, and gives the same
    aggregate confidence and the same verdict. *)
Theorem validation_is_idempotent :
  forall e paper,
    let r := validateExtraction e paper in
    validateExtraction (vr_extraction r) paper
    = mkValidation (isValid r) (vr_confidence r) [] (vr_extraction r).
Proof.
  intros e paper r. subst r.
  rewrite (validateExtraction_result (vr_extraction (validateExtraction e paper))).
  rewrite (validateExtraction_result e paper).
  cbn [vr_extraction isValid vr_confidence concepts relationships methods
       datasets metrics].
  rewrite !filter_filter_same, !filter_negb_filter. reflexivity.
Qed.

(** X3. Every rejected entity is reported once and nothing else is: the
    issues are the lines of the rejected concepts followed by those of the
    rejected relationships, so retained entities and issues together count
    the entities of the extraction; methods, datasets and metrics pass
    through untouched. *)
Theorem every_rejection_is_reported :
  forall e paper,
    let r := validateExtraction e paper in
    vr_issues r
    = map conceptIssue
          (filter (fun c => negb (validateConcept c paper)) (concepts e))
      ++ map relationshipIssue
             (filter (fun rel => negb (validateRelationship rel paper))
                     (relationships e))
    /\ (List.length (concepts (vr_extraction r))
        + List.length (relationships (vr_extraction r))
        + List.length (vr_issues r)
        = List.length (concepts e) + List.length (relationships e))%nat
    /\ methods (vr_extraction r) = methods e
    /\ datasets (vr_extraction r) = datasets e
    /\ metrics (vr_extraction r) = metrics e.
Proof.
  intros e paper r. subst r. rewrite (validateExtraction_result e paper).
  cbn [vr_issues vr_extraction concepts relationships methods datasets metrics].
  repeat split.
  rewrite length_app, !length_map.
  pose proof (filter_split_length (fun c => validateConcept c paper) (concepts e)).
  pose proof (filter_split_length (fun rel => validateRelationship rel paper)
                                  (relationships e)).
  lia.
Qed.

(** X4. The aggregate confidence is not bounded below by the confidences
    it averages: six retained concepts of confidence 0.4, the floor of a
    retained concept, have the aggregate 0.39999999999999997, the double
    just below the double 0.4; their arithmetic mean is 0.4. *)
Theorem aggregate_confidence_can_fall_below_the_floor :
  let r := validateExtraction sixAtTheFloor samplePaper in
  retainedConfidences r = repeat (4 # 10) 6
  /\ mean (retainedConfidences r) == 4 # 10
  /\ Binary64.ofQ (4 # 10) = S754_finite false 7205759403792794 (-54)
  /\ vr_confidence r = S754_finite false 7205759403792793 (-54)
  /\ vr_confidence r = Binary64.ofQ (39999999999999997 # 100000000000000000)
  /\ Binary64.leb (Binary64.ofQ (4 # 10)) (vr_confidence r) = false.
Proof. vm_compute. repeat split; lia. Qed.

End ValidationExtras.

(* ================================================================== *)
(** ** The parse boundary of the extractor *)
(* ================================================================== *)

Module ExtractionExtras.
Import JsString JsStringFacts ValidationAgent ExtractionAgent ExtractionFacts.
Import ExtractionAgentParse ValidationSpec ValidationFacts ExtractionSpec ExtraSpec.
Import OutcomeFacts.
Local Open Scope outcome_scope.

Lemma trimStart_head (s : string) :
  match trimStart s with
  | EmptyString => True
  | String c _ => isWhiteSpace c = false
  end.
Proof.
  induction s as [|c s IH]; cbn [trimStart]; [exact I|].
  destruct (isWhiteSpace c) eqn:E; [exact IH | exact E].
Qed.

Lemma trimEnd_idempotent (s : string) : trimEnd (trimEnd s) = trimEnd s.
Proof.
  induction s as [|c s IH]; [reflexivity|]. cbn [trimEnd].
  destruct (trimEnd s) as [|a r] eqn:E.
  - destruct (isWhiteSpace c) eqn:W; [reflexivity|]. cbn [trimEnd]. now rewrite W.
  - cbn [trimEnd]. cbn [trimEnd] in IH. now rewrite IH.
Qed.

Lemma trimStart_trimEnd (s : string) :
  match s with
  | EmptyString => True
  | String c _ => isWhiteSpace c = false
  end ->
  trimStart (trimEnd s) = trimEnd s.
Proof.
  destruct s as [|c s]; [reflexivity|]. intros W. cbn [trimEnd].
  destruct (trimEnd s); rewrite ?W; cbn [trimStart]; now rewrite W.
Qed.

Lemma trim_trimmed (s : string) : trimmed (trim s).
Proof.
  unfold trimmed, trim.
  rewrite (trimStart_trimEnd (trimStart s) (trimStart_head s)).
  apply trimEnd_idempotent.
Qed.

Lemma substring_whole (n : nat) (s : string) :
  (String.length s <= n)%nat -> String.substring 0 n s = s.
Proof.
  revert n. induction s as [|c s IH]; intros n H.
  - destruct n; reflexivity.
  - destruct n as [|n]; [cbn in H; lia|]. cbn [String.substring].
    rewrite IH; [reflexivity | cbn in H; lia].
Qed.

Lemma validateConcepts_Returned (raw : list (option RawConcept))
                                (out : list Concept) :
  validateConcepts raw = Returned out <->
  exists coerced,
    mapThrowing coerceConcept (filter conceptHasFields raw) = Returned coerced
    /\ out = filter (fun c => (1 <? String.length (name c))%nat) coerced.
Proof.
  unfold validateConcepts. split.
  - intros H. returned H. injection H as <-. eauto.
  - intros [coerced [-> ->]]. reflexivity.
Qed.

Lemma validateConcepts_In (raw : list (option RawConcept)) (out : list Concept)
                          (c : Concept) :
  validateConcepts raw = Returned out ->
  In c out ->
  exists r, In r raw /\ conceptHasFields r = true
            /\ coerceConcept r = Returned c
            /\ (2 <= String.length (name c))%nat.
Proof.
  intros H Hin. apply validateConcepts_Returned in H as [coerced [H ->]].
  apply filter_In in Hin as [Hin Hlen]. apply Nat.ltb_lt in Hlen.
  destruct (mapThrowing_out _ _ _ _ H Hin) as [r [Hr E]].
  apply filter_In in Hr as [Hr Hf]. exists r. auto.
Qed.

(** What is read through [filter] and [map] comes from an element that
    passed the filter. *)
Lemma mapped_In {A B : Type} (keep : A -> bool) (f : A -> Outcome B)
                (l : list A) (out : list B) (y : B) :
  mapThrowing f (filter keep l) = Returned out ->
  In y out ->
  exists x, In x l /\ keep x = true /\ f x = Returned y.
Proof.
  intros H Hin. destruct (mapThrowing_out _ _ _ _ H Hin) as [x [Hx E]].
  apply filter_In in Hx as [Hx Hk]. exists x. auto.
Qed.

Lemma mapped_returns {A B : Type} (keep : A -> bool) (f : A -> Outcome B)
                     (l : list A) :
  (exists out, mapThrowing f (filter keep l) = Returned out) <->
  (forall x, In x l -> keep x = true -> exists y, f x = Returned y).
Proof.
  split.
  - intros [out H] x Hin Hk.
    destruct (mapThrowing_in _ _ _ x H) as [y [E _]];
      [apply filter_In; now split | now exists y].
  - intros H. apply mapThrowing_returns. intros x Hin.
    apply filter_In in Hin as [Hin Hk]. now apply H.
Qed.

Lemma validateConcepts_returns (raw : list (option RawConcept)) :
  (exists out, validateConcepts raw = Returned out) <->
  (forall c, In c raw -> conceptHasFields c = true ->
             exists x, coerceConcept c = Returned x).
Proof.
  rewrite <- mapped_returns. split.
  - intros [out H]. apply validateConcepts_Returned in H as [coerced [H _]].
    now exists coerced.
  - intros [coerced H]. eexists. apply validateConcepts_Returned. eauto.
Qed.

Lemma validateRelationships_returns_iff (raw : list (option RawRelationship))
                                        (paper : Paper) :
  (exists out, validateRelationships raw paper = Returned out) <->
  (forall r, In r raw -> relationshipHasFields r = true ->
             exists x, coerceRelationship r = Returned x).
Proof.
  rewrite <- mapped_returns. split.
  - intros [out H]. apply validateRelationships_Returned in H as [coerced [H _]].
    now exists coerced.
  - intros [coerced H]. eexists. apply validateRelationships_Returned. eauto.
Qed.

Lemma coerceConcept_Returned (c : RawConcept) (x : Concept) :
  coerceConcept (Some c) = Returned x <->
  exists n k d q,
    toString (raw_name c) = Returned n
    /\ raw_category c = Text k
    /\ toString (raw_description c) = Returned d
    /\ coerceConfidence (raw_confidence c) = Returned q
    /\ x = mkConcept (trim n) (validateCategory k) (trim d) q.
Proof.
  unfold coerceConcept. split.
  - intros H. returned H. injection H as <-.
    apply expectString_Returned in E0. eauto 10.
  - intros [n [k [d [q [Hn [Hk [Hd [Hq ->]]]]]]]].
    rewrite Hn, Hk, Hd, Hq. reflexivity.
Qed.

Lemma coerceConfidence_returns (v : RawNumber) :
  (exists q, coerceConfidence v = Returned q) <-> convertible v.
Proof.
  split.
  - intros [q H]. destruct v; cbn in *; auto; discriminate.
  - apply convertible_coerceConfidence.
Qed.

Lemma toString_textual (t : RawText) :
  textual t -> truthy t = true -> exists s, toString t = Returned s.
Proof.
  intros H1 H2. destruct (textual_toString t H1 H2) as [s ->]. now exists s.
Qed.

Lemma optionalToString_textual (t : RawText) :
  textual t -> exists s, optionalToString t = Returned s.
Proof.
  destruct t; cbn; intros H; [eexists; reflexivity .. | contradiction].
Qed.

Lemma orEmpty_textual (t : RawText) :
  textual t -> exists s, orEmpty t = Returned s.
Proof.
  unfold orEmpty. intros H. destruct (truthy t) eqn:E;
    [now apply toString_textual | now exists ""].
Qed.

Lemma plainConcept_coerces (c : option RawConcept) :
  plainConcept c -> conceptHasFields c = true ->
  exists x, coerceConcept c = Returned x.
Proof.
  destruct c as [c|]; [|discriminate]. intros [H1 [H2 [H3 H4]]] Hf. cbn in Hf.
  apply andb_true_iff in Hf as [Hf F3]. apply andb_true_iff in Hf as [F1 F2].
  destruct (toString_textual _ H1 F1) as [n Hn].
  destruct (textual_toString _ H2 F2) as [k Hk].
  destruct (toString_textual _ H3 F3) as [d Hd].
  destruct (convertible_coerceConfidence _ H4) as [q Hq].
  eexists. apply coerceConcept_Returned. exists n, k, d, q. auto.
Qed.

Lemma plainMethod_coerces (m : option RawMethod) :
  plainMethod m -> methodHasFields m = true ->
  exists x, coerceMethod m = Returned x.
Proof.
  destruct m as [m|]; [|discriminate]. intros [H1 [H2 H3]] Hf. cbn in Hf.
  apply andb_true_iff in Hf as [F1 F2].
  destruct (toString_textual _ H1 F1) as [n Hn].
  destruct (toString_textual _ H2 F2) as [d Hd].
  destruct (convertible_coerceConfidence _ H3) as [q Hq].
  unfold coerceMethod. rewrite Hn, Hd, Hq. eexists. reflexivity.
Qed.

Lemma plainDataset_coerces (d : option RawDataset) :
  plainDataset d -> datasetHasFields d = true ->
  exists x, coerceDataset d = Returned x.
Proof.
  destruct d as [d|]; [|discriminate]. intros [H1 [H2 [H3 H4]]] Hf. cbn in Hf.
  destruct (toString_textual _ H1 Hf) as [n Hn].
  destruct (orEmpty_textual _ H2) as [text Ht].
  destruct (optionalToString_textual _ H3) as [task Hk].
  destruct (optionalToString_textual _ H4) as [size Hs].
  unfold coerceDataset. rewrite Hn, Ht, Hk, Hs. eexists. reflexivity.
Qed.

Lemma plainMetric_coerces (m : option RawMetric) :
  plainMetric m -> metricHasFields m = true ->
  exists x, coerceMetric m = Returned x.
Proof.
  destruct m as [m|]; [|discriminate]. intros [H1 [H2 H3]] Hf. cbn in Hf.
  destruct (toString_textual _ H1 Hf) as [n Hn].
  destruct (optionalToString_textual _ H2) as [u Hu].
  destruct (optionalToString_textual _ H3) as [text Ht].
  unfold coerceMetric. rewrite Hn, Hu, Ht. eexists. reflexivity.
Qed.

Lemma plainRelationship_element_coerces (r : option RawRelationship) :
  plainRelationship r -> relationshipHasFields r = true ->
  exists x, coerceRelationship r = Returned x.
Proof.
  destruct r as [r|]; [|discriminate]. apply plainRelationship_coerces.
Qed.

(** The parse with its five fields read as arrays. *)
Lemma parseBody_arrays cs ms ds mts rs paper :
  parseBody (Returned (mkParsed (Elements cs) (Elements ms) (Elements ds)
                                (Elements mts) (Elements rs))) paper
  = (cs' <- validateConcepts cs ;;
     ms' <- validateMethods ms ;;
     ds' <- validateDatasets ds ;;
     mts' <- validateMetrics mts ;;
     rs' <- validateRelationships rs paper ;;
     Returned (mkExtraction cs' ms' ds' mts' rs'))%outcome.
Proof. reflexivity. Qed.

Lemma parseAIResponse_Returned (json : Outcome ParsedResponse) (paper : Paper)
                               (e : ExtractionResult) :
  parseAIResponse json paper = Returned e <->
  exists cs ms ds mts rs,
    json = Returned (mkParsed (Elements cs) (Elements ms) (Elements ds)
                              (Elements mts) (Elements rs))
    /\ validateConcepts cs = Returned (concepts e)
    /\ validateMethods ms = Returned (methods e)
    /\ validateDatasets ds = Returned (datasets e)
    /\ validateMetrics mts = Returned (metrics e)
    /\ validateRelationships rs paper = Returned (relationships e).
Proof.
  unfold parseAIResponse. split.
  - intros H. destruct (parseBody json paper) as [e'|] eqn:B; [|discriminate].
    injection H as ->.
    destruct json as [[[|cs|x1] [|ms|x2] [|ds|x3] [|mts|x4] [|rs|x5]]|m];
      try discriminate B;
      try solve [cbn [parseBody andThen isMissing orb onArray parsed_concepts
                      parsed_methods parsed_datasets parsed_metrics
                      parsed_relationships] in B;
                 returned B; discriminate B].
    rewrite parseBody_arrays in B. returned B. injection B as <-.
    exists cs, ms, ds, mts, rs. cbn. auto 10.
  - intros [cs [ms [ds [mts [rs [-> [H1 [H2 [H3 [H4 H5]]]]]]]]]].
    rewrite parseBody_arrays, H1, H2, H3, H4, H5. now destruct e.
Qed.

(** The parse-time filter leaves only evidence the validator finds
    sensible. *)
Lemma traceable_is_sensible (r : Relationship) (paper : Paper) :
  isEvidenceInPaper (evidence r) paper = true ->
  isRelationshipSensible r paper = true.
Proof.
  unfold isEvidenceInPaper, isRelationshipSensible, substring. cbn [Nat.min Nat.max Nat.sub].
  intros H. apply orb_true_iff.
  destruct (Nat.le_gt_cases (String.length (toLowerCase (evidence r))) 20) as [L|L].
  - left. now rewrite substring_whole in H.
  - right. now apply Nat.ltb_lt.
Qed.

(** X5. Whatever the response holds, a successful parse returns normalised
    records: concept names are trimmed and at least 2 characters long,
    method, dataset and metric names, descriptions, relationship targets
    and evidence are trimmed, every confidence lies in [0,1], a dataset
    always has a description, and no list is longer than the array it was
    read from. *)
Theorem parsed_records_are_normalised :
  forall parsed paper e,
    parseAIResponse (Returned parsed) paper = Returned e ->
    (forall c, In c (concepts e) ->
       (2 <= String.length (name c))%nat /\ trimmed (name c)
       /\ trimmed (description c) /\ unitInterval (confidence c))
    /\ (forall m, In m (methods e) ->
          trimmed (method_name m) /\ trimmed (method_description m)
          /\ unitInterval (method_confidence m))
    /\ (forall d, In d (datasets e) ->
          trimmed (dataset_name d)
          /\ exists text, dataset_description d = Some text /\ trimmed text)
    /\ (forall m, In m (metrics e) -> trimmed (metric_name m))
    /\ (forall rel, In rel (relationships e) ->
          trimmed (target_concept rel) /\ trimmed (evidence rel)
          /\ unitInterval (rel_confidence rel))
    /\ (forall cs, parsed_concepts parsed = Elements cs ->
          (List.length (concepts e) <= List.length cs)%nat)
    /\ (forall rs, parsed_relationships parsed = Elements rs ->
          (List.length (relationships e) <= List.length rs)%nat).
Proof.
  intros parsed paper e H. apply parseAIResponse_Returned in H.
  destruct H as [cs [ms [ds [mts [rs [E [H1 [H2 [H3 [H4 H5]]]]]]]]]].
  injection E as ->. cbn [parsed_concepts parsed_relationships].
  split; [|split; [|split; [|split; [|split; [|split]]]]].
  - intros c Hc. destruct (validateConcepts_In _ _ _ H1 Hc)
      as [[r|] [_ [Hf [E Hlen]]]]; [|discriminate].
    split; [exact Hlen|]. apply coerceConcept_Returned in E.
    destruct E as [n [k [d [q [_ [_ [_ [Hq ->]]]]]]]].
    cbn [name description confidence].
    repeat split; try apply trim_trimmed; now apply (coerceConfidence_range _ _ Hq).
  - intros m Hm. destruct (mapped_In _ _ _ _ _ H2 Hm) as [[r|] [_ [Hf E]]];
      [|discriminate].
    unfold coerceMethod in E. returned E. injection E as <-.
    cbn [method_name method_description method_confidence].
    repeat split; try apply trim_trimmed;
      now apply (coerceConfidence_range (raw_method_confidence r)).
  - intros d Hd. destruct (mapped_In _ _ _ _ _ H3 Hd) as [[r|] [_ [Hf E]]];
      [|discriminate].
    unfold coerceDataset in E. returned E. injection E as <-.
    cbn [dataset_name dataset_description].
    split; [apply trim_trimmed|]. eexists. split; [reflexivity | apply trim_trimmed].
  - intros m Hm. destruct (mapped_In _ _ _ _ _ H4 Hm) as [[r|] [_ [Hf E]]];
      [|discriminate].
    unfold coerceMetric in E. returned E. injection E as <-.
    cbn [metric_name]. apply trim_trimmed.
  - intros rel Hr. destruct (validateRelationships_In _ _ _ _ H5 Hr)
      as [[r|] [_ [Hf [E _]]]]; [|discriminate].
    apply coerceRelationship_Returned in E.
    destruct E as [k [t [ev [q [_ [_ [_ [Hq ->]]]]]]]].
    cbn [target_concept evidence rel_confidence].
    repeat split; try apply trim_trimmed; now apply (coerceConfidence_range _ _ Hq).
  - intros cs' E. injection E as <-.
    apply validateConcepts_Returned in H1 as [coerced [H1 ->]].
    eapply Nat.le_trans; [apply filter_length_le|].
    rewrite (mapThrowing_length _ _ _ H1). apply filter_length_le.
  - intros rs' E. injection E as <-.
    apply validateRelationships_Returned in H5 as [coerced [H5 ->]].
    eapply Nat.le_trans; [apply filter_length_le|].
    rewrite (mapThrowing_length _ _ _ H5). apply filter_length_le.
Qed.

Lemma parsed_records_are_normalised_witness :
  exists e, parseAIResponse (Returned fullResponse) samplePaper = Returned e
            /\ (forall c, In c (concepts e) ->
                  (2 <= String.length (name c))%nat /\ trimmed (name c)
                  /\ trimmed (description c) /\ unitInterval (confidence c)).
Proof.
  eexists. split; [reflexivity|].
  apply (parsed_records_are_normalised fullResponse samplePaper). reflexivity.
Defined.

(** X6. A category and a relationship type are recognised whatever their
    letter case, and only then: a string whose lower-case form names a
    category is coerced to that category, any other string (one with a
    space around it included) to the fallback "technique"; likewise for the
    seven relationship types, with the fallback "uses". *)
Theorem kinds_are_matched_case_insensitively :
  (forall s c, toLowerCase s = categoryName c -> validateCategory s = c)
  /\ (forall s, (forall c, toLowerCase s <> categoryName c) ->
                validateCategory s = technique)
  /\ (forall s t, toLowerCase s = relationshipTypeName t ->
                  validateRelationshipType s = t)
  /\ (forall s, (forall t, toLowerCase s <> relationshipTypeName t) ->
                validateRelationshipType s = uses)
  /\ validateCategory " method" = technique.
Proof.
  split; [|split; [|split; [|split]]].
  - intros s c H. unfold validateCategory. rewrite H. now destruct c.
  - intros s H. unfold validateCategory.
    repeat match goal with
           | |- context [String.eqb ?a ?b] =>
               destruct (String.eqb_spec a b) as [E|E];
               [try reflexivity;
                first [ exfalso; exact (H method E) | exfalso; exact (H problem E)
                      | exfalso; exact (H domain E) | exfalso; exact (H application E)
                      | exfalso; exact (H framework E) ]
               | clear E]
           end.
    reflexivity.
  - intros s t H. unfold validateRelationshipType. rewrite H. now destruct t.
  - intros s H. unfold validateRelationshipType.
    repeat match goal with
           | |- context [String.eqb ?a ?b] =>
               destruct (String.eqb_spec a b) as [E|E];
               [try reflexivity;
                first [ exfalso; exact (H introduces E) | exfalso; exact (H extends E)
                      | exfalso; exact (H improves_on E) | exfalso; exact (H evaluates E)
                      | exfalso; exact (H compares E) | exfalso; exact (H applies E) ]
               | clear E]
           end.
    reflexivity.
  - reflexivity.
Qed.

(** X7. The validator's sensibility check can never reject what the parse
    filter let through: a relationship that comes out of
    [validateRelationships] satisfies [isRelationshipSensible] for the same
    paper, so the validator retains it exactly when its confidence is at
    least 0.5 and its evidence has at least 10 characters. *)
Theorem parse_filter_makes_sensibility_check_redundant :
  forall raw paper out rel,
    validateRelationships raw paper = Returned out ->
    In rel out ->
    isRelationshipSensible rel paper = true
    /\ (validateRelationship rel paper = true <->
        (5 # 10 <= rel_confidence rel)%Q
        /\ (10 <= String.length (evidence rel))%nat).
Proof.
  intros raw paper out rel H Hin.
  destruct (validateRelationships_In _ _ _ _ H Hin) as [r [_ [_ [_ Hev]]]].
  pose proof (traceable_is_sensible rel paper Hev) as Hs.
  split; [exact Hs|]. rewrite validateRelationship_true.
  unfold isRelationshipSensible in Hs.
  rewrite orb_true_iff, includes_iff, Nat.ltb_lt, length_toLowerCase in Hs.
  tauto.
Qed.

Lemma parse_filter_makes_sensibility_check_redundant_witness :
  exists rel,
    validateRelationships [Some quotedRelationship] samplePaper = Returned [rel]
    /\ isRelationshipSensible rel samplePaper = true
    /\ (validateRelationship rel samplePaper = true <->
        (5 # 10 <= rel_confidence rel)%Q
        /\ (10 <= String.length (evidence rel))%nat).
Proof.
  eexists. split; [vm_compute; reflexivity|].
  apply (parse_filter_makes_sensibility_check_redundant
           [Some quotedRelationship] samplePaper
           [mkRelationship introduces "Gaussian Splatting"
              "Radiance field methods have revolutionized" (7 # 10)]).
  - vm_compute. reflexivity.
  - left. reflexivity.
Defined.

(** X8. Evidence made of white space only passes the required-fields test,
    is trimmed to the empty string, and the empty string occurs in every
    text: the parse filter retains such a relationship for any paper; the
    validator then rejects it, its evidence being shorter than 10
    characters.  The relationship is coerced whenever its type and its
    target are strings and its confidence converts; when the coercion
    throws instead, so does the filter. *)
Theorem blank_evidence_passes_the_parse_filter :
  forall r paper blank,
    raw_evidence r = Text blank ->
    blank <> "" ->
    trim blank = "" ->
    truthy (raw_relationship_type r) = true ->
    truthy (raw_target_concept r) = true ->
    (forall rel,
        coerceRelationship (Some r) = Returned rel ->
        validateRelationships [Some r] paper = Returned [rel]
        /\ validateRelationship rel paper = false)
    /\ (textual (raw_relationship_type r) ->
        textual (raw_target_concept r) ->
        convertible (raw_rel_confidence r) ->
        exists rel, coerceRelationship (Some r) = Returned rel)
    /\ (forall message,
           coerceRelationship (Some r) = Thrown message ->
           validateRelationships [Some r] paper = Thrown message).
Proof.
  intros r paper blank He Hne Ht H1 H2.
  assert (Hf : relationshipHasFields (Some r) = true).
  { cbn. rewrite H1, H2, He. cbn. apply String.eqb_neq in Hne. now rewrite Hne. }
  split; [|split].
  - intros rel E.
    assert (Hev : evidence rel = "").
    { apply coerceRelationship_Returned in E.
      destruct E as [k [t [e [q [_ [_ [Hev [_ ->]]]]]]]].
      rewrite He in Hev. cbn in Hev. injection Hev as <-. exact Ht. }
    split.
    + unfold validateRelationships. cbn [filter]. rewrite Hf.
      cbn [mapThrowing]. rewrite E. cbn [andThen filter].
      unfold isEvidenceInPaper. rewrite Hev.
      change (substring (toLowerCase "") 0 20) with "".
      destruct (toLowerCase (paperText paper)); reflexivity.
    + unfold validateRelationship. rewrite Hev. cbn [String.length Nat.ltb Nat.leb].
      now destruct (Qlt_bool _ _).
  - intros T1 T2 T3. apply plainRelationship_coerces; [|exact Hf].
    repeat split; auto. now rewrite He.
  - intros message E. unfold validateRelationships. cbn [filter]. rewrite Hf.
    cbn [mapThrowing]. rewrite E. reflexivity.
Qed.

Lemma blank_evidence_passes_the_parse_filter_witness :
  exists rel,
    coerceRelationship (Some blankEvidenceRelationship) = Returned rel
    /\ validateRelationships [Some blankEvidenceRelationship] samplePaper
       = Returned [rel]
    /\ validateRelationship rel samplePaper = false.
Proof.
  eexists. split; [reflexivity|].
  apply (proj1 (blank_evidence_passes_the_parse_filter blankEvidenceRelationship
                  samplePaper "   " eq_refl ltac:(discriminate) eq_refl
                  eq_refl eq_refl)).
  reflexivity.
Defined.

(** X9. Parsing is all or nothing.  [parseAIResponse] returns an extraction
    exactly when a JSON object was read, each of its five fields is an
    array, and the coercion of every element that passes its
    required-fields test returns.  The coercion of such a concept returns
    exactly when its name and its description convert to text, its category
    is a string and its confidence converts to a number, and likewise that
    of a relationship, whose type must be a string; so a response whose
    arrays hold strings or nothing in their text fields always parses, and
    a category such as the number 5 makes the whole parse throw.  Every
    throw carries the prefix "Failed to parse AI extraction: "; a missing
    field is reported as "Missing required arrays in AI response" whatever
    the other fields hold. *)
Theorem parse_is_all_or_nothing :
  (forall json paper,
      (exists e, parseAIResponse json paper = Returned e) <->
      (exists cs ms ds mts rs,
          json = Returned (mkParsed (Elements cs) (Elements ms) (Elements ds)
                                    (Elements mts) (Elements rs))
          /\ (forall c, In c cs -> conceptHasFields c = true ->
                        exists x, coerceConcept c = Returned x)
          /\ (forall m, In m ms -> methodHasFields m = true ->
                        exists x, coerceMethod m = Returned x)
          /\ (forall d, In d ds -> datasetHasFields d = true ->
                        exists x, coerceDataset d = Returned x)
          /\ (forall m, In m mts -> metricHasFields m = true ->
                        exists x, coerceMetric m = Returned x)
          /\ (forall r, In r rs -> relationshipHasFields r = true ->
                        exists x, coerceRelationship r = Returned x)))
  /\ (forall c,
         (exists x, coerceConcept (Some c) = Returned x) <->
         (exists n, toString (raw_name c) = Returned n)
         /\ (exists k, raw_category c = Text k)
         /\ (exists d, toString (raw_description c) = Returned d)
         /\ convertible (raw_confidence c))
  /\ (forall r,
         (exists x, coerceRelationship (Some r) = Returned x) <->
         (exists k, raw_relationship_type r = Text k)
         /\ (exists t, toString (raw_target_concept r) = Returned t)
         /\ (exists e, toString (raw_evidence r) = Returned e)
         /\ convertible (raw_rel_confidence r))
  /\ (forall cs ms ds mts rs paper,
         Forall plainConcept cs -> Forall plainMethod ms ->
         Forall plainDataset ds -> Forall plainMetric mts ->
         Forall plainRelationship rs ->
         exists e,
           parseAIResponse
             (Returned (mkParsed (Elements cs) (Elements ms) (Elements ds)
                                 (Elements mts) (Elements rs))) paper
           = Returned e)
  /\ (forall c cs ms ds mts rs paper n isTruthy shown,
         conceptHasFields (Some c) = true ->
         toString (raw_name c) = Returned n ->
         raw_category c = NotText isTruthy shown ->
         parseAIResponse
           (Returned (mkParsed (Elements (Some c :: cs)) (Elements ms)
                               (Elements ds) (Elements mts) (Elements rs)))
           paper
         = Thrown (parseFailure "category.toLowerCase is not a function"))
  /\ parseAIResponse (Returned numericCategoryResponse) samplePaper
     = Thrown "Failed to parse AI extraction: category.toLowerCase is not a function"
  /\ (forall json paper message,
         parseAIResponse json paper = Thrown message ->
         exists reason, message = parseFailure reason)
  /\ (forall parsed paper,
         isMissing (parsed_concepts parsed) || isMissing (parsed_methods parsed)
         || isMissing (parsed_datasets parsed)
         || isMissing (parsed_metrics parsed)
         || isMissing (parsed_relationships parsed) = true ->
         parseAIResponse (Returned parsed) paper
         = Thrown (parseFailure "Missing required arrays in AI response")).
Proof.
  split; [|split; [|split; [|split; [|split; [|split; [|split]]]]]].
  - intros json paper. split.
    + intros [e H]. apply parseAIResponse_Returned in H.
      destruct H as [cs [ms [ds [mts [rs [-> [H1 [H2 [H3 [H4 H5]]]]]]]]]].
      exists cs, ms, ds, mts, rs. split; [reflexivity|].
      split; [apply validateConcepts_returns; eauto|].
      split; [apply mapped_returns; eauto|].
      split; [apply mapped_returns; eauto|].
      split; [apply mapped_returns; eauto|].
      apply (validateRelationships_returns_iff rs paper); eauto.
    + intros [cs [ms [ds [mts [rs [-> [H1 [H2 [H3 [H4 H5]]]]]]]]]].
      apply validateConcepts_returns in H1 as [cs' H1].
      apply mapped_returns in H2 as [ms' H2].
      apply mapped_returns in H3 as [ds' H3].
      apply mapped_returns in H4 as [mts' H4].
      apply (validateRelationships_returns_iff rs paper) in H5 as [rs' H5].
      exists (mkExtraction cs' ms' ds' mts' rs').
      apply parseAIResponse_Returned. exists cs, ms, ds, mts, rs. auto 10.
  - intros c. split.
    + intros [x H]. apply coerceConcept_Returned in H.
      destruct H as [n [k [d [q [Hn [Hk [Hd [Hq _]]]]]]]].
      repeat split; eauto. apply coerceConfidence_returns. eauto.
    + intros [[n Hn] [[k Hk] [[d Hd] Hq]]].
      apply coerceConfidence_returns in Hq as [q Hq].
      eexists. apply coerceConcept_Returned. exists n, k, d, q. auto.
  - intros r. split.
    + intros [x H]. apply coerceRelationship_Returned in H.
      destruct H as [k [t [e [q [Hk [Ht [He [Hq _]]]]]]]].
      repeat split; eauto. apply coerceConfidence_returns. eauto.
    + intros [[k Hk] [[t Ht] [[e He] Hq]]].
      apply coerceConfidence_returns in Hq as [q Hq].
      eexists. apply coerceRelationship_Returned. exists k, t, e, q. auto.
  - intros cs ms ds mts rs paper P1 P2 P3 P4 P5.
    rewrite Forall_forall in P1, P2, P3, P4, P5.
    destruct (proj2 (validateConcepts_returns cs)) as [cs' H1];
      [intros c Hc; apply plainConcept_coerces; auto|].
    destruct (proj2 (mapped_returns methodHasFields coerceMethod ms)) as [ms' H2];
      [intros m Hm; apply plainMethod_coerces; auto|].
    destruct (proj2 (mapped_returns datasetHasFields coerceDataset ds)) as [ds' H3];
      [intros d Hd; apply plainDataset_coerces; auto|].
    destruct (proj2 (mapped_returns metricHasFields coerceMetric mts)) as [mts' H4];
      [intros m Hm; apply plainMetric_coerces; auto|].
    destruct (proj2 (validateRelationships_returns_iff rs paper)) as [rs' H5];
      [intros r Hr; apply plainRelationship_element_coerces; auto|].
    exists (mkExtraction cs' ms' ds' mts' rs').
    apply parseAIResponse_Returned. exists cs, ms, ds, mts, rs. auto 10.
  - intros c cs ms ds mts rs paper n isTruthy shown Hf Hn Hk.
    unfold parseAIResponse. rewrite parseBody_arrays.
    unfold validateConcepts. cbn [filter]. rewrite Hf.
    rewrite (mapThrowing_first_throw coerceConcept (Some c) _
               "category.toLowerCase is not a function"); [reflexivity|].
    unfold coerceConcept. rewrite Hn, Hk. reflexivity.
  - reflexivity.
  - intros json paper message H. unfold parseAIResponse in H.
    destruct (parseBody json paper); [discriminate|].
    injection H as <-. eexists. reflexivity.
  - intros parsed paper H. unfold parseAIResponse, parseBody.
    cbn [andThen]. now rewrite H.
Qed.

End ExtractionExtras.

(* ================================================================== *)
(** ** The retry loops *)
(* ================================================================== *)

Module RetryExtras.
Import JsString JsArray JsArrayFacts Retry ExtractionAgentApi.
Import PipelineOrchestrator ValidationSpec OrchestratorSpec ExtraSpec.

Lemma after_nil (w : World) (n : nat) :
  mkWorld (store w) (trace w) (n + clock w) = after w [] n.
Proof. unfold after. now rewrite app_nil_r. Qed.

(** A loop of three attempts whose body asks once and comes to [answer]
    comes to [retryOutcome]. *)
Lemma attemptLoop_outcome {A : Type} (unitDelay : Z) (failure : string -> string)
                          (answer : nat -> Outcome A) (body : Async A)
                          (lastError : string) :
  (forall w, body w
             = (answer (clock w), mkWorld (store w) (trace w) (S (clock w)))) ->
  forall w,
    attemptLoop 3 1 unitDelay body failure lastError w
    = retryOutcome unitDelay failure answer w.
Proof.
  intros Hbody w. unfold retryOutcome. cbn [attemptLoop].
  unfold tryCatch at 1. rewrite Hbody.
  destruct (answer (clock w)) as [a|m1]; [now rewrite <- after_nil|].
  cbv beta iota zeta delta [bind emit ret]. cbn [Nat.ltb Nat.leb store trace clock].
  unfold tryCatch at 1. rewrite Hbody.
  cbn [store trace clock Nat.add].
  replace (unitDelay * Z.of_nat 1)%Z with unitDelay by lia.
  destruct (answer (S (clock w))) as [a|m2]; [reflexivity|].
  cbv beta iota zeta delta [bind emit ret]. cbn [Nat.ltb Nat.leb store trace clock].
  unfold tryCatch at 1. rewrite Hbody.
  cbn [store trace clock Nat.add].
  replace (unitDelay * Z.of_nat 2)%Z with (2 * unitDelay)%Z by lia.
  unfold after. cbn [Nat.add]. rewrite <- !app_assoc. cbn [app].
  destruct (answer (S (S (clock w)))) as [a|m3]; reflexivity.
Qed.

(** X10. [callMistralAPI] asks at most three times.  It returns the first
    content that is not empty; it waits 2000 ms after a first failure and
    4000 ms after a second one, and after a third failure it throws at once,
    without a further wait, a message that ends with that of the third
    failure.  An empty content counts as a failure. *)
Theorem callMistralAPI_asks_three_times_at_most :
  forall chat prompt w,
    callMistralAPI chat prompt w
    = retryOutcome 2000
        (fun lastError =>
           ("FAILED to call Mistral AI API after 3 attempts. Last error: "
            ++ lastError)%string)
        (usableContent chat prompt) w.
Proof.
  intros chat prompt w. unfold callMistralAPI. apply attemptLoop_outcome.
  clear w. intros w. unfold usableContent.
  cbv beta iota zeta delta [bind tick ret throw]. cbn [store trace clock].
  destruct (chat (clock w) prompt) as [content|message]; [|reflexivity].
  destruct (String.eqb content ""); reflexivity.
Qed.

Lemma fetchPaper_outcome (feed : nat -> string -> Outcome Paper)
                         (arxivId : string) (w : World) :
  ArxivAgent.fetchPaper feed arxivId w
  = retryOutcome 2000
      (fun lastError =>
         ("FAILED to fetch paper " ++ arxivId ++ " from arXiv. Last error: "
          ++ lastError)%string)
      (acceptedPaper feed arxivId) w.
Proof.
  unfold ArxivAgent.fetchPaper. apply attemptLoop_outcome.
  clear w. intros w. unfold acceptedPaper, missingField.
  cbv beta iota zeta delta [bind tick ret throw]. cbn [store trace clock].
  destruct (feed (clock w) arxivId) as [p|message]; [|reflexivity].
  fold (fetched arxivId p).
  destruct (List.length (authors (fetched arxivId p)) =? 0)%nat;
    [reflexivity|].
  destruct (String.eqb_spec (title (fetched arxivId p)) "") as [E|_].
  { rewrite E. reflexivity. }
  cbn [orb].
  destruct (String.length (trim (title (fetched arxivId p))) =? 0)%nat;
    [reflexivity|].
  destruct (String.eqb_spec (abstract (fetched arxivId p)) "") as [E|_].
  { rewrite E. reflexivity. }
  cbn [orb].
  destruct (String.length (trim (abstract (fetched arxivId p))) =? 0)%nat;
    reflexivity.
Qed.

Lemma retryOutcome_returned {A : Type} (unitDelay : Z) (failure : string -> string)
                            (answer : nat -> Outcome A) (w w' : World) (a : A) :
  retryOutcome unitDelay failure answer w = (Returned a, w') ->
  exists t, (clock w <= t < clock w + 3)%nat /\ answer t = Returned a
            /\ clock w' = S t.
Proof.
  unfold retryOutcome.
  destruct (answer (clock w)) as [a0|m0] eqn:E0.
  { intros H. injection H as <- <-. exists (clock w). cbn. repeat split; auto; lia. }
  destruct (answer (1 + clock w)%nat) as [a1|m1] eqn:E1.
  { intros H. injection H as <- <-. exists (1 + clock w)%nat. cbn.
    repeat split; auto; lia. }
  destruct (answer (2 + clock w)%nat) as [a2|m2] eqn:E2; [|discriminate].
  intros H. injection H as <- <-. exists (2 + clock w)%nat. cbn.
  repeat split; auto; lia.
Qed.

Lemma retryOutcome_thrown {A : Type} (unitDelay : Z) (failure : string -> string)
                          (answer : nat -> Outcome A) (w w' : World)
                          (message : string) :
  retryOutcome unitDelay failure answer w = (Thrown message, w') ->
  (forall t, (clock w <= t < clock w + 3)%nat -> exists m, answer t = Thrown m)
  /\ (exists lastError, answer (2 + clock w)%nat = Thrown lastError
                        /\ message = failure lastError)
  /\ w' = after w [Sleep unitDelay; Sleep (2 * unitDelay)%Z] 3.
Proof.
  unfold retryOutcome.
  destruct (answer (clock w)) as [a0|m0] eqn:E0; [discriminate|].
  destruct (answer (1 + clock w)%nat) as [a1|m1] eqn:E1; [discriminate|].
  destruct (answer (2 + clock w)%nat) as [a2|m2] eqn:E2; [discriminate|].
  intros H. injection H as <- <-. split; [|split; [now exists m2 | reflexivity]].
  intros t Ht.
  assert (Hc : t = clock w \/ t = (1 + clock w)%nat \/ t = (2 + clock w)%nat)
    by lia.
  destruct Hc as [-> | [-> | ->]]; eauto.
Qed.

Lemma missingField_complete (p : Paper) : missingField p = None -> complete p.
Proof.
  unfold missingField, complete.
  destruct (List.length (authors p) =? 0)%nat eqn:Ha; [discriminate|].
  destruct (String.length (trim (title p)) =? 0)%nat eqn:Ht; [discriminate|].
  destruct (String.length (trim (abstract p)) =? 0)%nat eqn:Hb; [discriminate|].
  intros _. apply Nat.eqb_neq in Ha, Ht, Hb. repeat split.
  - intros E. now rewrite E in Ha.
  - intros E. now rewrite E in Ht.
  - intros E. now rewrite E in Hb.
Qed.

Lemma retryOutcome_store {A : Type} (unitDelay : Z) (failure : string -> string)
                         (answer : nat -> Outcome A) (w : World) :
  store (snd (retryOutcome unitDelay failure answer w)) = store w.
Proof.
  unfold retryOutcome.
  destruct (answer (clock w)); [reflexivity|].
  destruct (answer (1 + clock w)%nat); [reflexivity|].
  destruct (answer (2 + clock w)%nat); reflexivity.
Qed.

(** X11. [fetchPaper] makes at most three requests, waiting 2000 ms and then
    4000 ms between them, and after the third failure throws a message that
    names the identifier and ends with the message of that failure.  A paper
    it returns carries the requested identifier, has at least one author,
    and a title and an abstract that are not blank; a parsed answer that
    lacks one of these counts as a failed attempt. *)
Theorem fetchPaper_returns_complete_papers :
  (forall feed arxivId w,
      ArxivAgent.fetchPaper feed arxivId w
      = retryOutcome 2000
          (fun lastError =>
             ("FAILED to fetch paper " ++ arxivId ++ " from arXiv. Last error: "
              ++ lastError)%string)
          (acceptedPaper feed arxivId) w)
  /\ (forall feed arxivId w paper w',
         ArxivAgent.fetchPaper feed arxivId w = (Returned paper, w') ->
         arxiv_id paper = arxivId /\ complete paper
         /\ store w' = store w
         /\ (clock w < clock w' <= clock w + 3)%nat)
  /\ (forall feed arxivId w message w',
         ArxivAgent.fetchPaper feed arxivId w = (Thrown message, w') ->
         w' = after w [Sleep 2000; Sleep 4000] 3
         /\ exists lastError,
              message = ("FAILED to fetch paper " ++ arxivId
                         ++ " from arXiv. Last error: " ++ lastError)%string).
Proof.
  split; [exact fetchPaper_outcome|]. split.
  - intros feed arxivId w paper w' H. rewrite fetchPaper_outcome in H.
    assert (Hs : store w' = store w).
    { pose proof (retryOutcome_store 2000
                    (fun lastError =>
                       ("FAILED to fetch paper " ++ arxivId
                        ++ " from arXiv. Last error: " ++ lastError)%string)
                    (acceptedPaper feed arxivId) w) as R.
      now rewrite H in R. }
    apply retryOutcome_returned in H. destruct H as [t [Ht [Ha Hc]]].
    unfold acceptedPaper in Ha.
    destruct (feed t arxivId) as [p|]; [|discriminate].
    destruct (missingField (fetched arxivId p)) eqn:C; [discriminate|].
    injection Ha as <-.
    repeat split; try (apply missingField_complete in C; apply C);
      try exact Hs; lia.
  - intros feed arxivId w message w' H. rewrite fetchPaper_outcome in H.
    apply retryOutcome_thrown in H. destruct H as [_ [[m [_ ->]] ->]].
    split; [reflexivity | now exists m].
Qed.

Lemma fetchPaper_returns_complete_papers_witness :
  exists w',
    ArxivAgent.fetchPaper lateFeed "2308.04079" emptyWorld
    = (Returned samplePaper, w')
    /\ trace w' = [Sleep 2000; Sleep 4000]
    /\ complete samplePaper.
Proof.
  eexists. split; [vm_compute; reflexivity|]. split; [reflexivity|].
  apply (proj1 (proj2 fetchPaper_returns_complete_papers) lateFeed "2308.04079"
               emptyWorld samplePaper
               (after emptyWorld [Sleep 2000; Sleep 4000] 3)).
  vm_compute. reflexivity.
Defined.

Lemma searchRelatedPapers_outcome
    (searchFeed : nat -> Z -> list string -> Outcome (list Paper))
    (seminalPaperId : string) (limit : Z) (keywords : list string) (w : World) :
  ArxivAgent.searchRelatedPapers searchFeed seminalPaperId limit keywords w
  = retryOutcome 3000
      (fun lastError =>
         ("FAILED to search arXiv for related papers. Last error: "
          ++ lastError)%string)
      (searchResults searchFeed seminalPaperId limit keywords) w.
Proof.
  unfold ArxivAgent.searchRelatedPapers. apply attemptLoop_outcome.
  clear w. intros w. unfold searchResults.
  cbv beta iota zeta delta [bind tick ret throw]. cbn [store trace clock].
  destruct (searchFeed (clock w) limit keywords) as [[|p papers]|];
    reflexivity.
Qed.

Lemma firstn_incl {A : Type} (n : nat) (l : list A) (x : A) :
  In x (firstn n l) -> In x l.
Proof.
  revert n. induction l as [|y l IH]; intros [|n] H; cbn in *; try tauto.
  destruct H as [H|H]; [now left | right; eauto].
Qed.

Lemma skipn_incl {A : Type} (n : nat) (l : list A) (x : A) :
  In x (skipn n l) -> In x l.
Proof.
  revert l. induction n as [|n IH]; intros [|y l] H; cbn in *; try tauto.
  right. now apply IH.
Qed.

Lemma slice_incl {A : Type} (l : list A) (start end_ : Z) (x : A) :
  In x (slice l start end_) -> In x l.
Proof.
  unfold slice. intros H. apply firstn_incl in H. now apply skipn_incl in H.
Qed.

Lemma filter_filter_and {A : Type} (f g : A -> bool) (l : list A) :
  filter g (filter f l) = filter (fun x => f x && g x) l.
Proof.
  induction l as [|x l IH]; [reflexivity|]. cbn [filter].
  destruct (f x); cbn [filter andb]; [destruct (g x)|]; now rewrite IH.
Qed.

Lemma searchResults_sound
    (searchFeed : nat -> Z -> list string -> Outcome (list Paper))
    (seminalPaperId : string) (limit : Z) (keywords : list string)
    (t : nat) (found : list Paper) :
  searchResults searchFeed seminalPaperId limit keywords t = Returned found ->
  (forall p, In p found ->
     arxiv_id p <> seminalPaperId
     /\ ArxivAgent.isRelevantToGaussianSplatting p = true
     /\ exists papers, searchFeed t limit keywords = Returned papers
                       /\ In p papers)
  /\ ((0 <= limit)%Z -> (Z.of_nat (List.length found) <= limit)%Z).
Proof.
  intros H.
  assert (Hx : exists papers,
             searchFeed t limit keywords = Returned papers
             /\ found = slice
                          (filter ArxivAgent.isRelevantToGaussianSplatting
                             (filter (fun paper =>
                                        negb (String.eqb (arxiv_id paper)
                                                         seminalPaperId))
                                     papers))
                          0 limit).
  { unfold searchResults in H.
    destruct (searchFeed t limit keywords) as [[|q papers]|]; try discriminate.
    injection H as <-. exists (q :: papers). split; reflexivity. }
  clear H. destruct Hx as [papers [E ->]]. split.
  - intros p Hp. apply slice_incl in Hp.
    apply filter_In in Hp as [Hp Hrel]. apply filter_In in Hp as [Hp Hid].
    split; [|split; [exact Hrel | now exists papers]].
    apply negb_true_iff, String.eqb_neq in Hid. exact Hid.
  - intros Hl. rewrite slice_0 by exact Hl. rewrite length_firstn. lia.
Qed.

(** X12. [searchRelatedPapers] makes at most three requests, waiting 3000 ms
    and then 6000 ms between them; a search that parses to no paper counts
    as a failure, and after the third failure a message ending with that of
    this failure is thrown.  What it returns is, of the entries of one
    answer and in their order, those whose identifier is not the string
    given for the seminal paper and that pass the agent's relevance test,
    cut to [limit]; for a limit that is not negative there are at most
    [limit] of them.  The identifier is compared as a string: the entry of
    the seminal paper itself, which arXiv answers under a versioned
    identifier such as 2308.04079v5, is not filtered out by 2308.04079. *)
Theorem searchRelatedPapers_returns_relevant_candidates :
  (forall searchFeed seminalPaperId limit keywords w,
      ArxivAgent.searchRelatedPapers searchFeed seminalPaperId limit keywords w
      = retryOutcome 3000
          (fun lastError =>
             ("FAILED to search arXiv for related papers. Last error: "
              ++ lastError)%string)
          (searchResults searchFeed seminalPaperId limit keywords) w)
  /\ (forall searchFeed seminalPaperId limit keywords w found w',
         ArxivAgent.searchRelatedPapers searchFeed seminalPaperId limit keywords w
         = (Returned found, w') ->
         (forall p, In p found ->
            arxiv_id p <> seminalPaperId
            /\ ArxivAgent.isRelevantToGaussianSplatting p = true)
         /\ ((0 <= limit)%Z -> (Z.of_nat (List.length found) <= limit)%Z)
         /\ (exists t papers,
                searchFeed t limit keywords = Returned papers
                /\ found
                   = slice
                       (filter
                          (fun p =>
                             negb (String.eqb (arxiv_id p) seminalPaperId)
                             && ArxivAgent.isRelevantToGaussianSplatting p)
                          papers)
                       0 limit))
  /\ (forall searchFeed seminalPaperId limit keywords w,
         (forall t, searchFeed t limit keywords = Returned []) ->
         ArxivAgent.searchRelatedPapers searchFeed seminalPaperId limit keywords w
         = (Thrown "FAILED to search arXiv for related papers. Last error: Failed to parse search response: No valid papers found in search response",
            after w [Sleep 3000; Sleep 6000] 3))
  /\ (arxiv_id seminalEntry = "2308.04079v5"
      /\ forall keywords,
           ArxivAgent.searchRelatedPapers versionedSearch "2308.04079" 50
                                          keywords emptyWorld
           = (Returned [seminalEntry], after emptyWorld [] 1)).
Proof.
  split; [exact searchRelatedPapers_outcome|]. split; [|split].
  - intros searchFeed seminalPaperId limit keywords w found w' H.
    rewrite searchRelatedPapers_outcome in H.
    apply retryOutcome_returned in H. destruct H as [t [_ [Ha _]]].
    pose proof Ha as Hs. apply searchResults_sound in Hs.
    destruct Hs as [H1 H2]. split; [|split; [exact H2|]].
    + intros p Hp. destruct (H1 p Hp) as [A [B _]]. now split.
    + exists t. unfold searchResults in Ha.
      destruct (searchFeed t limit keywords) as [[|q papers]|];
        try discriminate.
      exists (q :: papers). split; [reflexivity|].
      rewrite <- (filter_filter_and
                    (fun p => negb (String.eqb (arxiv_id p) seminalPaperId))
                    ArxivAgent.isRelevantToGaussianSplatting).
      injection Ha as <-. reflexivity.
  - intros searchFeed seminalPaperId limit keywords w Hempty.
    rewrite searchRelatedPapers_outcome. unfold retryOutcome, searchResults.
    rewrite !Hempty. reflexivity.
  - split; [reflexivity|]. intros keywords.
    rewrite searchRelatedPapers_outcome. reflexivity.
Qed.

Lemma searchRelatedPapers_returns_relevant_candidates_witness :
  exists found w',
    ArxivAgent.searchRelatedPapers sampleSearch "2308.04079" 3 [] emptyWorld
    = (Returned found, w')
    /\ (forall p, In p found ->
          arxiv_id p <> "2308.04079"
          /\ ArxivAgent.isRelevantToGaussianSplatting p = true)
    /\ ((0 <= 3)%Z -> (Z.of_nat (List.length found) <= 3)%Z).
Proof.
  eexists. eexists. split; [vm_compute; reflexivity|].
  match goal with
  | |- (forall p, In p ?found -> _) /\ _ =>
      destruct (proj1 (proj2 searchRelatedPapers_returns_relevant_candidates)
                      sampleSearch "2308.04079" 3%Z [] emptyWorld found
                      (after emptyWorld [] 1)) as [H1 [H2 _]]
  end.
  - vm_compute. reflexivity.
  - split; [exact H1 | exact H2].
Defined.

End RetryExtras.

(* ================================================================== *)
(** ** Discovery: deduplication, relevance tests and ranking *)
(* ================================================================== *)

Module DiscoveryExtras.
Import JsString JsStringFacts JsArray JsArrayFacts.
Import PipelineOrchestrator OrchestratorSpec PipelineRun ValidationSpec ExtraSpec.
Import RetryExtras.

Lemma seen_iff (id : string) (seen : list string) :
  existsb (String.eqb id) seen = true <-> In id seen.
Proof.
  rewrite existsb_exists. split.
  - intros [x [Hin E]]. apply String.eqb_eq in E. now subst.
  - intros H. exists id. split; [exact H | apply String.eqb_refl].
Qed.

Lemma filterUnseen_first (papers : list Paper) :
  forall seen p,
    In p (filterUnseen seen papers) <->
    ~ In (arxiv_id p) seen
    /\ find (fun q => String.eqb (arxiv_id q) (arxiv_id p)) papers = Some p.
Proof.
  induction papers as [|q rest IH]; intros seen p; cbn [filterUnseen find].
  - split; [intros [] | intros [_ H]; discriminate].
  - destruct (existsb (String.eqb (arxiv_id q)) seen) eqn:S.
    + apply seen_iff in S. rewrite IH.
      destruct (String.eqb_spec (arxiv_id q) (arxiv_id p)) as [E|E].
      * split; [intros [Hn _]; rewrite <- E in Hn; contradiction|].
        intros [Hn _]. rewrite <- E in Hn. contradiction.
      * reflexivity.
    + assert (Hq : ~ In (arxiv_id q) seen).
      { intros H. apply seen_iff in H. congruence. }
      cbn [In]. rewrite IH. cbn [In].
      destruct (String.eqb_spec (arxiv_id q) (arxiv_id p)) as [E|E].
      * split.
        -- intros [->|[Hn _]]; [split; [exact Hq | reflexivity]|].
           exfalso. apply Hn. now left.
        -- intros [_ H]. injection H as ->. now left.
      * split.
        -- intros [->|[Hn H]]; [contradiction|]. split; [tauto | exact H].
        -- intros [Hn H]. right. split; [|exact H]. intros [H'|H']; tauto.
Qed.

Lemma filterUnseen_NoDup (papers : list Paper) :
  forall seen, NoDup (map arxiv_id (filterUnseen seen papers)).
Proof.
  induction papers as [|q rest IH]; intros seen; cbn [filterUnseen].
  - constructor.
  - destruct (existsb (String.eqb (arxiv_id q)) seen); [apply IH|].
    cbn [map]. constructor; [|apply IH].
    intros H. apply in_map_iff in H. destruct H as [p [E Hp]].
    apply filterUnseen_first in Hp. destruct Hp as [Hn _].
    apply Hn. left. now symmetry.
Qed.

Lemma filterUnseen_fixed (papers : list Paper) :
  forall seen,
    NoDup (map arxiv_id papers) ->
    (forall p, In p papers -> ~ In (arxiv_id p) seen) ->
    filterUnseen seen papers = papers.
Proof.
  induction papers as [|q rest IH]; intros seen Hnd Hs; [reflexivity|].
  cbn [filterUnseen]. cbn [map] in Hnd. inversion Hnd as [|x l Hq Hrest]; subst.
  destruct (existsb (String.eqb (arxiv_id q)) seen) eqn:S.
  { apply seen_iff in S. exfalso. exact (Hs q (or_introl eq_refl) S). }
  f_equal. apply IH; [exact Hrest|].
  intros p Hp [E|Hin].
  - apply Hq. rewrite E. now apply in_map.
  - exact (Hs p (or_intror Hp) Hin).
Qed.

Lemma filterUnseen_length (papers : list Paper) :
  forall seen, (List.length (filterUnseen seen papers) <= List.length papers)%nat.
Proof.
  induction papers as [|q rest IH]; intros seen; cbn [filterUnseen]; [lia|].
  destruct (existsb _ seen); cbn [List.length].
  - specialize (IH seen). lia.
  - specialize (IH (arxiv_id q :: seen)). lia.
Qed.

(** X13. [deduplicatePapers] keeps, for every identifier of its input, the
    first paper with that identifier and no other: its result has no two
    papers with one identifier, a paper is in it exactly when it is the
    first of the input with its identifier, no identifier is lost, and of
    three papers of which the third repeats the identifier of the first the
    first two are kept. *)
Theorem deduplication_keeps_first_occurrences :
  forall papers,
    NoDup (map arxiv_id (deduplicatePapers papers))
    /\ (forall p,
           In p (deduplicatePapers papers) <->
           find (fun q => String.eqb (arxiv_id q) (arxiv_id p)) papers = Some p)
    /\ (forall id,
           In id (map arxiv_id (deduplicatePapers papers)) <->
           In id (map arxiv_id papers))
    /\ (forall a b a',
           arxiv_id a' = arxiv_id a -> arxiv_id b <> arxiv_id a ->
           deduplicatePapers [a; b; a'] = [a; b]).
Proof.
  intros papers. unfold deduplicatePapers.
  split; [apply filterUnseen_NoDup|]. split; [|split].
  - intros p. rewrite filterUnseen_first. cbn [In]. tauto.
  - intros id. rewrite !in_map_iff. split.
    + intros [p [E Hp]]. apply filterUnseen_first in Hp. destruct Hp as [_ Hf].
      apply find_some in Hf. exists p. tauto.
    + intros [q [E Hq]].
      destruct (find (fun x => String.eqb (arxiv_id x) (arxiv_id q)) papers)
        as [p|] eqn:F.
      * pose proof (find_some _ _ F) as [_ Hid]. apply String.eqb_eq in Hid.
        exists p. split; [congruence|]. apply filterUnseen_first.
        split; [intros []|]. now rewrite Hid.
      * exfalso. pose proof (find_none _ _ F q Hq) as H. cbv beta in H.
        now rewrite String.eqb_refl in H.
  - intros a b a' Ha Hb. cbn [filterUnseen existsb orb].
    apply String.eqb_neq in Hb. rewrite Hb, Ha, String.eqb_refl.
    cbn [orb]. now rewrite orb_true_r.
Qed.

(** X14. Deduplication changes nothing where there is nothing to remove: it
    returns a list whose identifiers are pairwise distinct as it is, hence
    deduplicating twice is deduplicating once; and it never lengthens a
    list. *)
Theorem deduplication_is_idempotent :
  (forall papers, NoDup (map arxiv_id papers) -> deduplicatePapers papers = papers)
  /\ (forall papers,
         deduplicatePapers (deduplicatePapers papers) = deduplicatePapers papers)
  /\ (forall papers,
         (List.length (deduplicatePapers papers) <= List.length papers)%nat).
Proof.
  split; [|split].
  - intros papers H. apply filterUnseen_fixed; [exact H | intros p _ []].
  - intros papers. apply filterUnseen_fixed; [|intros p _ []].
    apply filterUnseen_NoDup.
  - intros papers. apply filterUnseen_length.
Qed.

Lemma append_assoc (a b c : string) :
  ((a ++ b) ++ c)%string = (a ++ b ++ c)%string.
Proof. induction a as [|x a IH]; cbn; [reflexivity | now rewrite IH]. Qed.

Lemma Substring_trans (a b s : string) :
  Substring a b -> Substring b s -> Substring a s.
Proof.
  intros [u [v ->]] [x [y ->]]. exists (x ++ u)%string, (v ++ y)%string.
  now rewrite !append_assoc.
Qed.

Lemma mentions_part (paper : Paper) (part whole : string) :
  Substring part whole ->
  mentions paper whole = true -> mentions paper part = true.
Proof.
  unfold mentions. intros Hs H. apply includes_iff in H. apply includes_iff.
  eapply Substring_trans; eassumption.
Qed.

Lemma gaussian_in_gaussian_splatting :
  Substring "gaussian" "gaussian splatting".
Proof. now exists ""%string, " splatting"%string. Qed.

Lemma gaussian_in_gaussian_splat : Substring "gaussian" "gaussian splat".
Proof. now exists ""%string, " splat"%string. Qed.

Lemma orchestrator_gate (paper : Paper) :
  PipelineOrchestrator.isRelevantToGaussianSplatting paper
  = mentions paper "gaussian" || (mentions paper "splatting"
    || (mentions paper "3dgs" || (mentions paper "radiance field"
    || (mentions paper "novel view synthesis" || false)))).
Proof. reflexivity. Qed.

Lemma agent_gate (paper : Paper) :
  ArxivAgent.isRelevantToGaussianSplatting paper
  = (mentions paper "gaussian splatting" || (mentions paper "3dgs"
     || (mentions paper "gaussian splat" || false)))
    || (mentions paper "radiance field" || (mentions paper "novel view synthesis"
        || (mentions paper "3d reconstruction"
            || (mentions paper "neural rendering" || false)))).
Proof. reflexivity. Qed.

(** X15. The relevance score lies between 0 and 8, and a candidate that
    scores 2 or more passes both relevance tests, the one of the search and
    the one [processPaper] applies; only a score of 1, from "real-time"
    alone, can go with an irrelevant paper. *)
Theorem scored_candidates_are_relevant :
  forall paper,
    (0 <= calculateRelevanceScore paper <= 8)%Z
    /\ ((2 <= calculateRelevanceScore paper)%Z ->
        PipelineOrchestrator.isRelevantToGaussianSplatting paper = true
        /\ ArxivAgent.isRelevantToGaussianSplatting paper = true)
    /\ (PipelineOrchestrator.isRelevantToGaussianSplatting paper = false ->
        (calculateRelevanceScore paper <= 1)%Z).
Proof.
  intros paper.
  assert (Hscore : calculateRelevanceScore paper
                   = (weight 3 (mentions paper "gaussian splatting")
                      + weight 2 (mentions paper "3dgs")
                      + weight 2 (mentions paper "radiance field")
                      + weight 1 (mentions paper "real-time"))%Z).
  { unfold calculateRelevanceScore, mentions, weight.
    destruct (includes _ "gaussian splatting"), (includes _ "3dgs"),
             (includes _ "radiance field"), (includes _ "real-time");
      reflexivity. }
  pose proof (mentions_part paper _ _ gaussian_in_gaussian_splatting) as G.
  rewrite orchestrator_gate, agent_gate, Hscore. unfold weight.
  destruct (mentions paper "gaussian splatting") eqn:M1;
    [rewrite (G eq_refl)|];
    destruct (mentions paper "3dgs"), (mentions paper "radiance field"),
             (mentions paper "real-time");
    cbn [orb]; rewrite ?orb_true_r; repeat split; try lia; try reflexivity;
    try discriminate; intros H; try lia; try discriminate.
Qed.

Lemma scored_candidates_are_relevant_witness :
  PipelineOrchestrator.isRelevantToGaussianSplatting splattingCandidate = true
  /\ ArxivAgent.isRelevantToGaussianSplatting splattingCandidate = true.
Proof.
  apply (proj1 (proj2 (scored_candidates_are_relevant splattingCandidate))).
  vm_compute. discriminate.
Defined.

(** X16. The two relevance tests differ.  A paper mentioning "gaussian
    splatting", "3dgs", "gaussian splat", "radiance field" or "novel view
    synthesis" passes both.  A paper the search accepts and [processPaper]
    rejects mentions "3d reconstruction" or "neural rendering"; a paper
    [processPaper] accepts and the search rejects mentions "gaussian" or
    "splatting". *)
Theorem relevance_tests_compared :
  forall paper,
    (mentions paper "gaussian splatting" = true
     \/ mentions paper "3dgs" = true
     \/ mentions paper "gaussian splat" = true
     \/ mentions paper "radiance field" = true
     \/ mentions paper "novel view synthesis" = true ->
     PipelineOrchestrator.isRelevantToGaussianSplatting paper = true
     /\ ArxivAgent.isRelevantToGaussianSplatting paper = true)
    /\ (ArxivAgent.isRelevantToGaussianSplatting paper = true ->
        PipelineOrchestrator.isRelevantToGaussianSplatting paper = false ->
        mentions paper "3d reconstruction" = true
        \/ mentions paper "neural rendering" = true)
    /\ (PipelineOrchestrator.isRelevantToGaussianSplatting paper = true ->
        ArxivAgent.isRelevantToGaussianSplatting paper = false ->
        mentions paper "gaussian" = true \/ mentions paper "splatting" = true).
Proof.
  intros paper.
  pose proof (mentions_part paper _ _ gaussian_in_gaussian_splatting) as G1.
  pose proof (mentions_part paper _ _ gaussian_in_gaussian_splat) as G2.
  rewrite orchestrator_gate, agent_gate.
  destruct (mentions paper "gaussian splatting") eqn:A1;
    [specialize (G1 eq_refl)|clear G1];
    (destruct (mentions paper "gaussian splat") eqn:A2;
     [specialize (G2 eq_refl)|clear G2]);
    destruct (mentions paper "gaussian") eqn:B1; try discriminate;
    destruct (mentions paper "splatting"), (mentions paper "3dgs"),
             (mentions paper "radiance field"),
             (mentions paper "novel view synthesis"),
             (mentions paper "3d reconstruction"),
             (mentions paper "neural rendering");
    cbn [orb]; repeat split; intros; try discriminate; try tauto;
    try reflexivity; intuition discriminate.
Qed.

Lemma relevance_tests_compared_witness :
  mentions (candidate "2401.00009" "Neural Rendering of Faces" "We render.")
           "3d reconstruction" = true
  \/ mentions (candidate "2401.00009" "Neural Rendering of Faces" "We render.")
              "neural rendering" = true.
Proof.
  apply (proj1 (proj2 (relevance_tests_compared
                         (candidate "2401.00009" "Neural Rendering of Faces"
                                    "We render."))));
    vm_compute; reflexivity.
Defined.

End DiscoveryExtras.

(* ================================================================== *)
(** ** The run: selection, batches and the whole build *)
(* ================================================================== *)

Module RunExtras.
Import JsString JsStringFacts JsArray JsArrayFacts.
Import PipelineOrchestrator OrchestratorSpec PipelineRun ValidationSpec ExtraSpec.
Import RetryExtras DiscoveryExtras ProcessFacts BatchFacts.

Lemma slice_from_0 {A : Type} (l : list A) (limit : Z) :
  slice l 0 limit
  = firstn (Z.to_nat (if (limit <? 0)%Z then Z.of_nat (List.length l) + limit
                      else limit)) l.
Proof.
  destruct (limit <? 0)%Z eqn:E.
  - apply Z.ltb_lt in E. unfold slice. cbn [Z.ltb Z.compare].
    destruct (limit <? 0)%Z eqn:E'; [|apply Z.ltb_ge in E'; lia].
    rewrite (Z.min_l 0) by lia. cbn [Z.to_nat skipn]. f_equal. lia.
  - apply Z.ltb_ge in E. now apply slice_0.
Qed.

Lemma StronglySorted_firstn {A : Type} (R : A -> A -> Prop) (n : nat) :
  forall l, StronglySorted R l -> StronglySorted R (firstn n l).
Proof.
  induction n as [|n IH]; intros l H; [constructor|].
  destruct l as [|x l]; [constructor|]. cbn [firstn].
  inversion H as [|y l' Hs Hf]; subst. constructor; [now apply IH|].
  rewrite Forall_forall in *. intros y Hy. apply Hf. eapply firstn_incl, Hy.
Qed.

Lemma NoDup_map_firstn {A B : Type} (f : A -> B) (n : nat) (l : list A) :
  NoDup (map f l) -> NoDup (map f (firstn n l)).
Proof.
  intros H. rewrite <- (firstn_skipn n l), map_app in H.
  now apply NoDup_app_remove_r in H.
Qed.

Lemma ranking_perm (papers : list Paper) :
  Permutation
    (sort (fun a b => (calculateRelevanceScore b - calculateRelevanceScore a)%Z)
          papers)
    papers.
Proof. apply (sort_perm calculateRelevanceScore). Qed.

Lemma prioritize_firstn (papers : list Paper) (limit : Z) :
  prioritizePapersByRelevance papers limit
  = firstn (Z.to_nat (if (limit <? 0)%Z
                      then Z.of_nat (List.length papers) + limit else limit))
      (sort (fun a b => (calculateRelevanceScore b - calculateRelevanceScore a)%Z)
            papers).
Proof.
  unfold prioritizePapersByRelevance. rewrite slice_from_0.
  now rewrite (Permutation_length (ranking_perm papers)).
Qed.

Lemma prioritize_ranked (papers : list Paper) (limit : Z) :
  ranked (prioritizePapersByRelevance papers limit).
Proof.
  rewrite prioritize_firstn. apply StronglySorted_firstn.
  apply (sort_sorted calculateRelevanceScore).
Qed.

Lemma prioritize_incl (papers : list Paper) (limit : Z) (p : Paper) :
  In p (prioritizePapersByRelevance papers limit) -> In p papers.
Proof.
  rewrite prioritize_firstn. intros H. apply firstn_incl in H.
  eapply Permutation_in; [apply ranking_perm | exact H].
Qed.

Lemma prioritize_NoDup (papers : list Paper) (limit : Z) :
  NoDup (map arxiv_id papers) ->
  NoDup (map arxiv_id (prioritizePapersByRelevance papers limit)).
Proof.
  intros H. rewrite prioritize_firstn. apply NoDup_map_firstn.
  eapply Permutation_NoDup; [|exact H].
  apply Permutation_map, Permutation_sym, ranking_perm.
Qed.

Lemma prioritize_length (papers : list Paper) (limit : Z) :
  Z.of_nat (List.length (prioritizePapersByRelevance papers limit))
  = if (limit <? 0)%Z then Z.max (Z.of_nat (List.length papers) + limit) 0
    else Z.min limit (Z.of_nat (List.length papers)).
Proof.
  rewrite prioritize_firstn, length_firstn.
  rewrite (Permutation_length (ranking_perm papers)).
  destruct (limit <? 0)%Z eqn:E; [apply Z.ltb_lt in E | apply Z.ltb_ge in E]; lia.
Qed.

(** X17. [prioritizePapersByRelevance] at any limit returns a prefix of the
    ranking of its input, so it returns candidates of the input in
    descending order of score and keeps their identifiers distinct.  A limit
    of zero or more caps the count; a negative limit does not give the empty
    list but drops that many candidates from the low end of the ranking. *)
Theorem prioritization_at_every_limit :
  forall papers limit,
    let ranking := prioritizePapersByRelevance papers
                     (Z.of_nat (List.length papers)) in
    Permutation ranking papers
    /\ prioritizePapersByRelevance papers limit
       = firstn (Z.to_nat (if (limit <? 0)%Z
                           then Z.of_nat (List.length papers) + limit
                           else limit)) ranking
    /\ Z.of_nat (List.length (prioritizePapersByRelevance papers limit))
       = (if (limit <? 0)%Z then Z.max (Z.of_nat (List.length papers) + limit) 0
          else Z.min limit (Z.of_nat (List.length papers)))
    /\ ranked (prioritizePapersByRelevance papers limit)
    /\ (forall p, In p (prioritizePapersByRelevance papers limit) -> In p papers)
    /\ (NoDup (map arxiv_id papers) ->
        NoDup (map arxiv_id (prioritizePapersByRelevance papers limit))).
Proof.
  intros papers limit ranking.
  assert (E : ranking
              = sort (fun a b => (calculateRelevanceScore b
                                  - calculateRelevanceScore a)%Z) papers).
  { unfold ranking. rewrite prioritize_firstn.
    destruct (Z.of_nat (List.length papers) <? 0)%Z eqn:L;
      [apply Z.ltb_lt in L; lia|].
    rewrite Nat2Z.id. apply firstn_all2.
    now rewrite (Permutation_length (ranking_perm papers)). }
  rewrite E. split; [apply ranking_perm|]. split; [apply prioritize_firstn|].
  split; [apply prioritize_length|]. split; [apply prioritize_ranked|].
  split; [apply prioritize_incl | apply prioritize_NoDup].
Qed.

Lemma discoverRelevantPapers_outcome
    (searchFeed : nat -> Z -> list string -> Outcome (list Paper))
    (limit : Z) (w : World) :
  discoverRelevantPapers searchFeed limit w
  = match ArxivAgent.searchRelatedPapers searchFeed "2308.04079" (3 * limit / 5)
            ["gaussian splatting"; "3DGS"; "radiance field";
             "novel view synthesis"] w with
    | (Returned keywordPapers, w') =>
        (Returned (prioritizePapersByRelevance (deduplicatePapers keywordPapers)
                                               limit), w')
    | (Thrown message, w') => (Thrown message, w')
    end.
Proof.
  unfold discoverRelevantPapers, bind, discoverCitationPapers,
    discoverSemanticPapers, ret.
  destruct (ArxivAgent.searchRelatedPapers _ _ _ _ w) as [[kp|m] w'];
    [|reflexivity].
  cbn [app]. now rewrite app_nil_r.
Qed.

Lemma discovered_sound
    (searchFeed : nat -> Z -> list string -> Outcome (list Paper))
    (limit : Z) (w w' : World) (found : list Paper) :
  discoverRelevantPapers searchFeed limit w = (Returned found, w') ->
  NoDup (map arxiv_id found)
  /\ ranked found
  /\ (forall p, In p found ->
        arxiv_id p <> "2308.04079"
        /\ ArxivAgent.isRelevantToGaussianSplatting p = true)
  /\ ((0 <= limit)%Z -> (Z.of_nat (List.length found) <= 3 * limit / 5)%Z)
  /\ store w' = store w.
Proof.
  rewrite discoverRelevantPapers_outcome.
  destruct (ArxivAgent.searchRelatedPapers _ _ _ _ w) as [[kp|m] w1] eqn:S;
    [|discriminate].
  intros H. injection H as <- <-.
  pose proof S as S'. rewrite searchRelatedPapers_outcome in S'.
  assert (Hst : store w1 = store w).
  { pose proof (retryOutcome_store 3000
                  (fun lastError =>
                     ("FAILED to search arXiv for related papers. Last error: "
                      ++ lastError)%string)
                  (searchResults searchFeed "2308.04079" (3 * limit / 5)
                     ["gaussian splatting"; "3DGS"; "radiance field";
                      "novel view synthesis"]) w) as R.
    now rewrite S' in R. }
  apply retryOutcome_returned in S'. destruct S' as [t [_ [Ha _]]].
  apply searchResults_sound in Ha. destruct Ha as [H1 H2].
  split; [apply prioritize_NoDup, filterUnseen_NoDup|].
  split; [apply prioritize_ranked|]. split; [|split; [|exact Hst]].
  - intros p Hp. apply prioritize_incl in Hp.
    apply filterUnseen_first in Hp. destruct Hp as [_ Hf].
    apply find_some in Hf. destruct (H1 p (proj1 Hf)) as [A [B _]]. now split.
  - intros Hl.
    assert (0 <= 3 * limit / 5)%Z by (apply Z.div_pos; lia).
    specialize (H2 H).
    pose proof (filterUnseen_length kp []) as L1. fold (deduplicatePapers kp) in L1.
    rewrite prioritize_length.
    destruct (limit <? 0)%Z eqn:E; [apply Z.ltb_lt in E; lia|]. lia.
Qed.

(** X18. [discoverRelevantPapers] fails exactly as its keyword search fails,
    and otherwise returns the search results deduplicated and ranked: the
    candidates have pairwise distinct identifiers, none has the identifier
    2308.04079, each passes the relevance test of the search, they are in
    descending order of score, and for a limit of zero or more there are at
    most [floor(0.6 * limit)] of them, the cap of the one strategy that
    finds anything.  The store is not touched.  The seminal paper is kept
    out by that one string only: its entry under the versioned identifier
    2308.04079v5 is discovered like any other candidate. *)
Theorem discovery_returns_distinct_ranked_candidates :
  (forall searchFeed limit w,
      discoverRelevantPapers searchFeed limit w
      = match ArxivAgent.searchRelatedPapers searchFeed "2308.04079"
                (3 * limit / 5)
                ["gaussian splatting"; "3DGS"; "radiance field";
                 "novel view synthesis"] w with
        | (Returned keywordPapers, w') =>
            (Returned (prioritizePapersByRelevance
                         (deduplicatePapers keywordPapers) limit), w')
        | (Thrown message, w') => (Thrown message, w')
        end
      /\ (forall found w',
             discoverRelevantPapers searchFeed limit w = (Returned found, w') ->
             NoDup (map arxiv_id found)
             /\ ranked found
             /\ (forall p, In p found ->
                   arxiv_id p <> "2308.04079"
                   /\ ArxivAgent.isRelevantToGaussianSplatting p = true)
             /\ ((0 <= limit)%Z ->
                 (Z.of_nat (List.length found) <= 3 * limit / 5)%Z)
             /\ store w' = store w))
  /\ (arxiv_id seminalEntry = "2308.04079v5"
      /\ discoverRelevantPapers versionedSearch 10 emptyWorld
         = (Returned [seminalEntry], after emptyWorld [] 1)).
Proof.
  split.
  - intros searchFeed limit w. split; [apply discoverRelevantPapers_outcome|].
    intros found w'. apply discovered_sound.
  - split; [reflexivity|]. rewrite discoverRelevantPapers_outcome.
    rewrite searchRelatedPapers_outcome. reflexivity.
Qed.

Lemma lookups_app (a b : list Event) : lookups (a ++ b) = lookups a ++ lookups b.
Proof. apply flat_map_app. Qed.

Lemma sleeps_app (a b : list Event) : sleeps (a ++ b) = sleeps a ++ sleeps b.
Proof. apply flat_map_app. Qed.

Lemma lookups_sleep (ms : Z) (d : list Event) :
  lookups (Sleep ms :: d) = lookups d.
Proof. reflexivity. Qed.

Lemma sleeps_sleep (ms : Z) (d : list Event) :
  sleeps (Sleep ms :: d) = ms :: sleeps d.
Proof. reflexivity. Qed.

Lemma entityWrites_quiet (delta : list Event) :
  Forall (fun ev => isEntityWrite ev = true) delta ->
  lookups delta = [] /\ sleeps delta = [].
Proof.
  induction 1 as [|ev delta Hev _ [IH1 IH2]]; [now split|].
  destruct ev; try discriminate; cbn; now split.
Qed.

Lemma regroup {A : Type} (a b c d : list A) :
  Permutation ((a ++ c) ++ (b ++ d)) ((a ++ b) ++ (c ++ d)).
Proof.
  rewrite <- !app_assoc. apply Permutation_app_head.
  rewrite !app_assoc. apply Permutation_app_tail. apply Permutation_app_comm.
Qed.

Section WithEnv.
Variable env : Env.

Lemma processPaper_lookup (arxivId : string) (w : World) :
  exists b w' d,
    processPaper env arxivId w = (Returned b, w')
    /\ trace w' = trace w ++ d
    /\ lookups d = [arxivId] /\ sleeps d = [].
Proof.
  destruct (processPaper_leaves env arxivId w) as [w' [Hp Hl]].
  exists (succeeded (verdict env arxivId w)), w'.
  unfold leaves in Hl.
  destruct (verdict env arxivId w) as [| | |[| | |]].
  all: try (subst w'; eexists; split; [exact Hp|];
            split; [reflexivity|]; split; reflexivity).
  - destruct Hl as [p [paperId [delta [_ [Hd Ht]]]]].
    apply entityWrites_quiet in Hd. destruct Hd as [D1 D2].
    eexists. split; [exact Hp|]. split; [exact Ht|].
    rewrite !lookups_app, !sleeps_app, D1, D2. split; reflexivity.
  - destruct Hl as [p ->]. eexists. split; [exact Hp|].
    split; [reflexivity|]. split; reflexivity.
  - destruct Hl as [p [_ Ht]]. eexists. split; [exact Hp|].
    split; [exact Ht|]. split; reflexivity.
Qed.

Lemma settleBatch_lookups (batch : list Paper) :
  forall lists w,
  exists ok bad w' d,
    settleBatch env batch lists w
    = (Returned (fst lists ++ ok, snd lists ++ bad), w')
    /\ trace w' = trace w ++ d
    /\ lookups d = map arxiv_id batch /\ sleeps d = []
    /\ Permutation (ok ++ bad) (map arxiv_id batch).
Proof.
  unfold settleBatch.
  induction batch as [|paper rest IH]; intros lists w.
  - exists [], [], w, []. cbn [forOf map lookups sleeps flat_map app].
    rewrite !app_nil_r. destruct lists. repeat split; constructor.
  - destruct (processPaper_lookup (arxiv_id paper) w)
      as [b [w1 [d1 [Hp [Ht1 [Hl1 Hs1]]]]]].
    cbn [forOf]. unfold bind at 1.
    assert (Hq : processingPromise env lists paper w
                 = (Returned (if b then (fst lists ++ [arxiv_id paper], snd lists)
                              else (fst lists, snd lists ++ [arxiv_id paper])),
                    w1)).
    { unfold processingPromise, tryCatch, bind, ret. now rewrite Hp. }
    rewrite Hq.
    destruct (IH (if b then (fst lists ++ [arxiv_id paper], snd lists)
                  else (fst lists, snd lists ++ [arxiv_id paper])) w1)
      as [ok [bad [w' [d [He [Ht [Hl [Hs Hperm]]]]]]]].
    destruct b; cbn [fst snd] in He.
    + exists (arxiv_id paper :: ok), bad, w', (d1 ++ d).
      rewrite He, Ht, Ht1, lookups_app, sleeps_app, Hl1, Hl, Hs1, Hs.
      rewrite <- !app_assoc. cbn [app map].
      repeat split. now constructor.
    + exists ok, (arxiv_id paper :: bad), w', (d1 ++ d).
      rewrite He, Ht, Ht1, lookups_app, sleeps_app, Hl1, Hl, Hs1, Hs.
      rewrite <- !app_assoc. cbn [app map].
      repeat split. apply Permutation_sym, Permutation_cons_app.
      now apply Permutation_sym.
Qed.

Lemma scale_lookups (n : nat) :
  forall papers processed failed w,
    (List.length papers <= n)%nat ->
    exists ok bad w' d,
      processPapersAtScale env papers processed failed w
      = (Returned (processed ++ ok, failed ++ bad), w')
      /\ trace w' = trace w ++ d
      /\ lookups d = map arxiv_id papers
      /\ Permutation (ok ++ bad) (map arxiv_id papers)
      /\ List.length (sleeps d) = ((List.length papers - 1) / BATCH_SIZE)%nat
      /\ Forall (fun ms => ms = 2000%Z \/ ms = 5000%Z) (sleeps d).
Proof.
  induction n as [|n IH]; intros papers processed failed w Hn.
  - destruct papers; [|cbn in Hn; lia].
    exists [], [], w, []. rewrite processPapersAtScale_unfold, !app_nil_r.
    repeat split; constructor.
  - rewrite processPapersAtScale_unfold.
    destruct papers as [|paper rest] eqn:P.
    { exists [], [], w, []. rewrite !app_nil_r. repeat split; constructor. }
    rewrite <- P in *. assert (Hpos : (0 < List.length papers)%nat).
    { rewrite P. cbn. lia. }
    clear P paper rest.
    destruct (settleBatch_lookups (firstn BATCH_SIZE papers) (processed, failed) w)
      as [ok1 [bad1 [w1 [d1 [He1 [Ht1 [Hl1 [Hs1 Hp1]]]]]]]].
    cbn [fst snd] in He1. unfold bind at 1. rewrite He1.
    destruct (BATCH_SIZE <? List.length papers)%nat eqn:E.
    + apply Nat.ltb_lt in E. unfold bind, sleep, emit. cbn [fst snd].
      destruct (IH (skipn BATCH_SIZE papers) (processed ++ ok1) (failed ++ bad1)
                   (mkWorld (store w1)
                      (trace w1 ++ [Sleep (adaptiveDelay (processed ++ ok1)
                                                         (failed ++ bad1))])
                      (clock w1)))
        as [ok2 [bad2 [w2 [d2 [He2 [Ht2 [Hl2 [Hp2 [Hn2 Hd2]]]]]]]]].
      { rewrite length_skipn. unfold BATCH_SIZE in *. lia. }
      exists (ok1 ++ ok2), (bad1 ++ bad2), w2,
             (d1 ++ Sleep (adaptiveDelay (processed ++ ok1) (failed ++ bad1)) :: d2).
      rewrite He2, Ht2. cbn [trace]. rewrite Ht1, !app_assoc.
      split; [reflexivity|]. split; [now rewrite <- !app_assoc|].
      rewrite <- !app_assoc.
      rewrite lookups_app, sleeps_app, Hl1, Hs1, lookups_sleep, sleeps_sleep.
      cbn [app]. split; [|split; [|split]].
      * rewrite Hl2, <- map_app. now rewrite firstn_skipn.
      * rewrite <- (firstn_skipn BATCH_SIZE papers) at 1.
        rewrite map_app.
        eapply Permutation_trans; [|apply Permutation_app; eassumption].
        rewrite (app_assoc ok1 ok2 (bad1 ++ bad2)). apply regroup.
      * cbn [List.length]. rewrite Hn2, length_skipn.
        unfold BATCH_SIZE in *.
        replace (List.length papers - 1)%nat
          with ((List.length papers - 5 - 1) + 1 * 5)%nat by lia.
        rewrite Nat.div_add by lia. lia.
      * constructor; [|exact Hd2].
        destruct (adaptiveDelay_cases (processed ++ ok1) (failed ++ bad1))
          as [[_ ->]|[_ ->]]; [now right | now left].
    + apply Nat.ltb_ge in E. unfold ret.
      rewrite firstn_all2 in * by exact E.
      exists ok1, bad1, w1, d1. rewrite Hs1.
      repeat split; try assumption; [|constructor].
      cbn [List.length]. symmetry. apply Nat.div_small. unfold BATCH_SIZE in *. lia.
Qed.

End WithEnv.

Lemma discovery_returns_distinct_ranked_candidates_witness :
  exists found w',
    discoverRelevantPapers sampleSearch 10 emptyWorld = (Returned found, w')
    /\ NoDup (map arxiv_id found)
    /\ ranked found
    /\ (Z.of_nat (List.length found) <= 3 * 10 / 5)%Z.
Proof.
  destruct (discoverRelevantPapers sampleSearch 10 emptyWorld)
    as [[found|message] w'] eqn:E; [|vm_compute in E; discriminate].
  exists found, w'. split; [reflexivity|].
  destruct (proj2 (proj1 discovery_returns_distinct_ranked_candidates
                            sampleSearch 10%Z emptyWorld) found w' E)
    as [H1 [H2 [_ [H4 _]]]].
  split; [exact H1|]. split; [exact H2|]. apply H4. lia.
Defined.

Lemma discoverRelevantPapers_store
    (searchFeed : nat -> Z -> list string -> Outcome (list Paper))
    (limit : Z) (w : World) :
  store (snd (discoverRelevantPapers searchFeed limit w)) = store w.
Proof.
  rewrite discoverRelevantPapers_outcome.
  pose proof (retryOutcome_store 3000
                (fun lastError =>
                   ("FAILED to search arXiv for related papers. Last error: "
                    ++ lastError)%string)
                (searchResults searchFeed "2308.04079" (3 * limit / 5)
                   ["gaussian splatting"; "3DGS"; "radiance field";
                    "novel view synthesis"]) w) as R.
  rewrite <- searchRelatedPapers_outcome in R.
  destruct (ArxivAgent.searchRelatedPapers _ _ _ _ w) as [[kp|m] w']; exact R.
Qed.

(** X19. [processPapersAtScale] never throws and handles every paper it is
    given exactly once, in the order given: the store lookups of the run are
    the papers' identifiers in order, each identifier is pushed to exactly
    one of the two lists, after what the lists held, and between the batches
    of five there is one pause, of 2000 or 5000 ms, and none after the
    last. *)
Theorem every_paper_is_processed_once :
  forall env papers processed failed w,
  exists ok bad w' d,
    processPapersAtScale env papers processed failed w
    = (Returned (processed ++ ok, failed ++ bad), w')
    /\ trace w' = trace w ++ d
    /\ lookups d = map arxiv_id papers
    /\ Permutation (ok ++ bad) (map arxiv_id papers)
    /\ List.length (sleeps d) = ((List.length papers - 1) / BATCH_SIZE)%nat
    /\ Forall (fun ms => ms = 2000%Z \/ ms = 5000%Z) (sleeps d).
Proof.
  intros env papers processed failed w.
  now apply (scale_lookups env (List.length papers)).
Qed.

(** X20. [buildGaussianSplattingGraph] stops with an error when the seminal
    paper cannot be processed, before any search; it passes on the error of
    a failed discovery, and the seminal paper then stays in the store.
    Otherwise it returns, having looked up each discovered paper once and
    the identifier 2308.04079 not again: for a target of [paperLimit]
    papers, at most [floor(0.6 * (paperLimit - 1))] identifiers besides
    that of the seed.  A discovered entry of the seminal paper under its
    versioned identifier 2308.04079v5 is another identifier: it is looked
    up and fetched in its turn, and the paper is stored a second time. *)
Theorem build_processes_seed_then_discovered :
  (forall env searchFeed paperLimit w,
   exists seeded w1,
    processPaper env "2308.04079" w = (Returned seeded, w1)
    /\ (seeded = false ->
        buildGaussianSplattingGraph env searchFeed paperLimit w
        = (Thrown "Failed to process seminal paper - cannot build knowledge graph",
           w1))
    /\ (seeded = true ->
        match discoverRelevantPapers searchFeed (paperLimit - 1) w1 with
        | (Thrown message, w2) =>
            buildGaussianSplattingGraph env searchFeed paperLimit w
            = (Thrown message, w2)
            /\ storedPaper "2308.04079" (store w2) <> None
        | (Returned discovered, w2) =>
            exists w3 d,
              buildGaussianSplattingGraph env searchFeed paperLimit w
              = (Returned tt, w3)
              /\ trace w3 = trace w2 ++ d
              /\ lookups d = map arxiv_id discovered
              /\ NoDup (lookups d)
              /\ ~ In "2308.04079" (lookups d)
              /\ ((1 <= paperLimit)%Z ->
                  (Z.of_nat (List.length (lookups d))
                   <= 3 * (paperLimit - 1) / 5)%Z)
        end))
  /\ (exists w3,
         buildGaussianSplattingGraph versionedEnv versionedSearch 10 emptyWorld
         = (Returned tt, w3)
         /\ lookups (trace w3) = ["2308.04079"; "2308.04079v5"]
         /\ filter isFetch (trace w3)
            = [FetchPaper "2308.04079"; FetchPaper "2308.04079v5"]
         /\ map (fun row => (arxiv_id (snd row), title (snd row)))
                (papers_table (store w3))
            = [("2308.04079", title samplePaper);
               ("2308.04079v5", title samplePaper)]).
Proof.
  split; [|eexists; split; [vm_compute; reflexivity|];
           repeat split; vm_compute; reflexivity].
  intros env searchFeed paperLimit w.
  destruct (processPaper_leaves env "2308.04079" w) as [w1 [Hp _]].
  exists (succeeded (verdict env "2308.04079" w)), w1.
  split; [exact Hp|].
  destruct (succeeded (verdict env "2308.04079" w)); split; intros Hs;
    try discriminate.
  - pose proof (success_means_stored env _ _ _ Hp) as Hstored.
    pose proof (discoverRelevantPapers_store searchFeed (paperLimit - 1) w1)
      as Hstore.
    destruct (discoverRelevantPapers searchFeed (paperLimit - 1) w1)
      as [[discovered|message] w2] eqn:D; cbn [snd] in Hstore.
    + destruct (discovered_sound _ _ _ _ _ D) as [Hnd [_ [Hrel [Hlen _]]]].
      destruct (scale_lookups env (List.length discovered) discovered
                  ["2308.04079"] [] w2 (le_n _))
        as [ok [bad [w3 [d [He [Ht [Hl [_ _]]]]]]]].
      exists (mkWorld (store w3) (trace w3) (6 + clock w3)), d.
      split; [|split; [exact Ht|split; [exact Hl|]]].
      * unfold buildGaussianSplattingGraph, tryCatch, bind,
          processPaperWithDeepAnalysis.
        rewrite Hp. unfold ret at 1. rewrite D. cbn [fst snd]. rewrite He.
        reflexivity.
      * rewrite Hl. split; [exact Hnd|]. split.
        -- intros Hin. apply in_map_iff in Hin. destruct Hin as [p [E Hin]].
           now apply (proj1 (Hrel p Hin)).
        -- intros Hlimit. rewrite length_map. apply Hlen. lia.
    + split.
      * unfold buildGaussianSplattingGraph, tryCatch, bind,
          processPaperWithDeepAnalysis.
        rewrite Hp. unfold ret at 1. rewrite D. reflexivity.
      * now rewrite Hstore.
  - unfold buildGaussianSplattingGraph, tryCatch, bind,
      processPaperWithDeepAnalysis.
    rewrite Hp. reflexivity.
Qed.

End RunExtras.

(* ================================================================== *)
(** ** ExtractionAgent: extraction from several papers *)
(* ================================================================== *)

Module BatchExtractionExtras.
Import JsArray JsArrayFacts.
Import ExtractionAgentBatch OrchestratorSpec ExtraSpec.

Lemma mapGet_mapSet (results : ResultMap) (key : string) (value : ExtractionResult)
                    (id : string) :
  mapGet (mapSet results key value) id
  = if String.eqb key id then Some value else mapGet results id.
Proof.
  unfold mapGet. induction results as [|[k v] rest IH]; cbn [mapSet find fst].
  - destruct (String.eqb key id); reflexivity.
  - destruct (String.eqb_spec k key) as [->|Hk]; cbn [find fst].
    + destruct (String.eqb key id); reflexivity.
    + destruct (String.eqb_spec k id) as [->|Hid]; [|exact IH].
      apply String.eqb_neq in Hk. rewrite String.eqb_sym in Hk.
      now rewrite Hk.
Qed.

Lemma mapSet_keys (results : ResultMap) (key : string) (value : ExtractionResult)
                  (id : string) :
  In id (map fst (mapSet results key value))
  <-> id = key \/ In id (map fst results).
Proof.
  induction results as [|[k v] rest IH]; cbn [mapSet map fst In].
  - intuition congruence.
  - destruct (String.eqb_spec k key) as [->|Hk]; cbn [map fst In].
    + intuition congruence.
    + rewrite IH. intuition congruence.
Qed.

Lemma mapSet_NoDup (results : ResultMap) (key : string) (value : ExtractionResult) :
  NoDup (map fst results) -> NoDup (map fst (mapSet results key value)).
Proof.
  induction results as [|[k v] rest IH]; cbn [mapSet map fst]; intros H.
  - constructor; [intros [] | constructor].
  - inversion H as [|x l Hk Hrest]; subst.
    destruct (String.eqb_spec k key) as [->|Hneq]; cbn [map fst].
    + now constructor.
    + constructor; [|now apply IH].
      rewrite mapSet_keys. intros [E|Hin]; [congruence | contradiction].
Qed.

Lemma extractions_app (a b : list Event) :
  extractions (a ++ b) = extractions a ++ extractions b.
Proof. apply flat_map_app. Qed.

Lemma sleeps_append (a b : list Event) : sleeps (a ++ b) = sleeps a ++ sleeps b.
Proof. apply flat_map_app. Qed.

Section WithEnv.
Variable env : Env.

Lemma extractOrEmpty_outcome (paper : Paper) (w : World) :
  extractOrEmpty env paper w
  = (Returned (arxiv_id paper,
               match extractor env (clock w) paper with
               | Some extraction => extraction
               | None => emptyExtraction
               end),
     after w [ExtractEntities paper] 1).
Proof.
  unfold extractOrEmpty, Agents.extractEntities, tryCatch, bind, emit, tick,
    ret, throw, after.
  cbn [store trace clock]. destruct (extractor env (clock w) paper); reflexivity.
Qed.

Lemma extractOrEmpty_sound (papers : list Paper) (paper : Paper) (t : nat) :
  In paper papers ->
  extractedFrom env papers (arxiv_id paper)
    match extractor env t paper with
    | Some extraction => extraction
    | None => emptyExtraction
    end.
Proof.
  intros Hin. destruct (extractor env t paper) as [e|] eqn:E.
  - right. now exists t, paper.
  - now left.
Qed.


End WithEnv.


Lemma firstn_skipn_incl {A : Type} (n i : nat) (l : list A) (x : A) :
  In x (firstn n (skipn i l)) -> In x l.
Proof.
  intros H. rewrite <- (firstn_skipn i l). apply in_or_app. right.
  rewrite <- (firstn_skipn n (skipn i l)). apply in_or_app. now left.
Qed.

Lemma extractedFrom_incl (env : Env) (l l' : list Paper) (id : string)
                         (e : ExtractionResult) :
  (forall p, In p l -> In p l') ->
  extractedFrom env l id e -> extractedFrom env l' id e.
Proof.
  intros Hincl [->|[t [p [Hin [Hid He]]]]]; [now left|].
  right. exists t, p. split; [now apply Hincl | now split].
Qed.

Lemma setAll_keys (entries : list (string * ExtractionResult)) :
  forall results id,
    In id (map fst (setAll results entries))
    <-> In id (map fst results) \/ In id (map fst entries).
Proof.
  unfold setAll.
  induction entries as [|[k v] rest IH]; intros results id; cbn [fold_left map In fst snd].
  - tauto.
  - rewrite IH, mapSet_keys. intuition congruence.
Qed.

Lemma setAll_NoDup (entries : list (string * ExtractionResult)) :
  forall results,
    NoDup (map fst results) -> NoDup (map fst (setAll results entries)).
Proof.
  unfold setAll.
  induction entries as [|[k v] rest IH]; intros results H; cbn [fold_left fst snd].
  - exact H.
  - now apply IH, mapSet_NoDup.
Qed.

Lemma setAll_get (entries : list (string * ExtractionResult)) :
  forall results id e,
    mapGet (setAll results entries) id = Some e ->
    mapGet results id = Some e \/ In (id, e) entries.
Proof.
  unfold setAll.
  induction entries as [|[k v] rest IH]; intros results id e H;
    cbn [fold_left fst snd] in H.
  - now left.
  - apply IH in H. destruct H as [H|H]; [|right; now right].
    rewrite mapGet_mapSet in H.
    destruct (String.eqb_spec k id) as [->|Hne]; [|now left].
    injection H as ->. right. now left.
Qed.

Section Parallel.
Variable env : Env.

Lemma batchPromises_spec (batch : list Paper) :
  forall acc w,
  exists entries w1 d,
    forOf batch (fun acc paper =>
                   bind (extractOrEmpty env paper)
                        (fun entry => ret (acc ++ [entry])))
          acc w
    = (Returned (acc ++ entries), w1)
    /\ trace w1 = trace w ++ d
    /\ extractions d = batch
    /\ sleeps d = []
    /\ map fst entries = map arxiv_id batch
    /\ (forall id e, In (id, e) entries -> extractedFrom env batch id e).
Proof.
  induction batch as [|paper rest IH]; intros acc w.
  - exists [], w, []. cbn [forOf ret]. rewrite !app_nil_r.
    repeat split. intros id e [].
  - cbn [forOf]. unfold bind at 1. unfold bind at 1.
    rewrite extractOrEmpty_outcome. unfold ret at 1.
    set (e := match extractor env (clock w) paper with
              | Some extraction => extraction
              | None => emptyExtraction
              end).
    destruct (IH (acc ++ [(arxiv_id paper, e)])
                 (after w [ExtractEntities paper] 1))
      as [entries [w1 [d [Hrun [Ht [Hx [Hs [Hk Hv]]]]]]]].
    exists ((arxiv_id paper, e) :: entries), w1, (ExtractEntities paper :: d).
    split; [|split; [|split; [|split; [|split]]]].
    + rewrite Hrun, <- app_assoc. reflexivity.
    + rewrite Ht. cbn [after trace]. now rewrite <- app_assoc.
    + change (ExtractEntities paper :: d) with ([ExtractEntities paper] ++ d).
      rewrite extractions_app, Hx. reflexivity.
    + change (ExtractEntities paper :: d) with ([ExtractEntities paper] ++ d).
      rewrite sleeps_append, Hs. reflexivity.
    + cbn [map fst]. now rewrite Hk.
    + intros id x [E|Hin].
      * injection E as <- <-. apply extractOrEmpty_sound. now left.
      * eapply extractedFrom_incl; [|apply Hv, Hin]. intros p Hp. now right.
Qed.

Lemma parallelLoop_spec (papers : list Paper) (concurrency : nat) :
  (1 <= concurrency)%nat ->
  forall fuel i results w,
    (List.length papers - i <= fuel)%nat ->
    exists results' w' d,
      parallelLoop env fuel papers concurrency i results w
      = Some (Returned results', w')
      /\ trace w' = trace w ++ d
      /\ extractions d = skipn i papers
      /\ sleeps d = repeat 2000%Z ((List.length papers - i - 1) / concurrency)
      /\ (forall id, In id (map fst results')
                     <-> In id (map fst results)
                         \/ In id (map arxiv_id (skipn i papers)))
      /\ (NoDup (map fst results) -> NoDup (map fst results'))
      /\ (forall id e, mapGet results' id = Some e ->
            mapGet results id = Some e \/ extractedFrom env papers id e).
Proof.
  intros Hc.
  assert (Hdone : forall fuel i results w,
             (List.length papers <= i)%nat ->
             exists results' w' d,
               parallelLoop env fuel papers concurrency i results w
               = Some (Returned results', w')
               /\ trace w' = trace w ++ d
               /\ extractions d = skipn i papers
               /\ sleeps d
                  = repeat 2000%Z ((List.length papers - i - 1) / concurrency)
               /\ (forall id, In id (map fst results')
                              <-> In id (map fst results)
                                  \/ In id (map arxiv_id (skipn i papers)))
               /\ (NoDup (map fst results) -> NoDup (map fst results'))
               /\ (forall id e, mapGet results' id = Some e ->
                     mapGet results id = Some e
                     \/ extractedFrom env papers id e)).
  { intros fuel i results w Hi. exists results, w, [].
    assert (E : (i <? List.length papers)%nat = false) by now apply Nat.ltb_ge.
    split; [destruct fuel; cbn [parallelLoop]; now rewrite E|].
    rewrite app_nil_r, skipn_all2 by exact Hi.
    replace (List.length papers - i - 1)%nat with 0%nat by lia.
    rewrite Nat.Div0.div_0_l. cbn [repeat map In].
    repeat split; try tauto; try (intros id e H; now left). }
  induction fuel as [|fuel IH]; intros i results w Hfuel.
  - apply Hdone. lia.
  - destruct (Nat.le_gt_cases (List.length papers) i) as [Hi|Hi];
      [now apply Hdone|].
    assert (E : (i <? List.length papers)%nat = true) by now apply Nat.ltb_lt.
    cbn [parallelLoop]. rewrite E, slice_nat. unfold batchPromises.
    destruct (batchPromises_spec (firstn concurrency (skipn i papers)) [] w)
      as [entries [w1 [d1 [Hrun [Ht1 [Hx1 [Hs1 [Hk1 Hv1]]]]]]]].
    rewrite Hrun. cbn [app].
    set (pause := if (i + concurrency <? List.length papers)%nat
                  then [Sleep 2000%Z] else []).
    assert (Hpause : (if (i + concurrency <? List.length papers)%nat
                      then emit (Sleep 2000) else ret tt) w1
                     = (Returned tt, after w1 pause 0)).
    { unfold pause, after.
      destruct (i + concurrency <? List.length papers)%nat.
      - reflexivity.
      - unfold ret. rewrite app_nil_r. now destruct w1. }
    rewrite Hpause.
    destruct (IH (i + concurrency)%nat (setAll results entries)
                 (after w1 pause 0))
      as [results' [w' [d2 [Hloop [Ht2 [Hx2 [Hs2 [Hk2 [Hnd2 Hv2]]]]]]]]];
      [lia|].
    exists results', w', (d1 ++ pause ++ d2).
    split; [exact Hloop|].
    split; [rewrite Ht2; cbn [after trace]; rewrite Ht1;
            now rewrite <- !app_assoc|].
    split; [|split; [|split; [|split]]].
    + rewrite !extractions_app, Hx1, Hx2.
      replace (extractions pause) with (@nil Paper)
        by (unfold pause;
            now destruct (i + concurrency <? List.length papers)%nat).
      cbn [app]. rewrite (Nat.add_comm i), <- skipn_skipn.
      apply firstn_skipn.
    + rewrite !sleeps_append, Hs1, Hs2. cbn [app]. unfold pause.
      destruct (i + concurrency <? List.length papers)%nat eqn:More.
      * apply Nat.ltb_lt in More. cbn [sleeps flat_map app].
        change (2000%Z :: repeat 2000%Z ?n) with (repeat 2000%Z (S n)).
        f_equal.
        replace (List.length papers - i - 1)%nat
          with ((List.length papers - (i + concurrency) - 1)
                + 1 * concurrency)%nat by lia.
        rewrite Nat.div_add by lia. lia.
      * apply Nat.ltb_ge in More. cbn [sleeps flat_map app]. f_equal.
        replace (List.length papers - (i + concurrency) - 1)%nat
          with 0%nat by lia.
        rewrite Nat.Div0.div_0_l. symmetry. apply Nat.div_small. lia.
    + intros id.
      assert (Hsplit : map arxiv_id (skipn i papers)
                       = map arxiv_id (firstn concurrency (skipn i papers))
                         ++ map arxiv_id (skipn (i + concurrency) papers)).
      { rewrite (Nat.add_comm i), <- skipn_skipn, <- map_app.
        now rewrite firstn_skipn. }
      rewrite Hk2, setAll_keys, Hk1, Hsplit, in_app_iff. tauto.
    + intros H. now apply Hnd2, setAll_NoDup.
    + intros id e H. destruct (Hv2 id e H) as [H'|H']; [|now right].
      apply setAll_get in H'. destruct H' as [H'|H']; [now left|].
      right. eapply extractedFrom_incl; [|apply Hv1, H'].
      intros p Hp. now apply firstn_skipn_incl in Hp.
Qed.

Lemma parallelLoop_stalls (papers : list Paper) :
  forall fuel i results w,
    (i < List.length papers)%nat ->
    parallelLoop env fuel papers 0 i results w = None.
Proof.
  induction fuel as [|fuel IH]; intros i results w Hi;
    assert (E : (i <? List.length papers)%nat = true) by (now apply Nat.ltb_lt);
    cbn [parallelLoop]; rewrite E; [reflexivity|].
  rewrite slice_nat. cbn [firstn]. unfold batchPromises. cbn [forOf].
  unfold ret at 1. cbn [setAll fold_left].
  rewrite Nat.add_0_r, E. unfold emit. apply IH. exact Hi.
Qed.

End Parallel.

(** X22. [extractEntitiesInParallel] with a concurrency of one or more ends
    after at most one round per paper and never throws: it asks for the
    extraction of every paper, in order, pauses 2000 ms between two batches
    and not after the last, and returns a map with exactly the papers'
    identifiers as keys, each with the extractor's answer for such a paper
    or the empty result.  With a concurrency of 0 and a paper to process its
    loop never ends. *)
Theorem parallel_extraction_ends_unless_concurrency_is_zero :
  (forall env papers concurrency fuel w,
      (1 <= concurrency)%nat -> (List.length papers <= fuel)%nat ->
      exists results w' d,
        extractEntitiesInParallel env fuel papers concurrency w
        = Some (Returned results, w')
        /\ trace w' = trace w ++ d
        /\ extractions d = papers
        /\ sleeps d
           = repeat 2000%Z ((List.length papers - 1) / concurrency)
        /\ NoDup (map fst results)
        /\ (forall id, In id (map fst results) <-> In id (map arxiv_id papers))
        /\ (forall id e, mapGet results id = Some e ->
              extractedFrom env papers id e))
  /\ (forall env papers fuel w,
         papers <> [] ->
         extractEntitiesInParallel env fuel papers 0 w = None).
Proof.
  split.
  - intros env papers concurrency fuel w Hc Hfuel.
    unfold extractEntitiesInParallel.
    destruct (parallelLoop_spec env papers concurrency Hc fuel 0 [] w)
      as [results [w' [d [Hrun [Ht [Hx [Hs [Hk [Hnd Hv]]]]]]]]]; [lia|].
    rewrite Nat.sub_0_r in Hs. cbn [skipn] in Hx, Hk.
    exists results, w', d. repeat split; try assumption.
    + apply Hnd. constructor.
    + intros H. apply Hk in H. destruct H as [[]|H]; exact H.
    + intros H. apply Hk. now right.
    + intros id e H. destruct (Hv id e H) as [H'|H']; [discriminate | exact H'].
  - intros env papers fuel w Hne. unfold extractEntitiesInParallel.
    apply parallelLoop_stalls. destruct papers; [contradiction | cbn; lia].
Qed.

Lemma parallel_extraction_ends_unless_concurrency_is_zero_witness :
  exists results w' d,
    extractEntitiesInParallel sampleEnv 2
      [splattingCandidate; abbreviationCandidate] 3 emptyWorld
    = Some (Returned results, w')
    /\ trace w' = trace emptyWorld ++ d
    /\ extractions d = [splattingCandidate; abbreviationCandidate]
    /\ sleeps d = [].
Proof.
  destruct (proj1 parallel_extraction_ends_unless_concurrency_is_zero
              sampleEnv [splattingCandidate; abbreviationCandidate]
              3%nat 2%nat emptyWorld)
    as [results [w' [d [H1 [H2 [H3 [H4 _]]]]]]]; [lia | cbn; lia |].
  exists results, w', d. repeat split; assumption.
Defined.

End BatchExtractionExtras.

(* ================================================================== *)
(** ** ArxivClient: request strings and fallback papers *)
(* ================================================================== *)

Module ClientExtras.
Import JsString JsStringFacts.
Import PipelineOrchestrator OrchestratorSpec PipelineRun ExtraSpec ArxivClient.
Import DiscoveryExtras RankingFacts.

Lemma sanitizeId_chars (arxivId : string) (c : ascii) :
  In c (chars (sanitizeId arxivId))
  <-> In c (chars arxivId) /\ isSafeChar c = true.
Proof.
  unfold chars. induction arxivId as [|x rest IH];
    cbn [sanitizeId list_ascii_of_string In]; [tauto|].
  destruct (isSafeChar x) eqn:S; cbn [list_ascii_of_string In]; rewrite IH.
  - intuition congruence.
  - intuition congruence.
Qed.

Lemma sanitizeId_fixed (arxivId : string) :
  sanitizeId arxivId = arxivId
  <-> (forall c, In c (chars arxivId) -> isSafeChar c = true).
Proof.
  unfold chars. induction arxivId as [|x rest IH];
    cbn [sanitizeId list_ascii_of_string In]; [tauto|].
  destruct (isSafeChar x) eqn:S.
  - split.
    + intros H. injection H as H. intros c [<-|Hc]; [exact S|].
      now apply IH.
    + intros H. f_equal. apply IH. intros c Hc. apply H. now right.
  - split.
    + intros H. exfalso.
      assert (Hin : In x (chars (sanitizeId rest)))
        by (rewrite H; now left).
      apply sanitizeId_chars in Hin. destruct Hin as [_ Hin]. congruence.
    + intros H. rewrite (H x) in S by now left. discriminate.
Qed.

Lemma sanitizeId_length (arxivId : string) :
  (String.length (sanitizeId arxivId) <= String.length arxivId)%nat.
Proof.
  induction arxivId as [|x rest IH]; cbn [sanitizeId String.length]; [lia|].
  destruct (isSafeChar x); cbn [String.length]; lia.
Qed.

Lemma sanitizeId_filter (arxivId : string) :
  chars (sanitizeId arxivId) = filter isSafeChar (chars arxivId).
Proof.
  unfold chars. induction arxivId as [|x rest IH];
    cbn [sanitizeId list_ascii_of_string filter]; [reflexivity|].
  destruct (isSafeChar x); cbn [list_ascii_of_string]; now rewrite IH.
Qed.

Lemma sanitizeId_app (a b : string) :
  sanitizeId (a ++ b) = (sanitizeId a ++ sanitizeId b)%string.
Proof.
  induction a as [|x a IH]; cbn [append sanitizeId]; [reflexivity|].
  destruct (isSafeChar x); cbn [append]; now rewrite IH.
Qed.

(** X23. [sanitizeId] keeps exactly the letters, digits, dots and hyphens
    of an identifier, each as often as it occurs and in their order: its
    characters are those of the identifier with every other character
    struck out, so it works character by character and the result of a
    concatenation is the concatenation of the results.  No other character
    is in its result (no ampersand, equals sign, slash or space reaches the
    request), it returns an identifier made of such characters as it is and
    changes every other one, and sanitising twice is sanitising once. *)
Theorem sanitizeId_keeps_the_safe_characters :
  forall arxivId,
    chars (sanitizeId arxivId) = filter isSafeChar (chars arxivId)
    /\ (forall rest, sanitizeId (arxivId ++ rest)
                     = (sanitizeId arxivId ++ sanitizeId rest)%string)
    /\ (forall c, sanitizeId (String c EmptyString)
                  = if isSafeChar c then String c EmptyString else EmptyString)
    /\ (forall c, In c (chars (sanitizeId arxivId))
                  <-> In c (chars arxivId) /\ isSafeChar c = true)
    /\ (forall c, In c (chars "&=/? #%+") -> ~ In c (chars (sanitizeId arxivId)))
    /\ (sanitizeId arxivId = arxivId
        <-> forall c, In c (chars arxivId) -> isSafeChar c = true)
    /\ sanitizeId (sanitizeId arxivId) = sanitizeId arxivId
    /\ (String.length (sanitizeId arxivId) <= String.length arxivId)%nat.
Proof.
  intros arxivId. split; [apply sanitizeId_filter|].
  split; [intros rest; apply sanitizeId_app|].
  split; [intros c; cbn [sanitizeId]; now destruct (isSafeChar c)|].
  split; [apply sanitizeId_chars|]. split; [|split; [|split]].
  - intros c Hc Hin. apply sanitizeId_chars in Hin. destruct Hin as [_ Hs].
    cbn in Hc. repeat (destruct Hc as [<-|Hc]; [discriminate Hs|]). exact Hc.
  - apply sanitizeId_fixed.
  - apply sanitizeId_fixed. intros c Hc. now apply sanitizeId_chars in Hc.
  - apply sanitizeId_length.
Qed.

Lemma chars_app (a b : string) : chars (a ++ b) = (chars a ++ chars b)%list.
Proof.
  unfold chars. induction a as [|x a IH]; cbn; [reflexivity | now rewrite IH].
Qed.

Lemma replaceChar_app (c : ascii) (replacement a b : string) :
  replaceChar c replacement (a ++ b)
  = (replaceChar c replacement a ++ replaceChar c replacement b)%string.
Proof.
  induction a as [|x a IH]; cbn [append replaceChar]; [reflexivity|].
  destruct (Ascii.eqb x c); rewrite IH; [now rewrite append_assoc | reflexivity].
Qed.

Lemma simpleEncode_app (a b : string) :
  simpleEncode (a ++ b) = (simpleEncode a ++ simpleEncode b)%string.
Proof. unfold simpleEncode. now rewrite !replaceChar_app. Qed.

Lemma simpleEncode_char (c : ascii) :
  simpleEncode (String c EmptyString) = encodeChar c.
Proof.
  unfold simpleEncode, encodeChar. cbn [replaceChar].
  destruct (Ascii.eqb_spec c space) as [->|H1]; [reflexivity|].
  cbn [replaceChar].
  destruct (Ascii.eqb_spec c apostrophe) as [->|H2]; [reflexivity|].
  cbn [replaceChar].
  destruct (Ascii.eqb_spec c doubleQuote) as [->|H3]; reflexivity.
Qed.

Lemma simpleEncode_cons (c : ascii) (s : string) :
  simpleEncode (String c s) = (encodeChar c ++ simpleEncode s)%string.
Proof.
  change (String c s) with (String c EmptyString ++ s)%string.
  now rewrite simpleEncode_app, simpleEncode_char.
Qed.

Lemma encodeChar_plain (c : ascii) :
  needsEncoding c = false -> encodeChar c = String c EmptyString.
Proof.
  unfold needsEncoding, encodeChar. intros H.
  apply orb_false_iff in H. destruct H as [H H3].
  apply orb_false_iff in H. destruct H as [H1 H2].
  now rewrite H1, H2, H3.
Qed.

Lemma encodeChar_clean (c x : ascii) :
  In x (chars (encodeChar c)) -> needsEncoding x = false.
Proof.
  unfold encodeChar.
  destruct (Ascii.eqb c space) eqn:H1;
    [cbn; intros [<-|[]]; reflexivity|].
  destruct (Ascii.eqb c apostrophe) eqn:H2;
    [cbn; intros [<-|[<-|[<-|[]]]]; reflexivity|].
  destruct (Ascii.eqb c doubleQuote) eqn:H3;
    [cbn; intros [<-|[<-|[<-|[]]]]; reflexivity|].
  cbn. intros [<-|[]]. unfold needsEncoding. now rewrite H1, H2, H3.
Qed.

Lemma encodeChar_length (c : ascii) :
  (1 <= String.length (encodeChar c))%nat.
Proof.
  unfold encodeChar.
  destruct (Ascii.eqb c space); [cbn; lia|].
  destruct (Ascii.eqb c apostrophe); [cbn; lia|].
  destruct (Ascii.eqb c doubleQuote); cbn; lia.
Qed.

Lemma length_append (a b : string) :
  String.length (a ++ b) = (String.length a + String.length b)%nat.
Proof. induction a as [|x a IH]; cbn; [reflexivity | now rewrite IH]. Qed.

Lemma simpleEncode_length (str : string) :
  (String.length str <= String.length (simpleEncode str))%nat.
Proof.
  induction str as [|c s IH]; [cbn; lia|].
  rewrite simpleEncode_cons, length_append. cbn [String.length].
  pose proof (encodeChar_length c). lia.
Qed.

Lemma simpleEncode_fixed (str : string) :
  simpleEncode str = str
  <-> (forall c, In c (chars str) -> needsEncoding c = false).
Proof.
  induction str as [|c s IH]; [cbn; tauto|].
  rewrite simpleEncode_cons. unfold chars. cbn [list_ascii_of_string In].
  fold (chars s). destruct (needsEncoding c) eqn:N.
  - split.
    + intros H. exfalso.
      assert (Hin : In c (chars (encodeChar c ++ simpleEncode s)))
        by (rewrite H; now left).
      rewrite chars_app in Hin. apply in_app_or in Hin.
      destruct Hin as [Hin|Hin].
      * apply encodeChar_clean in Hin. congruence.
      * assert (L : String.length (encodeChar c ++ simpleEncode s)
                    = S (String.length s)) by now rewrite H.
        rewrite length_append in L.
        pose proof (encodeChar_length c) as L1.
        pose proof (simpleEncode_length s) as L2.
        assert (E1 : String.length (encodeChar c) = 1%nat) by lia.
        clear L1 L2 L Hin IH.
        unfold encodeChar, needsEncoding in *.
        destruct (Ascii.eqb_spec c space) as [->|Hsp].
        { cbn in H. discriminate H. }
        destruct (Ascii.eqb c apostrophe); [cbn in E1; discriminate|].
        destruct (Ascii.eqb c doubleQuote); [cbn in E1; discriminate|].
        cbn in N. discriminate.
    + intros H. rewrite (H c) in N by now left. discriminate.
  - rewrite (encodeChar_plain c N). cbn [append]. split.
    + intros H. injection H as H. intros x [<-|Hx]; [exact N|].
      now apply IH.
    + intros H. f_equal. apply IH. intros x Hx. apply H. now right.
Qed.

Lemma simpleEncode_clean (str : string) (c : ascii) :
  In c (chars (simpleEncode str)) -> needsEncoding c = false.
Proof.
  induction str as [|x s IH]; [intros []|].
  rewrite simpleEncode_cons, chars_app. intros H. apply in_app_or in H.
  destruct H as [H|H]; [now apply encodeChar_clean in H | now apply IH].
Qed.

(** X24. [simpleEncode] makes its three replacements without one undoing
    another: the result is the query with every space, apostrophe and double
    quote replaced at once, it holds none of the three, it is the query
    itself exactly when the query holds none, and it is never shorter.
    Plus and percent signs pass as they are, so a space and a plus sign
    encode alike. *)
Theorem simpleEncode_replaces_in_one_pass :
  (forall c str,
      simpleEncode (String c str) = (encodeChar c ++ simpleEncode str)%string)
  /\ (forall a b, simpleEncode (a ++ b) = (simpleEncode a ++ simpleEncode b)%string)
  /\ (forall str c, In c (chars (simpleEncode str)) -> needsEncoding c = false)
  /\ (forall str,
         simpleEncode str = str
         <-> forall c, In c (chars str) -> needsEncoding c = false)
  /\ (forall str, (String.length str <= String.length (simpleEncode str))%nat)
  /\ (forall a b, simpleEncode (a ++ " " ++ b) = simpleEncode (a ++ "+" ++ b)).
Proof.
  split; [exact simpleEncode_cons|]. split; [exact simpleEncode_app|].
  split; [exact simpleEncode_clean|]. split; [exact simpleEncode_fixed|].
  split; [exact simpleEncode_length|].
  intros a b. now rewrite !simpleEncode_app.
Qed.

Lemma toLowerCase_app (a b : string) :
  toLowerCase (a ++ b) = (toLowerCase a ++ toLowerCase b)%string.
Proof. induction a as [|x a IH]; cbn; [reflexivity | now rewrite IH]. Qed.

Lemma mentions_intro (paper : Paper) (keyword before after_ : string) :
  toLowerCase (paperText paper) = (before ++ keyword ++ after_)%string ->
  mentions paper keyword = true.
Proof.
  intros H. unfold mentions. apply includes_iff. now exists before, after_.
Qed.

Lemma decimal_inj (i j : nat) : decimal i = decimal j -> i = j.
Proof.
  unfold decimal. intros H.
  assert (E : Some (Nat.to_uint i) = Some (Nat.to_uint j)).
  { rewrite <- !NilEmpty.usu. now rewrite H. }
  injection E as E. rewrite <- (Unsigned.of_to i), <- (Unsigned.of_to j).
  now rewrite E.
Qed.

Lemma getMockPaper_mentions (now arxivId : string) :
  mentions (getMockPaper now arxivId) "gaussian splatting" = true
  /\ mentions (getMockPaper now arxivId) "real-time" = true
  /\ mentions (getMockPaper now arxivId) "novel view synthesis" = true.
Proof.
  split; [|split].
  - apply mentions_intro
      with (before := ("mock paper " ++ toLowerCase arxivId ++ " - ")%string)
           (after_ := (" research "
                       ++ toLowerCase (abstract (getMockPaper now arxivId)))%string).
    unfold paperText, getMockPaper. cbn [title abstract].
    rewrite !toLowerCase_app, !append_assoc. reflexivity.
  - apply mentions_intro
      with (before := (toLowerCase (title (getMockPaper now arxivId))
                       ++ " this is a mock abstract for paper "
                       ++ toLowerCase arxivId
                       ++ " about gaussian splatting techniques for 3d reconstruction and novel view synthesis. the paper introduces innovative methods for ")%string)
           (after_ := " rendering.").
    unfold paperText, getMockPaper. cbn [title abstract].
    rewrite !toLowerCase_app, !append_assoc. reflexivity.
  - apply mentions_intro
      with (before := (toLowerCase (title (getMockPaper now arxivId))
                       ++ " this is a mock abstract for paper "
                       ++ toLowerCase arxivId
                       ++ " about gaussian splatting techniques for 3d reconstruction and ")%string)
           (after_ := ". the paper introduces innovative methods for real-time rendering.").
    unfold paperText, getMockPaper. cbn [title abstract].
    rewrite !toLowerCase_app, !append_assoc. reflexivity.
Qed.

Lemma mockEntry_mentions (now : string) (i : nat) :
  mentions (mockEntry now i) "gaussian splatting" = true.
Proof.
  apply mentions_intro
    with (before := "related ")
         (after_ := (" paper " ++ toLowerCase (decimal i) ++ " "
                     ++ toLowerCase (abstract (mockEntry now i)))%string).
  unfold paperText, mockEntry. cbn [title abstract].
  rewrite !toLowerCase_app, !append_assoc. reflexivity.
Qed.

Lemma splatting_is_relevant (paper : Paper) :
  mentions paper "gaussian splatting" = true ->
  PipelineOrchestrator.isRelevantToGaussianSplatting paper = true
  /\ ArxivAgent.isRelevantToGaussianSplatting paper = true
  /\ (3 <= calculateRelevanceScore paper)%Z.
Proof.
  intros H.
  pose proof (mentions_part paper _ _ gaussian_in_gaussian_splatting H) as G.
  rewrite orchestrator_gate, agent_gate, calculateRelevanceScore_weights, H, G.
  split; [reflexivity|]. split; [reflexivity|]. unfold weight.
  destruct (mentions paper "3dgs"), (mentions paper "radiance field"),
           (mentions paper "real-time"); lia.
Qed.

Lemma getMockPapers_ids (now : string) (n : nat) :
  forall start, NoDup (map arxiv_id (map (mockEntry now) (seq start n))).
Proof.
  induction n as [|n IH]; intros start; cbn [seq map]; constructor.
  - intros H. apply in_map_iff in H. destruct H as [p [E H]].
    apply in_map_iff in H. destruct H as [j [<- Hj]].
    apply in_seq in Hj. cbn [mockEntry arxiv_id] in E.
    cbn [append] in E. injection E as E. apply decimal_inj in E. lia.
  - apply IH.
Qed.

(** X25. The papers [ArxivClient] falls back on look like results: the
    mock paper of [getMockPaper] carries the identifier asked for and every
    mock paper passes both relevance tests, with a score of at least 4 for
    [getMockPaper] and at least 3 for the papers of [getMockPapers].
    [getMockPapers(count)] returns [count] papers (none for a count below 1)
    with pairwise distinct identifiers, so deduplication keeps them all. *)
Theorem mock_papers_pass_for_relevant :
  (forall now arxivId,
      arxiv_id (getMockPaper now arxivId) = arxivId
      /\ PipelineOrchestrator.isRelevantToGaussianSplatting
           (getMockPaper now arxivId) = true
      /\ ArxivAgent.isRelevantToGaussianSplatting (getMockPaper now arxivId) = true
      /\ (4 <= calculateRelevanceScore (getMockPaper now arxivId))%Z)
  /\ (forall now count,
         List.length (getMockPapers now count) = Z.to_nat count
         /\ NoDup (map arxiv_id (getMockPapers now count))
         /\ deduplicatePapers (getMockPapers now count) = getMockPapers now count
         /\ (forall p, In p (getMockPapers now count) ->
               PipelineOrchestrator.isRelevantToGaussianSplatting p = true
               /\ ArxivAgent.isRelevantToGaussianSplatting p = true
               /\ (3 <= calculateRelevanceScore p)%Z)).
Proof.
  split.
  - intros now arxivId. split; [reflexivity|].
    destruct (getMockPaper_mentions now arxivId) as [M1 [M2 _]].
    destruct (splatting_is_relevant _ M1) as [G1 [G2 _]].
    split; [exact G1|]. split; [exact G2|].
    rewrite calculateRelevanceScore_weights, M1, M2. unfold weight.
    destruct (mentions _ "3dgs"), (mentions _ "radiance field"); lia.
  - intros now count. unfold getMockPapers.
    split; [now rewrite length_map, length_seq|].
    split; [apply getMockPapers_ids|]. split.
    + apply filterUnseen_fixed; [apply getMockPapers_ids | intros p _ []].
    + intros p Hp. apply in_map_iff in Hp. destruct Hp as [i [<- _]].
      apply splatting_is_relevant, mockEntry_mentions.
Qed.

End ClientExtras.

(* ================================================================== *)
(** ** The papers table over a run *)
(* ================================================================== *)

Module StoreExtras.
Import JsString JsArray JsArrayFacts.
Import PipelineOrchestrator ValidationSpec OrchestratorSpec PipelineRun ExtraSpec.
Import StorageFacts ProcessFacts BatchFacts RunExtras.

Lemma storedPaper_none_fresh (arxivId : string) (st : Store) :
  storedPaper arxivId st = None -> ~ In arxivId (storedIds st).
Proof.
  unfold storedPaper, storedIds. intros Hfind Hin.
  apply in_map_iff in Hin. destruct Hin as [row [E Hrow]].
  pose proof (find_none _ _ Hfind row Hrow) as H. cbv beta in H.
  rewrite E, String.eqb_refl in H. discriminate.
Qed.

Lemma addsPapers_refl (ids : list string) (w : World) : addsPapers ids w w.
Proof. exists []. rewrite app_nil_r. split; [reflexivity | intros row []]. Qed.

Lemma addsPapers_trans (ids : list string) (a b c : World) :
  addsPapers ids a b -> addsPapers ids b c -> addsPapers ids a c.
Proof.
  intros [x [Ex Hx]] [y [Ey Hy]]. exists (x ++ y).
  split; [now rewrite Ey, Ex, app_assoc|].
  intros row Hin. apply in_app_or in Hin. destruct Hin; auto.
Qed.

Lemma addsPapers_incl (ids ids' : list string) (w w' : World) :
  (forall id, In id ids -> In id ids') ->
  addsPapers ids w w' -> addsPapers ids' w w'.
Proof.
  intros Hincl [x [Ex Hx]]. exists x. split; [exact Ex|].
  intros row Hin. destruct (Hx row Hin). auto.
Qed.

Lemma addsPapers_same (ids : list string) (w w' : World) :
  papers_table (store w') = papers_table (store w) -> addsPapers ids w w'.
Proof.
  intros E. exists []. rewrite app_nil_r. split; [exact E | intros row []].
Qed.

Section WithEnv.
Variable env : Env.

(** What a call of [processPaper] does to the papers table: nothing, or one
    row more, for a relevant paper under an identifier not stored before. *)
Lemma processPaper_papers (arxivId : string) (w : World) :
  papers_table (store (snd (processPaper env arxivId w)))
  = papers_table (store w)
  \/ (storedPaper arxivId (store w) = None
      /\ exists p,
           isRelevantToGaussianSplatting (fetched arxivId p) = true
           /\ papers_table (store (snd (processPaper env arxivId w)))
              = papers_table (store w)
                  ++ [(List.length (papers_table (store w)), fetched arxivId p)]).
Proof.
  unfold processPaper, DatabaseClient.findPaperByArxivId,
    Agents.fetchPaper, DatabaseClient.insertPaper, Agents.extractEntities,
    Agents.validateExtraction, Agents.analyzeCrossPaperRelationships.
  run_async.
  destruct (dbError env (clock w)) eqn:D0; run_async; [now left|].
  fold (storedPaper arxivId (store w)).
  destruct (storedPaper arxivId (store w)) as [row|] eqn:Hfind; run_async;
    [now left|].
  destruct (arxiv env (S (clock w)) arxivId) as [p|] eqn:Hfetch; run_async;
    [|now left].
  fold (fetched arxivId p).
  destruct (negb (isRelevantToGaussianSplatting (fetched arxivId p))) eqn:Hrel;
    run_async; [now left|].
  apply negb_false_iff in Hrel.
  unfold storedPaper in Hfind. cbn [arxiv_id fetched].
  rewrite (find_none_existsb _ _ Hfind), orb_false_r.
  destruct (dbError env (S (S (clock w)))) eqn:D2; run_async; [now left|].
  fold (fetched arxivId p). right. split; [reflexivity|].
  exists p. split; [exact Hrel|].
  destruct (extractor env (S (S (S (clock w)))) (fetched arxivId p)) as [e|] eqn:Hex;
    run_async; [|reflexivity].
  match goal with
  | |- context [storeKnowledgeGraph env ?pid ?ex ?w0] =>
      destruct (storeKnowledgeGraph_grows env pid ex w0) as [w5 [E5 [_ S5]]];
      rewrite E5
  end.
  cbn [store trace clock fst snd] in *. exact S5.
Qed.

Lemma processPaper_adds (arxivId : string) (w : World) :
  addsPapers [arxivId] w (snd (processPaper env arxivId w))
  /\ (distinctIds (store w) ->
      distinctIds (store (snd (processPaper env arxivId w))))
  /\ (List.length (papers_table (store (snd (processPaper env arxivId w))))
      <= S (List.length (papers_table (store w))))%nat.
Proof.
  destruct (processPaper_papers arxivId w) as [E|[Hnew [p [Hrel E]]]].
  - split; [now apply addsPapers_same|]. unfold distinctIds, storedIds.
    rewrite E. split; [tauto | lia].
  - split; [|split].
    + exists [(List.length (papers_table (store w)), fetched arxivId p)].
      split; [exact E|]. intros row [<-|[]]. cbn [snd fetched arxiv_id].
      split; [now left | exact Hrel].
    + unfold distinctIds, storedIds. rewrite E, map_app. cbn [map snd].
      intros Hnd. apply NoDup_app; [exact Hnd | |].
      * constructor; [intros [] | constructor].
      * intros id Hin [<-|[]]. cbn [fetched arxiv_id] in Hin.
        exact (storedPaper_none_fresh _ _ Hnew Hin).
    + rewrite E, length_app. cbn [List.length]. lia.
Qed.

Lemma processingPromise_returns (lists : list string * list string)
                                (paper : Paper) (w : World) :
  exists lists',
    processingPromise env lists paper w
    = (Returned lists', snd (processPaper env (arxiv_id paper) w)).
Proof.
  destruct (processPaper_leaves env (arxiv_id paper) w) as [w' [E _]].
  unfold processingPromise, tryCatch, bind, ret. rewrite E.
  eexists. reflexivity.
Qed.

Lemma settleBatch_adds (batch : list Paper) :
  forall lists w,
    addsPapers (map arxiv_id batch) w (snd (settleBatch env batch lists w))
    /\ (distinctIds (store w) ->
        distinctIds (store (snd (settleBatch env batch lists w)))).
Proof.
  unfold settleBatch.
  induction batch as [|paper rest IH]; intros lists w.
  - cbn [forOf ret snd]. split; [apply addsPapers_refl | tauto].
  - destruct (processingPromise_returns lists paper w) as [l1 E].
    cbn [forOf]. unfold bind. rewrite E.
    destruct (processPaper_adds (arxiv_id paper) w) as [A1 [D1 _]].
    destruct (IH l1 (snd (processPaper env (arxiv_id paper) w))) as [A2 D2].
    split.
    + eapply addsPapers_trans.
      * eapply addsPapers_incl; [|exact A1]. intros id [<-|[]]. now left.
      * eapply addsPapers_incl; [|exact A2]. intros id Hin. now right.
    + intros H. now apply D2, D1.
Qed.

Lemma scale_adds (n : nat) :
  forall papers processed failed w,
    (List.length papers <= n)%nat ->
    addsPapers (map arxiv_id papers) w
               (snd (processPapersAtScale env papers processed failed w))
    /\ (distinctIds (store w) ->
        distinctIds
          (store (snd (processPapersAtScale env papers processed failed w)))).
Proof.
  induction n as [|n IH]; intros papers processed failed w Hn;
    remember (processPapersAtScale env papers processed failed w) as run eqn:R;
    rewrite processPapersAtScale_unfold in R.
  - destruct papers; [|cbn in Hn; lia].
    subst run. cbn [snd]. split; [apply addsPapers_refl | tauto].
  - destruct papers as [|paper rest] eqn:P.
    { subst run. cbn [snd]. split; [apply addsPapers_refl | tauto]. }
    rewrite <- P in *.
    assert (Hpos : (0 < List.length papers)%nat) by (rewrite P; cbn; lia).
    clear P paper rest.
    destruct (settleBatch_adds (firstn BATCH_SIZE papers) (processed, failed) w)
      as [A1 D1].
    destruct (settleBatch_settles env (firstn BATCH_SIZE papers)
                (processed, failed) w) as [lists1 [w1 [E1 _]]].
    rewrite E1 in A1, D1. cbn [snd] in A1, D1.
    unfold bind at 1 in R. rewrite E1 in R.
    assert (Hfirst : forall id, In id (map arxiv_id (firstn BATCH_SIZE papers)) ->
                                In id (map arxiv_id papers)).
    { intros id Hin. apply in_map_iff in Hin. destruct Hin as [p [<- Hp]].
      apply in_map. eapply RetryExtras.firstn_incl, Hp. }
    destruct (BATCH_SIZE <? List.length papers)%nat eqn:E.
    + unfold bind, sleep, emit in R. subst run.
      destruct (IH (skipn BATCH_SIZE papers) (fst lists1) (snd lists1)
                   (mkWorld (store w1)
                      (trace w1 ++ [Sleep (adaptiveDelay (fst lists1)
                                                         (snd lists1))])
                      (clock w1)))
        as [A2 D2].
      { rewrite length_skipn. unfold BATCH_SIZE. lia. }
      cbn [store] in A2, D2. split.
      * eapply addsPapers_trans; [eapply addsPapers_incl; [exact Hfirst|exact A1]|].
        eapply addsPapers_incl; [|].
        2:{ destruct A2 as [x [Ex Hx]]. exists x. split; [exact Ex | exact Hx]. }
        intros id Hin. apply in_map_iff in Hin. destruct Hin as [p [<- Hp]].
        apply in_map. eapply RetryExtras.skipn_incl, Hp.
      * intros H. now apply D2, D1.
    + unfold ret in R. subst run. cbn [snd]. split.
      * eapply addsPapers_incl; [exact Hfirst | exact A1].
      * exact D1.
Qed.

End WithEnv.

(** X26. The run stores only relevant papers, each once.  A call of
    [processPaper] leaves the papers table as it was or adds one row, for a
    paper that passes the relevance test, under the identifier asked for;
    [processPapersAtScale] adds rows only under identifiers of its papers;
    and neither of them, nor the whole of [buildGaussianSplattingGraph],
    ever leaves two stored papers with one identifier when there were none
    before, whether it returns or throws. *)
Theorem papers_are_stored_once :
  (forall env arxivId w,
      addsPapers [arxivId] w (snd (processPaper env arxivId w))
      /\ (distinctIds (store w) ->
          distinctIds (store (snd (processPaper env arxivId w))))
      /\ (List.length (papers_table (store (snd (processPaper env arxivId w))))
          <= S (List.length (papers_table (store w))))%nat)
  /\ (forall env papers processed failed w,
         addsPapers (map arxiv_id papers) w
                    (snd (processPapersAtScale env papers processed failed w))
         /\ (distinctIds (store w) ->
             distinctIds
               (store (snd (processPapersAtScale env papers processed failed w)))))
  /\ (forall env searchFeed paperLimit w,
         distinctIds (store w) ->
         distinctIds
           (store (snd (buildGaussianSplattingGraph env searchFeed paperLimit w)))).
Proof.
  split; [exact processPaper_adds|]. split.
  - intros env papers processed failed w.
    now apply (scale_adds env (List.length papers)).
  - intros env searchFeed paperLimit w Hw.
    destruct (processPaper_leaves env "2308.04079" w) as [w1 [Hp _]].
    destruct (processPaper_adds env "2308.04079" w) as [_ [D1 _]].
    rewrite Hp in D1. cbn [snd] in D1. specialize (D1 Hw).
    unfold buildGaussianSplattingGraph, tryCatch, bind,
      processPaperWithDeepAnalysis.
    rewrite Hp.
    destruct (succeeded (verdict env "2308.04079" w)); [|exact D1].
    unfold ret at 1.
    pose proof (discoverRelevantPapers_store searchFeed (paperLimit - 1) w1)
      as Hstore.
    destruct (discoverRelevantPapers searchFeed (paperLimit - 1) w1)
      as [[discovered|message] w2]; cbn [snd] in Hstore.
    + cbn [fst snd].
      destruct (scale_adds env (List.length discovered) discovered
                  ["2308.04079"] [] w2 (le_n _)) as [_ D2].
      destruct (processPapersAtScale_records_every_paper env
                  (List.length discovered) discovered ["2308.04079"] [] w2
                  (le_n _)) as [lists' [w3 [E3 _]]].
      rewrite E3 in D2 |- *. cbn [snd] in D2.
      cbn. apply D2. unfold distinctIds, storedIds. now rewrite Hstore.
    + unfold throw. cbn [snd]. unfold distinctIds, storedIds. now rewrite Hstore.
Qed.

Ltac run_async_in H :=
  cbv beta iota zeta delta [tryCatch bind emit tick getStore setStore ret throw]
    in H;
  cbn [store trace clock fst snd Nat.add] in H.

(** X27. A paper [insertPaper] has stored is found again: after a successful
    insert, a lookup of the paper's identifier that does not itself fail
    finds a row with the identifier returned by the insert.  The insert
    succeeds only for an identifier that was not stored, and a second insert
    under the same identifier throws and leaves the store as it is. *)
Theorem inserted_paper_is_found :
  forall env paper w paperId w1,
    DatabaseClient.insertPaper env paper w = (Returned paperId, w1) ->
    storedPaper (arxiv_id paper) (store w) = None
    /\ (exists row, storedPaper (arxiv_id paper) (store w1) = Some row
                    /\ fst row = paperId)
    /\ (dbError env (clock w1) = false ->
        exists row w2,
          DatabaseClient.findPaperByArxivId env (arxiv_id paper) w1
          = (Returned (Some row), w2)
          /\ fst row = paperId
          /\ arxiv_id (snd row) = arxiv_id paper
          /\ store w2 = store w1)
    /\ (forall other,
           arxiv_id other = arxiv_id paper ->
           exists message w2,
             DatabaseClient.insertPaper env other w1 = (Thrown message, w2)
             /\ store w2 = store w1).
Proof.
  intros env paper w paperId w1 H.
  unfold DatabaseClient.insertPaper in H. run_async_in H.
  destruct (dbError env (clock w)) eqn:D0; [discriminate|].
  cbn [orb] in H.
  destruct (existsb (fun row => String.eqb (arxiv_id (snd row)) (arxiv_id paper))
                    (papers_table (store w))) eqn:Ex; [discriminate|].
  run_async_in H. injection H as <- <-.
  assert (Hnone : storedPaper (arxiv_id paper) (store w) = None).
  { unfold storedPaper.
    destruct (find _ (papers_table (store w))) as [row|] eqn:F; [|reflexivity].
    apply find_some in F. destruct F as [Hin Hrow].
    assert (Hex : existsb (fun row => String.eqb (arxiv_id (snd row))
                                                 (arxiv_id paper))
                          (papers_table (store w)) = true)
      by (apply existsb_exists; now exists row).
    congruence. }
  assert (Hsome : storedPaper (arxiv_id paper)
                    (mkStore (papers_table (store w)
                                ++ [(List.length (papers_table (store w)), paper)])
                             (concepts_table (store w))
                             (paper_concepts_table (store w))
                             (relationships_table (store w)))
                  = Some (List.length (papers_table (store w)), paper)).
  { unfold storedPaper. cbn [papers_table].
    apply find_app_last; [exact Hnone | apply String.eqb_refl]. }
  split; [exact Hnone|]. cbn [store].
  split; [eexists; split; [exact Hsome | reflexivity]|]. split.
  - intros D1. cbn [clock] in D1.
    unfold DatabaseClient.findPaperByArxivId. run_async. rewrite D1. run_async.
    unfold storedPaper in Hsome. rewrite Hsome.
    eexists. eexists. split; [reflexivity|]. repeat split.
  - intros other Hid. unfold DatabaseClient.insertPaper. run_async.
    assert (Hex : existsb (fun row => String.eqb (arxiv_id (snd row))
                                                 (arxiv_id other))
                          (papers_table (store w)
                             ++ [(List.length (papers_table (store w)), paper)])
                  = true).
    { apply existsb_exists. exists (List.length (papers_table (store w)), paper).
      split; [apply in_or_app; right; now left|].
      cbn [snd]. rewrite Hid. apply String.eqb_refl. }
    cbn [papers_table store]. rewrite Hex, orb_true_r.
    eexists. eexists. split; reflexivity.
Qed.

Lemma inserted_paper_is_found_witness :
  storedPaper "2308.04079" emptyStore = None
  /\ exists w1,
       DatabaseClient.insertPaper sampleEnv samplePaper emptyWorld
       = (Returned 0%nat, w1)
       /\ exists row, storedPaper "2308.04079" (store w1) = Some row
                      /\ fst row = 0%nat.
Proof.
  split; [reflexivity|]. eexists. split; [vm_compute; reflexivity|].
  apply (inserted_paper_is_found sampleEnv samplePaper emptyWorld 0%nat).
  vm_compute. reflexivity.
Defined.

Lemma category_eqb_eq (a b : Category) : category_eqb a b = true -> a = b.
Proof. destruct a, b; cbn; intros H; try reflexivity; discriminate. Qed.

Lemma category_eqb_refl (a : Category) : category_eqb a a = true.
Proof. now destruct a. Qed.

Lemma find_first_match {A : Type} (f g : A -> bool) (l : list A) (x : A) :
  existsb g l = false ->
  (forall y, f y = true -> g y = true) ->
  f x = true ->
  find f (l ++ [x]) = Some x.
Proof.
  intros Hg Hfg Hx. apply find_app_last; [|exact Hx].
  destruct (find f l) as [y|] eqn:F; [|reflexivity].
  apply find_some in F. destruct F as [Hin Hy].
  assert (E : existsb g l = true) by (apply existsb_exists; exists y; auto).
  congruence.
Qed.

Lemma NoDup_map_same {A B : Type} (f : A -> B) (l : list A) (x y : A) :
  NoDup (map f l) -> In x l -> In y l -> f x = f y -> x = y.
Proof.
  induction l as [|z l IH]; intros Hnd Hx Hy E; [destruct Hx|].
  cbn [map] in Hnd. inversion Hnd as [|b bs Hz Hrest]; subst.
  destruct Hx as [->|Hx], Hy as [->|Hy]; auto.
  - exfalso. apply Hz. rewrite E. now apply in_map.
  - exfalso. apply Hz. rewrite <- E. now apply in_map.
Qed.

(** X28. A concept name is stored once.  After a successful [insertConcept]
    the concept has a row with the identifier returned; inserting the same
    concept again returns that identifier and changes nothing, and concept
    names stay pairwise distinct.  A concept with a stored name and another
    category cannot be inserted: [storeConcept] then counts nothing, links
    nothing and leaves the store as it is. *)
Theorem a_concept_name_is_stored_once :
  forall env concept w conceptId w1,
    DatabaseClient.insertConcept env concept w = (Returned conceptId, w1) ->
    (distinctNames (store w) -> distinctNames (store w1))
    /\ (exists row,
           In row (concepts_table (store w1))
           /\ fst row = conceptId
           /\ name (snd row) = name concept
           /\ category (snd row) = category concept)
    /\ (dbError env (clock w1) = false ->
        exists w2,
          DatabaseClient.insertConcept env concept w1 = (Returned conceptId, w2)
          /\ store w2 = store w1)
    /\ (distinctNames (store w1) ->
        forall other paperId storedCount,
          name other = name concept ->
          category other <> category concept ->
          exists w2,
            storeConcept env paperId storedCount other w1
            = (Returned storedCount, w2)
            /\ store w2 = store w1).
Proof.
  intros env concept w conceptId w1 H.
  set (matches := fun c (row : nat * Concept) =>
                    String.eqb (name (snd row)) (name c)
                    && category_eqb (category (snd row)) (category c)).
  set (named := fun c (row : nat * Concept) =>
                  String.eqb (name (snd row)) (name c)).
  (* the row of the concept in the store the call leaves *)
  assert (Hrow : exists row,
             In row (concepts_table (store w1))
             /\ fst row = conceptId
             /\ find (matches concept) (concepts_table (store w1)) = Some row
             /\ (distinctNames (store w) -> distinctNames (store w1))).
  { unfold DatabaseClient.insertConcept in H. run_async_in H.
    fold (matches concept) in H. fold (named concept) in H.
    destruct (if dbError env (clock w) then None
              else find (matches concept) (concepts_table (store w)))
      as [row|] eqn:Hfind.
    - run_async_in H. injection H as <- <-. cbn [store].
      destruct (dbError env (clock w)); [discriminate|].
      exists row. split; [now apply find_some in Hfind|].
      split; [reflexivity|]. split; [exact Hfind | tauto].
    - run_async_in H.
      destruct (dbError env (S (clock w))); [discriminate|]. cbn [orb] in H.
      destruct (existsb (named concept) (concepts_table (store w))) eqn:Ex;
        [discriminate|].
      run_async_in H. injection H as <- <-. cbn [store concepts_table].
      exists (List.length (concepts_table (store w)), concept).
      split; [apply in_or_app; right; now left|]. split; [reflexivity|]. split.
      + apply (find_first_match _ (named concept)); [exact Ex | |].
        * intros y Hy. unfold matches in Hy. apply andb_true_iff in Hy. tauto.
        * unfold matches. cbn [snd].
          now rewrite String.eqb_refl, category_eqb_refl.
      + unfold distinctNames, conceptNames. cbn [concepts_table].
        rewrite map_app. cbn [map snd]. intros Hnd.
        apply NoDup_app; [exact Hnd | constructor; [intros []|constructor] |].
        intros x Hin [<-|[]]. apply in_map_iff in Hin.
        destruct Hin as [r [E Hr]].
        assert (Hex : existsb (named concept) (concepts_table (store w)) = true).
        { apply existsb_exists. exists r. split; [exact Hr|].
          unfold named. rewrite E. apply String.eqb_refl. }
        congruence. }
  destruct Hrow as [row [Hin [Hid [Hfind Hnd]]]].
  assert (Hmatch : matches concept row = true) by now apply find_some in Hfind.
  unfold matches in Hmatch. apply andb_true_iff in Hmatch.
  destruct Hmatch as [Hname Hcat].
  apply String.eqb_eq in Hname. apply category_eqb_eq in Hcat.
  split; [exact Hnd|]. split; [now exists row|]. split.
  - intros D. unfold DatabaseClient.insertConcept. run_async. rewrite D.
    fold (matches concept). rewrite Hfind. run_async.
    eexists. split; [now rewrite Hid | reflexivity].
  - intros Hdistinct other paperId storedCount Hother Hcategory.
    unfold storeConcept.
    destruct (Qle_bool (7 # 10) (confidence other));
      [|eexists; split; reflexivity].
    assert (Hnone : find (matches other) (concepts_table (store w1)) = None).
    { destruct (find (matches other) (concepts_table (store w1))) as [r|] eqn:F;
        [|reflexivity].
      apply find_some in F. destruct F as [Hr Hm]. unfold matches in Hm.
      apply andb_true_iff in Hm. destruct Hm as [Hn Hc].
      apply String.eqb_eq in Hn. apply category_eqb_eq in Hc.
      assert (r = row).
      { apply (NoDup_map_same (fun x => name (snd x)) (concepts_table (store w1)));
          [exact Hdistinct | exact Hr | exact Hin | congruence]. }
      subst r. congruence. }
    assert (Hex : existsb (named other) (concepts_table (store w1)) = true).
    { apply existsb_exists. exists row. split; [exact Hin|].
      unfold named. rewrite Hname, Hother. apply String.eqb_refl. }
    unfold DatabaseClient.insertConcept. run_async.
    fold (matches other). fold (named other). rewrite Hnone, Hex.
    destruct (dbError env (clock w1)); run_async; rewrite orb_true_r;
      eexists; split; reflexivity.
Qed.

Lemma a_concept_name_is_stored_once_witness :
  exists w1,
    DatabaseClient.insertConcept sampleEnv sampleConcept emptyWorld
    = (Returned 0%nat, w1)
    /\ (exists row,
           In row (concepts_table (store w1))
           /\ fst row = 0%nat
           /\ name (snd row) = name sampleConcept
           /\ category (snd row) = category sampleConcept).
Proof.
  eexists. split; [vm_compute; reflexivity|].
  apply (a_concept_name_is_stored_once sampleEnv sampleConcept emptyWorld 0%nat).
  vm_compute. reflexivity.
Defined.

End StoreExtras.
